(** * HydroRun: the storage layer (shared/schema.ts, server/storage.ts)

    A shallow embedding of the entity model, of the in-memory store
    [MemStorage] and of the relational store [DatabaseStorage], followed by
    the properties of the storage contract.

    Conventions of the embedding:
    - a JavaScript [number] held in an [integer]/[serial] column is a [Z];
      a [doublePrecision] column is an IEEE-754 value ([spec_float]);
    - a [Date] is its time value [getTime()], milliseconds since the epoch;
      [new Date()] reads the server clock, which every operation that calls
      it receives as the argument [now]; the server's time zone is the
      argument [LocalTZA] of the one operation that reads local time;
    - an optional, nullable input property ([T | null | undefined]) is a
      [Js.opt T]; a nullable stored column ([T | null]) is an [option T];
    - a [Map<number, T>] is an association list in insertion order, which is
      the order [Map.prototype.values()] enumerates;
    - the client [db] of the relational engine is not part of the sources:
      module [Db] models its tables and statements, with the constraints
      that shared/schema.ts declares. *)

From Stdlib Require Import ZArith List String Bool Lia Permutation Sorted.
From Stdlib Require Import SpecFloat.
Import ListNotations.
Local Open Scope Z_scope.

(** ** JavaScript values and operators *)

Module Js.

Inductive opt (A : Type) : Type :=
| Undefined
| Null
| Val (a : A).
Arguments Undefined {A}.
Arguments Null {A}.
Arguments Val {A} a.

(** ToBoolean on the primitive types the schema uses. *)
Class Truthy (A : Type) := truthy : A -> bool.

#[global] Instance truthy_number : Truthy Z :=
  fun n => negb (n =? 0).

#[global] Instance truthy_string : Truthy string :=
  fun s => negb (String.eqb s EmptyString).

#[global] Instance truthy_boolean : Truthy bool :=
  fun b => b.

(** A double is falsy when it is +0, -0 or NaN. *)
#[global] Instance truthy_double : Truthy spec_float :=
  fun f => match f with
           | S754_zero _ | S754_nan => false
           | _ => true
           end.

(** [x || null] *)
Definition or_null {A} `{Truthy A} (x : opt A) : option A :=
  match x with
  | Val a => if truthy a then Some a else None
  | Null | Undefined => None
  end.

(** [x || d] *)
Definition or_else {A} `{Truthy A} (x : opt A) (d : A) : A :=
  match x with
  | Val a => if truthy a then a else d
  | Null | Undefined => d
  end.

(** [x ?? d] *)
Definition nullish {A} (x : opt A) (d : A) : A :=
  match x with
  | Val a => a
  | Null | Undefined => d
  end.

(** ToBoolean of a nullable boolean column, as in [filter(a => a.isPublic)]. *)
Definition truthy_nullable (b : option bool) : bool :=
  match b with
  | Some v => v
  | None => false
  end.

End Js.

(** ** [Map<number, V>] *)

Module JsMap.

Definition t (V : Type) := list (Z * V).

Definition empty {V} : t V := [].

Fixpoint get {V} (k : Z) (m : t V) : option V :=
  match m with
  | [] => None
  | (k', v) :: r => if k =? k' then Some v else get k r
  end.

(** [set] keeps the position of a key that is already present and appends a
    new key at the end. *)
Fixpoint set {V} (k : Z) (v : V) (m : t V) : t V :=
  match m with
  | [] => [(k, v)]
  | (k', v') :: r => if k =? k' then (k, v) :: r else (k', v') :: set k v r
  end.

Definition delete {V} (k : Z) (m : t V) : t V :=
  filter (fun kv => negb (k =? fst kv)) m.

Definition keys {V} (m : t V) : list Z := map fst m.

(** [Array.from(m.values())] *)
Definition values {V} (m : t V) : list V := map snd m.

Definition has {V} (k : Z) (m : t V) : bool :=
  existsb (fun k' => k =? k') (keys m).

End JsMap.

(** ** [Array.prototype] methods used by the stores *)

Module Array.

Definition find {A} (p : A -> bool) (l : list A) : option A := List.find p l.

Definition filter {A} (p : A -> bool) (l : list A) : list A := List.filter p l.

(** [sort(comparefn)]: the sort is stable, and [comparefn a b <= 0] keeps [a]
    before [b]. *)
Fixpoint insert {A} (cmp : A -> A -> Z) (x : A) (l : list A) : list A :=
  match l with
  | [] => [x]
  | y :: r => if cmp x y <=? 0 then x :: y :: r else y :: insert cmp x r
  end.

Definition sort {A} (cmp : A -> A -> Z) (l : list A) : list A :=
  fold_right (insert cmp) [] l.

(** [slice(start, end)] for integral arguments: a negative index counts from
    the end, and both are clamped to the length. *)
Definition slice {A} (start end_ : Z) (l : list A) : list A :=
  let len := Z.of_nat (List.length l) in
  let k := if start <? 0 then Z.max (len + start) 0 else Z.min start len in
  let final := if end_ <? 0 then Z.max (len + end_) 0 else Z.min end_ len in
  firstn (Z.to_nat (final - k)) (skipn (Z.to_nat k) l).

End Array.

(** ** [Date]

    Local time follows ECMAScript: a time zone is the abstract operation
    [LocalTZA(t, isUTC)], the offset of local time from UTC in milliseconds.
    With [isUTC = true], [t] is an instant and the answer is the offset in
    force at that instant; with [isUTC = false], [t] is a local time value
    and the answer is the offset under which that wall-clock reading is
    taken (the offset before the transition for a reading that a transition
    skips or repeats).  The offset may change from one instant to the next,
    so that a local day can last 23 or 25 hours.  Time values are those of
    valid dates; the range limit of [Date] (8.64e15 ms either side of the
    epoch) is not modelled. *)

Module Date.

Definition msPerDay : Z := 86400000.
Definition msPerHour : Z := 3600000.
Definition msPerMinute : Z := 60000.
Definition msPerSecond : Z := 1000.

Definition zone := Z -> bool -> Z.

(** A zone whose offset never changes. *)
Definition fixed (tza : Z) : zone := fun _ _ => tza.

(** A zone whose offset changes once, at the instant [change], from [before]
    to [after].  A local time value is read before the change when the
    instant it then names precedes the change (this is also the earlier of
    the two instants of a reading that the clock repeats), after the change
    when the instant it then names does not precede it, and with the offset
    before the change when the clock skips it. *)
Definition changing (change before after : Z) : zone :=
  fun t isUTC =>
    if isUTC then (if t <? change then before else after)
    else if t - before <? change then before
    else if change <=? t - after then after
    else before.

Definition LocalTime (LocalTZA : zone) (t : Z) : Z := t + LocalTZA t true.
Definition UTC (LocalTZA : zone) (t : Z) : Z := t - LocalTZA t false.
Definition Day (t : Z) : Z := t / msPerDay.
Definition MakeTime (h m s ms : Z) : Z :=
  h * msPerHour + m * msPerMinute + s * msPerSecond + ms.
Definition MakeDate (day time : Z) : Z := day * msPerDay + time.

(** [d.setHours(h, m, s, ms)]: the new time value of [d]. *)
Definition setHours (LocalTZA : zone) (t h m s ms : Z) : Z :=
  UTC LocalTZA (MakeDate (Day (LocalTime LocalTZA t)) (MakeTime h m s ms)).

End Date.

(** ** Entity model (shared/schema.ts) *)

Module User.
Record t := mk {
  id : Z;
  username : string;
  password : string;
  email : string;
  profilePicture : option string;
  dailyWaterGoal : option Z
}.
End User.

Module InsertUser.
Record t := mk {
  username : string;
  password : string;
  email : string;
  profilePicture : Js.opt string;
  dailyWaterGoal : Js.opt Z
}.
End InsertUser.

(** [Partial<User>]: [None] is a key that is absent from the object. *)
Module PartialUser.
Record t := mk {
  id : option Z;
  username : option string;
  password : option string;
  email : option string;
  profilePicture : option (option string);
  dailyWaterGoal : option (option Z)
}.
Definition only_email (e : string) : t :=
  mk None None None (Some e) None None.
End PartialUser.

Module WaterIntake.
Record t := mk {
  id : Z;
  userId : Z;
  amount : Z;
  timestamp : Z
}.
End WaterIntake.

Module InsertWaterIntake.
Record t := mk {
  userId : Z;
  amount : Z
}.
End InsertWaterIntake.

Module Activity.
Record t := mk {
  id : Z;
  userId : Z;
  title : string;
  type : string;
  distance : spec_float;
  duration : Z;
  elevationGain : option Z;
  weather : option string;
  temperature : option spec_float;
  timestamp : Z;
  isPublic : option bool
}.
End Activity.

Module InsertActivity.
Record t := mk {
  userId : Z;
  title : string;
  type : string;
  distance : spec_float;
  duration : Z;
  elevationGain : Js.opt Z;
  weather : Js.opt string;
  temperature : Js.opt spec_float;
  isPublic : Js.opt bool
}.
End InsertActivity.

Module Route.
Record t := mk {
  id : Z;
  activityId : Z;
  coordinates : string
}.
End Route.

Module InsertRoute.
Record t := mk {
  activityId : Z;
  coordinates : string
}.
End InsertRoute.

Module Post.
Record t := mk {
  id : Z;
  userId : Z;
  activityId : option Z;
  content : string;
  imagePath : option string;
  timestamp : Z
}.
End Post.

Module InsertPost.
Record t := mk {
  userId : Z;
  activityId : Js.opt Z;
  content : string;
  imagePath : Js.opt string
}.
End InsertPost.

Module Like.
Record t := mk {
  id : Z;
  userId : Z;
  postId : Z
}.
End Like.

Module InsertLike.
Record t := mk {
  userId : Z;
  postId : Z
}.
End InsertLike.

Module Comment.
Record t := mk {
  id : Z;
  userId : Z;
  postId : Z;
  content : string;
  timestamp : Z
}.
End Comment.

Module InsertComment.
Record t := mk {
  userId : Z;
  postId : Z;
  content : string
}.
End InsertComment.

(** [{ ...user, ...data }] *)
Definition spread_user (user : User.t) (data : PartialUser.t) : User.t :=
  let pick {A} (o : option A) (d : A) := match o with Some v => v | None => d end in
  User.mk
    (pick (PartialUser.id data) (User.id user))
    (pick (PartialUser.username data) (User.username user))
    (pick (PartialUser.password data) (User.password user))
    (pick (PartialUser.email data) (User.email user))
    (pick (PartialUser.profilePicture data) (User.profilePicture user))
    (pick (PartialUser.dailyWaterGoal data) (User.dailyWaterGoal user)).

(** ** The in-memory store (class [MemStorage]) *)

Module MemStorage.

Record t := mk {
  users : JsMap.t User.t;
  waterIntakes : JsMap.t WaterIntake.t;
  activities : JsMap.t Activity.t;
  routes : JsMap.t Route.t;
  posts : JsMap.t Post.t;
  likes : JsMap.t Like.t;
  comments : JsMap.t Comment.t;
  userIdCounter : Z;
  waterIntakeIdCounter : Z;
  activityIdCounter : Z;
  routeIdCounter : Z;
  postIdCounter : Z;
  likeIdCounter : Z;
  commentIdCounter : Z
}.

(** Assignments to one map and its counter; every other field is kept. *)
Definition with_users (m : JsMap.t User.t) (c : Z) (s : t) : t :=
  mk m (waterIntakes s) (activities s) (routes s) (posts s) (likes s)
     (comments s) c (waterIntakeIdCounter s) (activityIdCounter s)
     (routeIdCounter s) (postIdCounter s) (likeIdCounter s)
     (commentIdCounter s).

Definition with_waterIntakes (m : JsMap.t WaterIntake.t) (c : Z) (s : t) : t :=
  mk (users s) m (activities s) (routes s) (posts s) (likes s)
     (comments s) (userIdCounter s) c (activityIdCounter s)
     (routeIdCounter s) (postIdCounter s) (likeIdCounter s)
     (commentIdCounter s).

Definition with_activities (m : JsMap.t Activity.t) (c : Z) (s : t) : t :=
  mk (users s) (waterIntakes s) m (routes s) (posts s) (likes s)
     (comments s) (userIdCounter s) (waterIntakeIdCounter s) c
     (routeIdCounter s) (postIdCounter s) (likeIdCounter s)
     (commentIdCounter s).

Definition with_routes (m : JsMap.t Route.t) (c : Z) (s : t) : t :=
  mk (users s) (waterIntakes s) (activities s) m (posts s) (likes s)
     (comments s) (userIdCounter s) (waterIntakeIdCounter s)
     (activityIdCounter s) c (postIdCounter s) (likeIdCounter s)
     (commentIdCounter s).

Definition with_posts (m : JsMap.t Post.t) (c : Z) (s : t) : t :=
  mk (users s) (waterIntakes s) (activities s) (routes s) m (likes s)
     (comments s) (userIdCounter s) (waterIntakeIdCounter s)
     (activityIdCounter s) (routeIdCounter s) c (likeIdCounter s)
     (commentIdCounter s).

Definition with_likes (m : JsMap.t Like.t) (c : Z) (s : t) : t :=
  mk (users s) (waterIntakes s) (activities s) (routes s) (posts s) m
     (comments s) (userIdCounter s) (waterIntakeIdCounter s)
     (activityIdCounter s) (routeIdCounter s) (postIdCounter s) c
     (commentIdCounter s).

Definition with_comments (m : JsMap.t Comment.t) (c : Z) (s : t) : t :=
  mk (users s) (waterIntakes s) (activities s) (routes s) (posts s) (likes s)
     m (userIdCounter s) (waterIntakeIdCounter s)
     (activityIdCounter s) (routeIdCounter s) (postIdCounter s)
     (likeIdCounter s) c.

(** *** User methods *)

Definition getUser (id : Z) (s : t) : option User.t :=
  JsMap.get id (users s).

Definition getUserByUsername (username : string) (s : t) : option User.t :=
  Array.find (fun user => String.eqb (User.username user) username)
             (JsMap.values (users s)).

Definition createUser (insertUser : InsertUser.t) (s : t) : User.t * t :=
  let id := userIdCounter s in
  let user :=
    User.mk id
      (InsertUser.username insertUser)
      (InsertUser.password insertUser)
      (InsertUser.email insertUser)
      (Js.or_null (InsertUser.profilePicture insertUser))
      (Some (Js.or_else (InsertUser.dailyWaterGoal insertUser) 2000)) in
  (user, with_users (JsMap.set id user (users s)) (id + 1) s).

Definition updateUser (id : Z) (data : PartialUser.t) (s : t)
  : option User.t * t :=
  match getUser id s with
  | None => (None, s)
  | Some user =>
      let updatedUser := spread_user user data in
      (Some updatedUser,
       with_users (JsMap.set id updatedUser (users s)) (userIdCounter s) s)
  end.

(** *** Water intake methods *)

Definition addWaterIntake (intake : InsertWaterIntake.t) (now : Z) (s : t)
  : WaterIntake.t * t :=
  let id := waterIntakeIdCounter s in
  let waterIntake :=
    WaterIntake.mk id (InsertWaterIntake.userId intake)
                   (InsertWaterIntake.amount intake) now in
  (waterIntake,
   with_waterIntakes (JsMap.set id waterIntake (waterIntakes s)) (id + 1) s).

Definition getWaterIntakeByUserId (userId : Z) (s : t) : list WaterIntake.t :=
  Array.sort
    (fun a b => WaterIntake.timestamp b - WaterIntake.timestamp a)
    (Array.filter (fun intake => WaterIntake.userId intake =? userId)
                  (JsMap.values (waterIntakes s))).

Definition getWaterIntakeByUserIdAndDate (LocalTZA : Date.zone)
  (userId date : Z) (s : t) : list WaterIntake.t :=
  let startOfDay := Date.setHours LocalTZA date 0 0 0 0 in
  let endOfDay := Date.setHours LocalTZA date 23 59 59 999 in
  Array.sort
    (fun a b => WaterIntake.timestamp a - WaterIntake.timestamp b)
    (Array.filter
       (fun intake =>
          (WaterIntake.userId intake =? userId)
          && (startOfDay <=? WaterIntake.timestamp intake)
          && (WaterIntake.timestamp intake <=? endOfDay))
       (JsMap.values (waterIntakes s))).

(** *** Activity methods *)

Definition createActivity (activity : InsertActivity.t) (now : Z) (s : t)
  : Activity.t * t :=
  let id := activityIdCounter s in
  let newActivity :=
    Activity.mk id
      (InsertActivity.userId activity)
      (InsertActivity.title activity)
      (InsertActivity.type activity)
      (InsertActivity.distance activity)
      (InsertActivity.duration activity)
      (Js.or_null (InsertActivity.elevationGain activity))
      (Js.or_null (InsertActivity.weather activity))
      (Js.or_null (InsertActivity.temperature activity))
      now
      (Some (Js.nullish (InsertActivity.isPublic activity) true)) in
  (newActivity,
   with_activities (JsMap.set id newActivity (activities s)) (id + 1) s).

Definition getActivityById (id : Z) (s : t) : option Activity.t :=
  JsMap.get id (activities s).

Definition getActivitiesByUserId (userId : Z) (s : t) : list Activity.t :=
  Array.sort
    (fun a b => Activity.timestamp b - Activity.timestamp a)
    (Array.filter (fun activity => Activity.userId activity =? userId)
                  (JsMap.values (activities s))).

Definition getRecentActivities (limit : Z) (s : t) : list Activity.t :=
  Array.slice 0 limit
    (Array.sort
       (fun a b => Activity.timestamp b - Activity.timestamp a)
       (Array.filter
          (fun activity => Js.truthy_nullable (Activity.isPublic activity))
          (JsMap.values (activities s)))).

Definition getPublicActivitiesNearby (lat lng radiusKm : spec_float) (s : t)
  : list Activity.t :=
  getRecentActivities 10 s.

(** *** Route methods *)

Definition saveRoute (route : InsertRoute.t) (s : t) : Route.t * t :=
  let id := routeIdCounter s in
  let newRoute :=
    Route.mk id (InsertRoute.activityId route)
             (InsertRoute.coordinates route) in
  (newRoute, with_routes (JsMap.set id newRoute (routes s)) (id + 1) s).

Definition getRouteByActivityId (activityId : Z) (s : t) : option Route.t :=
  Array.find (fun route => Route.activityId route =? activityId)
             (JsMap.values (routes s)).

(** *** Social methods *)

Definition createPost (post : InsertPost.t) (now : Z) (s : t) : Post.t * t :=
  let id := postIdCounter s in
  let newPost :=
    Post.mk id
      (InsertPost.userId post)
      (Js.or_null (InsertPost.activityId post))
      (InsertPost.content post)
      (Js.or_null (InsertPost.imagePath post))
      now in
  (newPost, with_posts (JsMap.set id newPost (posts s)) (id + 1) s).

Definition getPosts (limit offset : Z) (s : t) : list Post.t :=
  Array.slice offset (offset + limit)
    (Array.sort
       (fun a b => Post.timestamp b - Post.timestamp a)
       (JsMap.values (posts s))).

Definition getPostsByUserId (userId : Z) (s : t) : list Post.t :=
  Array.sort
    (fun a b => Post.timestamp b - Post.timestamp a)
    (Array.filter (fun post => Post.userId post =? userId)
                  (JsMap.values (posts s))).

Definition addLike (like : InsertLike.t) (s : t) : Like.t * t :=
  let existingLike :=
    Array.find
      (fun l => (Like.userId l =? InsertLike.userId like)
                && (Like.postId l =? InsertLike.postId like))
      (JsMap.values (likes s)) in
  match existingLike with
  | Some l => (l, s)
  | None =>
      let id := likeIdCounter s in
      let newLike :=
        Like.mk id (InsertLike.userId like) (InsertLike.postId like) in
      (newLike, with_likes (JsMap.set id newLike (likes s)) (id + 1) s)
  end.

Definition removeLike (userId postId : Z) (s : t) : t :=
  let likeToRemove :=
    Array.find
      (fun like => (Like.userId like =? userId)
                   && (Like.postId like =? postId))
      (JsMap.values (likes s)) in
  match likeToRemove with
  | Some l =>
      with_likes (JsMap.delete (Like.id l) (likes s)) (likeIdCounter s) s
  | None => s
  end.

Definition getLikesByPostId (postId : Z) (s : t) : list Like.t :=
  Array.filter (fun like => Like.postId like =? postId)
               (JsMap.values (likes s)).

Definition addComment (comment : InsertComment.t) (now : Z) (s : t)
  : Comment.t * t :=
  let id := commentIdCounter s in
  let newComment :=
    Comment.mk id
      (InsertComment.userId comment)
      (InsertComment.postId comment)
      (InsertComment.content comment)
      now in
  (newComment,
   with_comments (JsMap.set id newComment (comments s)) (id + 1) s).

Definition getCommentsByPostId (postId : Z) (s : t) : list Comment.t :=
  Array.sort
    (fun a b => Comment.timestamp a - Comment.timestamp b)
    (Array.filter (fun comment => Comment.postId comment =? postId)
                  (JsMap.values (comments s))).

(** *** Construction *)

Definition blank : t :=
  mk JsMap.empty JsMap.empty JsMap.empty JsMap.empty JsMap.empty JsMap.empty
     JsMap.empty 1 1 1 1 1 1 1.

Definition testuser : InsertUser.t :=
  InsertUser.mk "testuser" "password" "test@example.com"
                (Js.Val ""%string) (Js.Val 2000).

(** [new MemStorage()]: the fields are initialised, then the test user is
    created. *)
Definition constructor : t := snd (createUser testuser blank).

(** *** Sequences of contract operations

    The operations that assign to a field of the store; the queries above are
    functions of the state and leave it as it is. *)

Inductive op :=
| CreateUser (insertUser : InsertUser.t)
| UpdateUser (id : Z) (data : PartialUser.t)
| AddWaterIntake (intake : InsertWaterIntake.t) (now : Z)
| CreateActivity (activity : InsertActivity.t) (now : Z)
| SaveRoute (route : InsertRoute.t)
| CreatePost (post : InsertPost.t) (now : Z)
| AddLike (like : InsertLike.t)
| RemoveLike (userId postId : Z)
| AddComment (comment : InsertComment.t) (now : Z).

Inductive result :=
| RUser (u : User.t)
| RUserOrUndefined (u : option User.t)
| RWaterIntake (w : WaterIntake.t)
| RActivity (a : Activity.t)
| RRoute (r : Route.t)
| RPost (p : Post.t)
| RLike (l : Like.t)
| RComment (c : Comment.t)
| RVoid.

Definition step (o : op) (s : t) : result * t :=
  match o with
  | CreateUser u => let (r, s') := createUser u s in (RUser r, s')
  | UpdateUser id data =>
      let (r, s') := updateUser id data s in (RUserOrUndefined r, s')
  | AddWaterIntake i now =>
      let (r, s') := addWaterIntake i now s in (RWaterIntake r, s')
  | CreateActivity a now =>
      let (r, s') := createActivity a now s in (RActivity r, s')
  | SaveRoute r0 => let (r, s') := saveRoute r0 s in (RRoute r, s')
  | CreatePost p now => let (r, s') := createPost p now s in (RPost r, s')
  | AddLike l => let (r, s') := addLike l s in (RLike r, s')
  | RemoveLike u p => (RVoid, removeLike u p s)
  | AddComment c now => let (r, s') := addComment c now s in (RComment r, s')
  end.

(** Runs the calls in order and collects what each returned. *)
Fixpoint run (os : list op) (s : t) : list result * t :=
  match os with
  | [] => ([], s)
  | o :: os' =>
      let (r, s') := step o s in
      let (rs, s'') := run os' s' in
      (r :: rs, s'')
  end.

Inductive reachable : t -> Prop :=
| reachable_new : reachable constructor
| reachable_step (o : op) (s : t) :
    reachable s -> reachable (snd (step o s)).

End MemStorage.

(** ** The relational engine *)

Module Db.

(** A statement either yields its rows or raises the engine's error, which
    [DatabaseStorage] never catches. *)
Inductive error :=
| UniqueViolation
| ForeignKeyViolation
| NegativeRowCount
| NoValuesToSet.

Inductive outcome (A : Type) : Type :=
| Ok (a : A)
| Err (e : error).
Arguments Ok {A} a.
Arguments Err {A} e.

Definition is_ok {A} (r : outcome A) : bool :=
  match r with
  | Ok _ => true
  | Err _ => false
  end.

(** Modelled from the spec: the client [db] imported from "./db" and the
    engine behind it are missing from the sources.  A database is the seven
    tables of shared/schema.ts, each a list of rows in insertion order with
    the sequence of its [serial] primary key.  As the specification has it,
    an insert or update that violates a uniqueness or foreign-key constraint
    of the schema fails with a store-level error and leaves every table as
    it was (an insert has drawn its id by then: the sequence moves on also
    when the row is refused); lookups combine equality and inequality
    predicates, order by timestamp, and paginate with limit and offset.  Rows
    with equal sort keys keep their table order. *)
Record t := mk {
  users : list User.t;
  waterIntake : list WaterIntake.t;
  activities : list Activity.t;
  routes : list Route.t;
  posts : list Post.t;
  likes : list Like.t;
  comments : list Comment.t;
  users_id_seq : Z;
  water_intake_id_seq : Z;
  activities_id_seq : Z;
  routes_id_seq : Z;
  posts_id_seq : Z;
  likes_id_seq : Z;
  comments_id_seq : Z
}.

Definition empty : t := mk [] [] [] [] [] [] [] 1 1 1 1 1 1 1.

Definition with_users (rows : list User.t) (c : Z) (d : t) : t :=
  mk rows (waterIntake d) (activities d) (routes d) (posts d) (likes d)
     (comments d) c (water_intake_id_seq d) (activities_id_seq d)
     (routes_id_seq d) (posts_id_seq d) (likes_id_seq d) (comments_id_seq d).

Definition with_waterIntake (rows : list WaterIntake.t) (c : Z) (d : t) : t :=
  mk (users d) rows (activities d) (routes d) (posts d) (likes d)
     (comments d) (users_id_seq d) c (activities_id_seq d)
     (routes_id_seq d) (posts_id_seq d) (likes_id_seq d) (comments_id_seq d).

Definition with_activities (rows : list Activity.t) (c : Z) (d : t) : t :=
  mk (users d) (waterIntake d) rows (routes d) (posts d) (likes d)
     (comments d) (users_id_seq d) (water_intake_id_seq d) c
     (routes_id_seq d) (posts_id_seq d) (likes_id_seq d) (comments_id_seq d).

Definition with_routes (rows : list Route.t) (c : Z) (d : t) : t :=
  mk (users d) (waterIntake d) (activities d) rows (posts d) (likes d)
     (comments d) (users_id_seq d) (water_intake_id_seq d)
     (activities_id_seq d) c (posts_id_seq d) (likes_id_seq d)
     (comments_id_seq d).

Definition with_posts (rows : list Post.t) (c : Z) (d : t) : t :=
  mk (users d) (waterIntake d) (activities d) (routes d) rows (likes d)
     (comments d) (users_id_seq d) (water_intake_id_seq d)
     (activities_id_seq d) (routes_id_seq d) c (likes_id_seq d)
     (comments_id_seq d).

Definition with_likes (rows : list Like.t) (c : Z) (d : t) : t :=
  mk (users d) (waterIntake d) (activities d) (routes d) (posts d) rows
     (comments d) (users_id_seq d) (water_intake_id_seq d)
     (activities_id_seq d) (routes_id_seq d) (posts_id_seq d) c
     (comments_id_seq d).

Definition with_comments (rows : list Comment.t) (c : Z) (d : t) : t :=
  mk (users d) (waterIntake d) (activities d) (routes d) (posts d) (likes d)
     rows (users_id_seq d) (water_intake_id_seq d)
     (activities_id_seq d) (routes_id_seq d) (posts_id_seq d)
     (likes_id_seq d) c.

(** *** Constraints of the schema *)

Definition mem (k : Z) (ks : list Z) : bool := existsb (fun k' => k =? k') ks.

(** Modelled from the spec: the foreign keys [references(() => users.id)]
    and the like, as the missing engine checks them. *)
Definition user_exists (id : Z) (d : t) : bool := mem id (map User.id (users d)).
Definition activity_exists (id : Z) (d : t) : bool :=
  mem id (map Activity.id (activities d)).
Definition post_exists (id : Z) (d : t) : bool := mem id (map Post.id (posts d)).

(** Modelled from the spec: the check behind
    [username: text("username").notNull().unique()]. *)
Definition username_taken (name : string) (rows : list User.t) : bool :=
  existsb (fun u => String.eqb (User.username u) name) rows.

(** Modelled from the spec: some row of a referencing table holds the user
    id (the missing engine refuses to renumber such a user). *)
Definition user_referenced (id : Z) (d : t) : bool :=
  mem id (map WaterIntake.userId (waterIntake d))
  || mem id (map Activity.userId (activities d))
  || mem id (map Post.userId (posts d))
  || mem id (map Like.userId (likes d))
  || mem id (map Comment.userId (comments d)).

(** *** Statements *)

(** Modelled from the spec: [db.insert(users).values(v).returning()] of the
    missing client.  The row is refused when its username is taken or when
    the id drawn from the sequence is held by a user that an update
    renumbered. *)
Definition insert_users (username password email : string)
  (profilePicture : option string) (dailyWaterGoal : option Z) (d : t)
  : outcome User.t * t :=
  let id := users_id_seq d in
  let row := User.mk id username password email profilePicture
                     dailyWaterGoal in
  if username_taken username (users d) || mem id (map User.id (users d))
  then (Err UniqueViolation, with_users (users d) (id + 1) d)
  else (Ok row, with_users (users d ++ [row]) (id + 1) d).

(** Modelled from the spec: [db.insert(table).values(v).returning()] of the
    missing client for the other six tables; a timestamp column takes its
    default [now()].  The ids of these tables only ever come from their
    sequences, so that the primary key cannot clash. *)
Definition insert_waterIntake (userId amount : Z) (now : Z) (d : t)
  : outcome WaterIntake.t * t :=
  let id := water_intake_id_seq d in
  let row := WaterIntake.mk id userId amount now in
  if negb (user_exists userId d)
  then (Err ForeignKeyViolation, with_waterIntake (waterIntake d) (id + 1) d)
  else (Ok row, with_waterIntake (waterIntake d ++ [row]) (id + 1) d).

Definition insert_activities (userId : Z) (title type : string)
  (distance : spec_float) (duration : Z) (elevationGain : option Z)
  (weather : option string) (temperature : option spec_float)
  (isPublic : option bool) (now : Z) (d : t) : outcome Activity.t * t :=
  let id := activities_id_seq d in
  let row := Activity.mk id userId title type distance duration
                         elevationGain weather temperature now isPublic in
  if negb (user_exists userId d)
  then (Err ForeignKeyViolation, with_activities (activities d) (id + 1) d)
  else (Ok row, with_activities (activities d ++ [row]) (id + 1) d).

Definition insert_routes (activityId : Z) (coordinates : string) (d : t)
  : outcome Route.t * t :=
  let id := routes_id_seq d in
  let row := Route.mk id activityId coordinates in
  if negb (activity_exists activityId d)
  then (Err ForeignKeyViolation, with_routes (routes d) (id + 1) d)
  else (Ok row, with_routes (routes d ++ [row]) (id + 1) d).

Definition insert_posts (userId : Z) (activityId : option Z)
  (content : string) (imagePath : option string) (now : Z) (d : t)
  : outcome Post.t * t :=
  let activity_ok :=
    match activityId with
    | Some a => activity_exists a d
    | None => true
    end in
  let id := posts_id_seq d in
  let row := Post.mk id userId activityId content imagePath now in
  if negb (user_exists userId d && activity_ok)
  then (Err ForeignKeyViolation, with_posts (posts d) (id + 1) d)
  else (Ok row, with_posts (posts d ++ [row]) (id + 1) d).

Definition insert_likes (userId postId : Z) (d : t) : outcome Like.t * t :=
  let id := likes_id_seq d in
  let row := Like.mk id userId postId in
  if negb (user_exists userId d && post_exists postId d)
  then (Err ForeignKeyViolation, with_likes (likes d) (id + 1) d)
  else (Ok row, with_likes (likes d ++ [row]) (id + 1) d).

Definition insert_comments (userId postId : Z) (content : string) (now : Z)
  (d : t) : outcome Comment.t * t :=
  let id := comments_id_seq d in
  let row := Comment.mk id userId postId content now in
  if negb (user_exists userId d && post_exists postId d)
  then (Err ForeignKeyViolation, with_comments (comments d) (id + 1) d)
  else (Ok row, with_comments (comments d ++ [row]) (id + 1) d).

Definition no_values (data : PartialUser.t) : bool :=
  match data with
  | PartialUser.mk None None None None None None => true
  | _ => false
  end.

(** Modelled from the spec:
    [db.update(users).set(data).where(eq(users.id, id)).returning()] of the
    missing client.  The rows
    with that id are rewritten in place; the statement is refused when the
    new rows would break the primary key or the uniqueness of usernames, or
    when it renumbers a user that other tables refer to. *)
Definition update_users (data : PartialUser.t) (id : Z) (d : t)
  : outcome (list User.t) * t :=
  if no_values data then (Err NoValuesToSet, d)
  else
    let others := filter (fun u => negb (User.id u =? id)) (users d) in
    let updated :=
      map (fun u => spread_user u data)
          (filter (fun u => User.id u =? id) (users d)) in
    let rows :=
      map (fun u => if User.id u =? id then spread_user u data else u)
          (users d) in
    if existsb (fun u => username_taken (User.username u) others
                         || mem (User.id u) (map User.id others)) updated
    then (Err UniqueViolation, d)
    else if existsb (fun u => negb (User.id u =? id)) updated
                 && user_referenced id d
    then (Err ForeignKeyViolation, d)
    else (Ok updated, with_users rows (users_id_seq d) d).

(** Modelled from the spec:
    [db.delete(likes).where(and(eq(likes.userId, u), eq(likes.postId, p)))]
    of the missing client. *)
Definition delete_likes (userId postId : Z) (d : t) : t :=
  with_likes
    (filter (fun l => negb ((Like.userId l =? userId)
                            && (Like.postId l =? postId))) (likes d))
    (likes_id_seq d) d.

(** Modelled from the spec: [orderBy(asc(column))] and
    [orderBy(desc(column))] of the missing client. *)
Definition order_asc {A} (column : A -> Z) (rows : list A) : list A :=
  Array.sort (fun a b => column a - column b) rows.

Definition order_desc {A} (column : A -> Z) (rows : list A) : list A :=
  Array.sort (fun a b => column b - column a) rows.

(** Modelled from the spec: [.limit(n)] and [.limit(n).offset(k)] of the
    missing client; the engine refuses a negative row count. *)
Definition limit {A} (n : Z) (rows : list A) : outcome (list A) :=
  if n <? 0 then Err NegativeRowCount else Ok (firstn (Z.to_nat n) rows).

Definition limit_offset {A} (n k : Z) (rows : list A) : outcome (list A) :=
  if (n <? 0) || (k <? 0) then Err NegativeRowCount
  else Ok (firstn (Z.to_nat n) (skipn (Z.to_nat k) rows)).

End Db.

(** ** The relational store (class [DatabaseStorage]) *)

Module DatabaseStorage.

Import Db.

(** *** User methods *)

Definition getUser (id : Z) (d : Db.t) : option User.t :=
  hd_error (filter (fun u => User.id u =? id) (Db.users d)).

Definition getUserByUsername (username : string) (d : Db.t) : option User.t :=
  hd_error (filter (fun u => String.eqb (User.username u) username)
                   (Db.users d)).

Definition createUser (user : InsertUser.t) (d : Db.t)
  : outcome User.t * Db.t :=
  let profilePicture := Js.or_null (InsertUser.profilePicture user) in
  let dailyWaterGoal := Js.or_else (InsertUser.dailyWaterGoal user) 2000 in
  insert_users (InsertUser.username user) (InsertUser.password user)
               (InsertUser.email user) profilePicture (Some dailyWaterGoal) d.

Definition updateUser (id : Z) (data : PartialUser.t) (d : Db.t)
  : outcome (option User.t) * Db.t :=
  match update_users data id d with
  | (Ok rows, d') => (Ok (hd_error rows), d')
  | (Err e, d') => (Err e, d')
  end.

(** *** Water intake methods *)

Definition addWaterIntake (intake : InsertWaterIntake.t) (now : Z) (d : Db.t)
  : outcome WaterIntake.t * Db.t :=
  insert_waterIntake (InsertWaterIntake.userId intake)
                     (InsertWaterIntake.amount intake) now d.

Definition getWaterIntakeByUserId (userId : Z) (d : Db.t)
  : list WaterIntake.t :=
  order_desc WaterIntake.timestamp
    (filter (fun w => WaterIntake.userId w =? userId) (Db.waterIntake d)).

Definition getWaterIntakeByUserIdAndDate (LocalTZA : Date.zone)
  (userId date : Z) (d : Db.t) : list WaterIntake.t :=
  let startOfDay := Date.setHours LocalTZA date 0 0 0 0 in
  let endOfDay := Date.setHours LocalTZA date 23 59 59 999 in
  order_asc WaterIntake.timestamp
    (filter
       (fun w =>
          (WaterIntake.userId w =? userId)
          && ((startOfDay <=? WaterIntake.timestamp w)
              && (WaterIntake.timestamp w <=? endOfDay)))
       (Db.waterIntake d)).

(** *** Activity methods *)

Definition createActivity (activity : InsertActivity.t) (now : Z) (d : Db.t)
  : outcome Activity.t * Db.t :=
  let elevationGain := Js.or_null (InsertActivity.elevationGain activity) in
  let weather := Js.or_null (InsertActivity.weather activity) in
  let temperature := Js.or_null (InsertActivity.temperature activity) in
  let isPublic := Js.nullish (InsertActivity.isPublic activity) true in
  insert_activities
    (InsertActivity.userId activity) (InsertActivity.title activity)
    (InsertActivity.type activity) (InsertActivity.distance activity)
    (InsertActivity.duration activity)
    elevationGain weather temperature (Some isPublic) now d.

Definition getActivityById (id : Z) (d : Db.t) : option Activity.t :=
  hd_error (filter (fun a => Activity.id a =? id) (Db.activities d)).

Definition getActivitiesByUserId (userId : Z) (d : Db.t) : list Activity.t :=
  order_desc Activity.timestamp
    (filter (fun a => Activity.userId a =? userId) (Db.activities d)).

(** [eq(activities.isPublic, true)] selects the rows whose flag is [true]. *)
Definition is_public_true (a : Activity.t) : bool :=
  match Activity.isPublic a with
  | Some true => true
  | _ => false
  end.

Definition getRecentActivities (limit : Z) (d : Db.t)
  : outcome (list Activity.t) :=
  Db.limit limit
    (order_desc Activity.timestamp (filter is_public_true (Db.activities d))).

Definition getPublicActivitiesNearby (lat lng radiusKm : spec_float)
  (d : Db.t) : outcome (list Activity.t) :=
  Db.limit 10
    (order_desc Activity.timestamp (filter is_public_true (Db.activities d))).

(** *** Route methods *)

Definition saveRoute (route : InsertRoute.t) (d : Db.t)
  : outcome Route.t * Db.t :=
  insert_routes (InsertRoute.activityId route) (InsertRoute.coordinates route)
                d.

Definition getRouteByActivityId (activityId : Z) (d : Db.t) : option Route.t :=
  hd_error (filter (fun r => Route.activityId r =? activityId) (Db.routes d)).

(** *** Social methods *)

Definition createPost (post : InsertPost.t) (now : Z) (d : Db.t)
  : outcome Post.t * Db.t :=
  let activityId := Js.or_null (InsertPost.activityId post) in
  let imagePath := Js.or_null (InsertPost.imagePath post) in
  insert_posts (InsertPost.userId post) activityId (InsertPost.content post)
               imagePath now d.

Definition getPosts (limit offset : Z) (d : Db.t) : outcome (list Post.t) :=
  limit_offset limit offset (order_desc Post.timestamp (Db.posts d)).

Definition getPostsByUserId (userId : Z) (d : Db.t) : list Post.t :=
  order_desc Post.timestamp
    (filter (fun p => Post.userId p =? userId) (Db.posts d)).

Definition addLike (like : InsertLike.t) (d : Db.t) : outcome Like.t * Db.t :=
  let existingLikes :=
    filter (fun l => (Like.userId l =? InsertLike.userId like)
                     && (Like.postId l =? InsertLike.postId like))
           (Db.likes d) in
  match existingLikes with
  | l :: _ => (Ok l, d)
  | [] => insert_likes (InsertLike.userId like) (InsertLike.postId like) d
  end.

Definition removeLike (userId postId : Z) (d : Db.t) : Db.t :=
  delete_likes userId postId d.

Definition getLikesByPostId (postId : Z) (d : Db.t) : list Like.t :=
  filter (fun l => Like.postId l =? postId) (Db.likes d).

Definition addComment (comment : InsertComment.t) (now : Z) (d : Db.t)
  : outcome Comment.t * Db.t :=
  insert_comments (InsertComment.userId comment)
                  (InsertComment.postId comment)
                  (InsertComment.content comment) now d.

Definition getCommentsByPostId (postId : Z) (d : Db.t) : list Comment.t :=
  order_asc Comment.timestamp
    (filter (fun c => Comment.postId c =? postId) (Db.comments d)).

(** *** Sequences of contract operations *)

Inductive op :=
| CreateUser (user : InsertUser.t)
| UpdateUser (id : Z) (data : PartialUser.t)
| AddWaterIntake (intake : InsertWaterIntake.t) (now : Z)
| CreateActivity (activity : InsertActivity.t) (now : Z)
| SaveRoute (route : InsertRoute.t)
| CreatePost (post : InsertPost.t) (now : Z)
| AddLike (like : InsertLike.t)
| RemoveLike (userId postId : Z)
| AddComment (comment : InsertComment.t) (now : Z).

(** The database after the call, whether it returned or raised. *)
Definition step (o : op) (d : Db.t) : Db.t :=
  match o with
  | CreateUser u => snd (createUser u d)
  | UpdateUser id data => snd (updateUser id data d)
  | AddWaterIntake i now => snd (addWaterIntake i now d)
  | CreateActivity a now => snd (createActivity a now d)
  | SaveRoute r => snd (saveRoute r d)
  | CreatePost p now => snd (createPost p now d)
  | AddLike l => snd (addLike l d)
  | RemoveLike u p => removeLike u p d
  | AddComment c now => snd (addComment c now d)
  end.

Inductive reachable : Db.t -> Prop :=
| reachable_empty : reachable Db.empty
| reachable_step (o : op) (d : Db.t) :
    reachable d -> reachable (step o d).

End DatabaseStorage.

(** ** Vocabulary of the properties *)

(** Consecutive integers [start; start+1; ...], [n] of them. *)
Fixpoint seqZ (start : Z) (n : nat) : list Z :=
  match n with
  | O => []
  | S n' => start :: seqZ (start + 1) n'
  end.

(** What the contract promises of the record [r] made from the input [a] at
    time [now]: the server's timestamp, the required fields as given, null
    for an optional field that is left out (undefined or null), [true] for a
    visibility flag that is left out, and a provided value kept when it is a
    non-zero number, a non-empty string or a boolean. *)
Definition activity_created_from (a : InsertActivity.t) (now : Z)
  (r : Activity.t) : Prop :=
  Activity.timestamp r = now
  /\ Activity.userId r = InsertActivity.userId a
  /\ Activity.title r = InsertActivity.title a
  /\ Activity.type r = InsertActivity.type a
  /\ Activity.distance r = InsertActivity.distance a
  /\ Activity.duration r = InsertActivity.duration a
  /\ (InsertActivity.elevationGain a = Js.Undefined
      \/ InsertActivity.elevationGain a = Js.Null ->
      Activity.elevationGain r = None)
  /\ (InsertActivity.weather a = Js.Undefined
      \/ InsertActivity.weather a = Js.Null ->
      Activity.weather r = None)
  /\ (InsertActivity.temperature a = Js.Undefined
      \/ InsertActivity.temperature a = Js.Null ->
      Activity.temperature r = None)
  /\ (InsertActivity.isPublic a = Js.Undefined
      \/ InsertActivity.isPublic a = Js.Null ->
      Activity.isPublic r = Some true)
  /\ (forall b, InsertActivity.isPublic a = Js.Val b ->
      Activity.isPublic r = Some b)
  /\ (forall v, InsertActivity.elevationGain a = Js.Val v -> v <> 0 ->
      Activity.elevationGain r = Some v)
  /\ (forall w, InsertActivity.weather a = Js.Val w -> w <> EmptyString ->
      Activity.weather r = Some w)
  /\ (forall f, InsertActivity.temperature a = Js.Val f ->
      Js.truthy f = true -> Activity.temperature r = Some f).

(** [createPost] called once per input, in order, each at its own clock
    reading; returns the created posts in creation order. *)
Fixpoint createPosts (ins : list (InsertPost.t * Z)) (s : MemStorage.t)
  : list Post.t * MemStorage.t :=
  match ins with
  | [] => ([], s)
  | (p, now) :: ins' =>
      let (r, s') := MemStorage.createPost p now s in
      let (rs, s'') := createPosts ins' s' in
      (r :: rs, s'')
  end.

(** The timestamp [ts] falls on the calendar day of [date], both read in
    the local time of a server whose offset from UTC is always [tza]. *)
Definition same_local_day (tza date ts : Z) : bool :=
  Date.Day (Date.LocalTime (Date.fixed tza) ts)
  =? Date.Day (Date.LocalTime (Date.fixed tza) date).

(** The records a day query is asked for: those of the user whose timestamp
    lies between the two instants, both included. *)
Definition intake_in_window (userId startOfDay endOfDay : Z)
  (w : WaterIntake.t) : bool :=
  (WaterIntake.userId w =? userId)
  && ((startOfDay <=? WaterIntake.timestamp w)
      && (WaterIntake.timestamp w <=? endOfDay)).


(** The range of an [integer] column. *)
Definition int4 (n : Z) : Prop := -2147483648 <= n <= 2147483647.


Inductive entity :=
| EUser
| EWaterIntake
| EActivity
| ERoute
| EPost
| ELike
| EComment.

Definition counter (e : entity) (s : MemStorage.t) : Z :=
  match e with
  | EUser => MemStorage.userIdCounter s
  | EWaterIntake => MemStorage.waterIntakeIdCounter s
  | EActivity => MemStorage.activityIdCounter s
  | ERoute => MemStorage.routeIdCounter s
  | EPost => MemStorage.postIdCounter s
  | ELike => MemStorage.likeIdCounter s
  | EComment => MemStorage.commentIdCounter s
  end.

Definition keys_of (e : entity) (s : MemStorage.t) : list Z :=
  match e with
  | EUser => JsMap.keys (MemStorage.users s)
  | EWaterIntake => JsMap.keys (MemStorage.waterIntakes s)
  | EActivity => JsMap.keys (MemStorage.activities s)
  | ERoute => JsMap.keys (MemStorage.routes s)
  | EPost => JsMap.keys (MemStorage.posts s)
  | ELike => JsMap.keys (MemStorage.likes s)
  | EComment => JsMap.keys (MemStorage.comments s)
  end.

(** The creation call of each entity type. *)
Definition creates (e : entity) (o : MemStorage.op) : bool :=
  match e, o with
  | EUser, MemStorage.CreateUser _
  | EWaterIntake, MemStorage.AddWaterIntake _ _
  | EActivity, MemStorage.CreateActivity _ _
  | ERoute, MemStorage.SaveRoute _
  | EPost, MemStorage.CreatePost _ _
  | ELike, MemStorage.AddLike _
  | EComment, MemStorage.AddComment _ _ => true
  | _, _ => false
  end.

(** The id of the record that a creation call of [e] returned. *)
Definition returned_id (e : entity) (r : MemStorage.result) : option Z :=
  match e, r with
  | EUser, MemStorage.RUser u => Some (User.id u)
  | EWaterIntake, MemStorage.RWaterIntake w => Some (WaterIntake.id w)
  | EActivity, MemStorage.RActivity a => Some (Activity.id a)
  | ERoute, MemStorage.RRoute r => Some (Route.id r)
  | EPost, MemStorage.RPost p => Some (Post.id p)
  | ELike, MemStorage.RLike l => Some (Like.id l)
  | EComment, MemStorage.RComment c => Some (Comment.id c)
  | _, _ => None
  end.

(** A call issues the id of the record it returns, unless the store held a
    record under that id before the call ([addLike] on a pair that is there
    hands the stored record back). *)
Definition issued_by (e : entity) (o : MemStorage.op) (s : MemStorage.t)
  : list Z :=
  match returned_id e (fst (MemStorage.step o s)) with
  | Some i => if existsb (Z.eqb i) (keys_of e s) then [] else [i]
  | None => []
  end.

(** The ids of entity [e] issued along a sequence of calls, in order. *)
Fixpoint issued (e : entity) (os : list MemStorage.op) (s : MemStorage.t)
  : list Z :=
  match os with
  | [] => []
  | o :: os' => issued_by e o s ++ issued e os' (snd (MemStorage.step o s))
  end.

(** The first id a fresh store hands out: the constructor's test user holds
    user id 1. *)
Definition first_id (e : entity) : Z :=
  match e with
  | EUser => 2
  | _ => 1
  end.

Definition like_pair (l : Like.t) : Z * Z := (Like.userId l, Like.postId l).

(** The test of [addLike] and [removeLike]. *)
Definition like_matches (userId postId : Z) (l : Like.t) : bool :=
  (Like.userId l =? userId) && (Like.postId l =? postId).

(** Every key of a map lies below the counter of its entity type. *)
Definition keys_below (s : MemStorage.t) : Prop :=
  forall e, Forall (fun k => k < counter e s) (keys_of e s).

(** The likes are filed under their own id, under distinct keys, and with
    distinct (userId, postId) pairs. *)
Definition likes_ok (s : MemStorage.t) : Prop :=
  Forall (fun kv => Like.id (snd kv) = fst kv) (MemStorage.likes s)
  /\ NoDup (JsMap.keys (MemStorage.likes s))
  /\ NoDup (map like_pair (JsMap.values (MemStorage.likes s))).

(** The constraints the engine maintains on the users table, and the
    application-level uniqueness of likes. *)
Definition Db_consistent (d : Db.t) : Prop :=
  NoDup (map User.id (Db.users d))
  /\ NoDup (map User.username (Db.users d))
  /\ NoDup (map like_pair (Db.likes d)).

(** ** Sample inputs *)

Module Sample.

(** A registration whose goal is 0 and whose picture is the empty string. *)
Definition zero_goal_user : InsertUser.t :=
  InsertUser.mk "ada" "pw" "ada@example.com" (Js.Val EmptyString) (Js.Val 0).

(** A flat run at 0 degrees: elevation gain 0, temperature +0. *)
Definition freezing_run : InsertActivity.t :=
  InsertActivity.mk 1 "Morning run" "run" (S754_finite false 5 0) 1800
                    (Js.Val 0) (Js.Val "clear"%string)
                    (Js.Val (S754_zero false)) (Js.Val false).

(** A private ride with every optional field provided and truthy. *)
Definition private_ride : InsertActivity.t :=
  InsertActivity.mk 1 "Ride" "ride" (S754_finite false 21 0) 3600
                    (Js.Val 120) (Js.Val "rain"%string)
                    (Js.Val (S754_finite false 7 0)) (Js.Val false).

(** A database holding one user and one post of that user. *)
Definition db_with_post : Db.t :=
  DatabaseStorage.step
    (DatabaseStorage.CreatePost
       (InsertPost.mk 1 Js.Undefined "hello" Js.Undefined) 1000)
    (DatabaseStorage.step (DatabaseStorage.CreateUser zero_goal_user)
                          Db.empty).

(** A second person, with a username of their own. *)
Definition second_user : InsertUser.t :=
  InsertUser.mk "bob" "pw2" "bob@example.com" Js.Undefined Js.Undefined.

(** The database after [createUser] of the first user and an [updateUser]
    that moved that user from id 1 to id 2, the next value of the
    sequence. *)
Definition renumbered_db : Db.t :=
  DatabaseStorage.step
    (DatabaseStorage.UpdateUser 1
       (PartialUser.mk (Some 2) None None None None None))
    (DatabaseStorage.step (DatabaseStorage.CreateUser zero_goal_user)
                          Db.empty).

(** The in-memory store after user 1 liked post 1. *)
Definition store_with_like : MemStorage.t :=
  snd (MemStorage.step (MemStorage.AddLike (InsertLike.mk 1 1))
                       MemStorage.constructor).

(** The database after user 1 liked post 1. *)
Definition db_with_like : Db.t :=
  DatabaseStorage.step (DatabaseStorage.AddLike (InsertLike.mk 1 1))
                       db_with_post.

(** Fifteen posts by the test user, one per second. *)
Definition fifteen_posts : list (InsertPost.t * Z) :=
  map (fun i => (InsertPost.mk 1 Js.Undefined "post" Js.Undefined, 1000 * i))
      (seqZ 1 15).

(** US Eastern time in March 2024: five hours behind UTC until
    10 March 2024 07:00:00 UTC, when clocks go from 02:00 to 03:00, four hours
    behind from then on. *)
Definition new_york_2024 : Date.zone :=
  Date.changing 1710054000000 (-18000000) (-14400000).


(** A store with one intake at 00:30 and one at 23:30 of 10 March 2024,
    New York time. *)
Definition spring_forward_store : MemStorage.t :=
  snd (MemStorage.addWaterIntake (InsertWaterIntake.mk 1 300) 1710127800000
         (snd (MemStorage.addWaterIntake (InsertWaterIntake.mk 1 250)
                 1710048600000 MemStorage.constructor))).


(** A store with one intake at 23:59:59.999 of 1 January 1970 (UTC) and one
    at 00:00:00.000 of the next day. *)
Definition midnight_store : MemStorage.t :=
  snd (MemStorage.addWaterIntake (InsertWaterIntake.mk 1 300) 86400000
         (snd (MemStorage.addWaterIntake (InsertWaterIntake.mk 1 250) 86399999
                 MemStorage.constructor))).

End Sample.

(** ** The storage interface and the request handlers (server/routes.ts)

    The handlers reach the store through [IStorage] only; of its methods the
    two handlers modelled here use [getUserByUsername] and [createUser].  A
    method returns a promise: it resolves to a value ([Db.Ok]) or rejects
    with the error the store raised ([Db.Err]).  The in-memory store never
    rejects. *)

Class IStorage (S : Type) := {
  storage_getUserByUsername : string -> S -> option User.t;
  storage_createUser : InsertUser.t -> S -> Db.outcome User.t * S
}.

#[global] Instance MemStorage_IStorage : IStorage MemStorage.t := {
  storage_getUserByUsername := MemStorage.getUserByUsername;
  storage_createUser :=
    fun u s => (Db.Ok (fst (MemStorage.createUser u s)),
                snd (MemStorage.createUser u s))
}.

#[global] Instance DatabaseStorage_IStorage : IStorage Db.t := {
  storage_getUserByUsername := DatabaseStorage.getUserByUsername;
  storage_createUser := DatabaseStorage.createUser
}.

Module Routes.

(** What [schema.parse(req.body)] did: it returned the validated data, or it
    threw a validation error with some message. *)
Inductive parsed (A : Type) : Type :=
| Valid (a : A)
| Invalid (message : string).
Arguments Valid {A} a.
Arguments Invalid {A} message.

(** [const { password, ...userWithoutPassword } = user] *)
Record UserWithoutPassword := mkUserWithoutPassword {
  id : Z;
  username : string;
  email : string;
  profilePicture : option string;
  dailyWaterGoal : option Z
}.

Definition without_password (user : User.t) : UserWithoutPassword :=
  mkUserWithoutPassword (User.id user) (User.username user) (User.email user)
                        (User.profilePicture user) (User.dailyWaterGoal user).

(** [error.message]: a literal of the handler, the text of a validation
    error, or the text the engine gave its error. *)
Inductive message :=
| Text (s : string)
| EngineMessage (e : Db.error).

Inductive body :=
| Message (m : message)
| UserBody (u : UserWithoutPassword).

(** [res.status(code).json(body)]; [res.json(body)] answers with 200. *)
Record response := mkResponse {
  status : Z;
  json : body
}.

(** [app.post("/api/register", ...)] *)
Definition register {S} `{IStorage S} (reqBody : parsed InsertUser.t) (s : S)
  : response * S :=
  match reqBody with
  | Invalid m => (mkResponse 400 (Message (Text m)), s)
  | Valid userData =>
      match storage_getUserByUsername (InsertUser.username userData) s with
      | Some _ =>
          (mkResponse 400 (Message (Text "Username already exists")), s)
      | None =>
          match storage_createUser userData s with
          | (Db.Ok user, s') =>
              (mkResponse 201 (UserBody (without_password user)), s')
          | (Db.Err e, s') =>
              (mkResponse 400 (Message (EngineMessage e)), s')
          end
      end
  end.

(** [app.post("/api/login", ...)]; the body parses to a username and a
    password. *)
Definition login {S} `{IStorage S} (reqBody : parsed (string * string))
  (s : S) : response :=
  match reqBody with
  | Invalid m => mkResponse 400 (Message (Text m))
  | Valid (username, password) =>
      match storage_getUserByUsername username s with
      | None => mkResponse 401 (Message (Text "Invalid credentials"))
      | Some user =>
          if negb (String.eqb (User.password user) password)
          then mkResponse 401 (Message (Text "Invalid credentials"))
          else mkResponse 200 (UserBody (without_password user))
      end
  end.

End Routes.

(** What a listing query owes its caller: exactly the stored rows that are
    [wanted], ordered by [key], newest first or oldest first. *)
Definition listing {A} (key : A -> Z) (newest_first : bool)
  (wanted : A -> bool) (stored res : list A) : Prop :=
  Permutation res (filter wanted stored)
  /\ StronglySorted
       (fun a b => if newest_first then key b <= key a else key a <= key b)
       res.

(** Every stored record other than a user sits under the key that its id
    field names. *)
Definition records_filed_by_id (s : MemStorage.t) : Prop :=
  Forall (fun kv => WaterIntake.id (snd kv) = fst kv)
         (MemStorage.waterIntakes s)
  /\ Forall (fun kv => Activity.id (snd kv) = fst kv) (MemStorage.activities s)
  /\ Forall (fun kv => Route.id (snd kv) = fst kv) (MemStorage.routes s)
  /\ Forall (fun kv => Post.id (snd kv) = fst kv) (MemStorage.posts s)
  /\ Forall (fun kv => Like.id (snd kv) = fst kv) (MemStorage.likes s)
  /\ Forall (fun kv => Comment.id (snd kv) = fst kv) (MemStorage.comments s).

(** Counters and keys start at 1. *)
Definition keys_from_one (s : MemStorage.t) : Prop :=
  forall e, 1 <= counter e s /\ Forall (fun k => 1 <= k) (keys_of e s).

(** The in-memory stores that are written through the register handler
    only. *)
Inductive registered_only : MemStorage.t -> Prop :=
| registered_new : registered_only MemStorage.constructor
| registered_step (reqBody : Routes.parsed InsertUser.t) (s : MemStorage.t) :
    registered_only s -> registered_only (snd (Routes.register reqBody s)).

(** The record stored under key [k] in each of the five collections that no
    operation deletes from or rewrites. *)
Definition kept_records (s : MemStorage.t) (s' : MemStorage.t) : Prop :=
  (forall k v, JsMap.get k (MemStorage.waterIntakes s) = Some v ->
               JsMap.get k (MemStorage.waterIntakes s') = Some v)
  /\ (forall k v, JsMap.get k (MemStorage.activities s) = Some v ->
                  JsMap.get k (MemStorage.activities s') = Some v)
  /\ (forall k v, JsMap.get k (MemStorage.routes s) = Some v ->
                  JsMap.get k (MemStorage.routes s') = Some v)
  /\ (forall k v, JsMap.get k (MemStorage.posts s) = Some v ->
                  JsMap.get k (MemStorage.posts s') = Some v)
  /\ (forall k v, JsMap.get k (MemStorage.comments s) = Some v ->
                  JsMap.get k (MemStorage.comments s') = Some v)
  /\ (forall k, In k (JsMap.keys (MemStorage.users s)) ->
                In k (JsMap.keys (MemStorage.users s'))).

(** * Properties *)

(** ** Lists, maps and sorting *)

Section JsMapFacts.

Context {V : Type}.
Implicit Types (m : JsMap.t V) (k : Z) (v : V).

Lemma JsMap_get_set_eq m k v : JsMap.get k (JsMap.set k v m) = Some v.
Proof.
  induction m as [|[k' v'] r IH]; simpl.
  - now rewrite Z.eqb_refl.
  - destruct (k =? k') eqn:E; simpl.
    + now rewrite Z.eqb_refl.
    + now rewrite E.
Qed.

Lemma JsMap_get_set_neq m k k' v :
  k' <> k -> JsMap.get k' (JsMap.set k v m) = JsMap.get k' m.
Proof.
  intros Hne. induction m as [|[k0 v0] r IH]; simpl.
  - destruct (k' =? k) eqn:E; [apply Z.eqb_eq in E; contradiction | reflexivity].
  - destruct (k =? k0) eqn:E; simpl.
    + apply Z.eqb_eq in E. subst k0.
      destruct (k' =? k) eqn:E'; [apply Z.eqb_eq in E'; contradiction | reflexivity].
    + now rewrite IH.
Qed.

Lemma JsMap_set_fresh m k v :
  ~ In k (JsMap.keys m) -> JsMap.set k v m = m ++ [(k, v)].
Proof.
  induction m as [|[k' v'] r IH]; simpl; intros Hn.
  - reflexivity.
  - destruct (k =? k') eqn:E.
    + apply Z.eqb_eq in E. subst. exfalso. apply Hn. now left.
    + rewrite IH; [reflexivity | intros Hin; apply Hn; now right].
Qed.

Lemma JsMap_keys_set_present m k v :
  In k (JsMap.keys m) -> JsMap.keys (JsMap.set k v m) = JsMap.keys m.
Proof.
  induction m as [|[k' v'] r IH]; simpl; intros Hin.
  - contradiction.
  - destruct (k =? k') eqn:E; simpl.
    + apply Z.eqb_eq in E. now subst.
    + f_equal. apply IH. destruct Hin as [->|Hin]; [|exact Hin].
      rewrite Z.eqb_refl in E. discriminate.
Qed.

Lemma JsMap_get_some_in m k v :
  JsMap.get k m = Some v -> In (k, v) m.
Proof.
  induction m as [|[k' v'] r IH]; simpl; intros H.
  - discriminate.
  - destruct (k =? k') eqn:E.
    + apply Z.eqb_eq in E. injection H as ->. subst. now left.
    + right. now apply IH.
Qed.

Lemma JsMap_has_spec m k :
  JsMap.has k m = true <-> In k (JsMap.keys m).
Proof.
  unfold JsMap.has. rewrite existsb_exists. split.
  - intros (x & Hin & E). apply Z.eqb_eq in E. now subst.
  - intros Hin. exists k. split; [exact Hin | apply Z.eqb_refl].
Qed.

Lemma JsMap_delete_absent m k :
  ~ In k (JsMap.keys m) -> JsMap.delete k m = m.
Proof.
  unfold JsMap.delete.
  induction m as [|[k' v'] r IH]; simpl; intros Hn.
  - reflexivity.
  - destruct (k =? k') eqn:E; simpl.
    + apply Z.eqb_eq in E. subst. exfalso. apply Hn. now left.
    + f_equal. apply IH. intros Hin. apply Hn. now right.
Qed.

End JsMapFacts.

Lemma Db_mem_spec (k : Z) (ks : list Z) : Db.mem k ks = true <-> In k ks.
Proof.
  unfold Db.mem. rewrite existsb_exists. split.
  - intros (x & Hin & E). apply Z.eqb_eq in E. now subst.
  - intros Hin. exists k. split; [exact Hin | apply Z.eqb_refl].
Qed.

Lemma filter_all_true {A} (p : A -> bool) (l : list A) :
  (forall x, In x l -> p x = true) -> filter p l = l.
Proof.
  induction l as [|a l IH]; simpl; intros H.
  - reflexivity.
  - rewrite (H a (or_introl eq_refl)). f_equal. apply IH.
    intros x Hx. apply H. now right.
Qed.

Lemma filter_all_false {A} (p : A -> bool) (l : list A) :
  (forall x, In x l -> p x = false) -> filter p l = [].
Proof.
  induction l as [|a l IH]; simpl; intros H.
  - reflexivity.
  - rewrite (H a (or_introl eq_refl)). apply IH.
    intros x Hx. apply H. now right.
Qed.

Lemma find_none_filter {A} (p : A -> bool) (l : list A) :
  find p l = None <-> filter p l = [].
Proof.
  induction l as [|a l IH]; simpl.
  - tauto.
  - destruct (p a); [split; discriminate | exact IH].
Qed.

Lemma find_some_hd_filter {A} (p : A -> bool) (l : list A) :
  find p l = hd_error (filter p l).
Proof.
  induction l as [|a l IH]; simpl.
  - reflexivity.
  - destruct (p a); [reflexivity | exact IH].
Qed.

Section SortFacts.

Context {A : Type}.
Variable cmp : A -> A -> Z.

Lemma insert_perm (x : A) (l : list A) :
  Permutation (Array.insert cmp x l) (x :: l).
Proof.
  induction l as [|y r IH]; simpl.
  - reflexivity.
  - destruct (cmp x y <=? 0).
    + reflexivity.
    + rewrite IH. apply perm_swap.
Qed.

Lemma sort_perm (l : list A) : Permutation (Array.sort cmp l) l.
Proof.
  unfold Array.sort.
  induction l as [|x r IH]; simpl.
  - reflexivity.
  - rewrite insert_perm. now constructor.
Qed.

Lemma sort_in (l : list A) (x : A) : In x (Array.sort cmp l) <-> In x l.
Proof.
  split; apply Permutation_in; [apply sort_perm | symmetry; apply sort_perm].
Qed.

Lemma sort_length (l : list A) :
  List.length (Array.sort cmp l) = List.length l.
Proof. apply Permutation_length, sort_perm. Qed.

(** A comparator that orders by an integer key, as [a.t - b.t] and
    [b.t - a.t] do. *)
Variable le : A -> A -> Prop.
Hypothesis cmp_le : forall a b, cmp a b <= 0 <-> le a b.
Hypothesis le_total : forall a b, le a b \/ le b a.
Hypothesis le_trans : forall a b c, le a b -> le b c -> le a c.

Lemma insert_sorted (x : A) (l : list A) :
  StronglySorted le l -> StronglySorted le (Array.insert cmp x l).
Proof.
  induction 1 as [|y r Hs IH Hall]; simpl.
  - repeat constructor.
  - destruct (cmp x y <=? 0) eqn:E.
    + apply Z.leb_le, cmp_le in E.
      constructor; [now constructor|].
      constructor; [exact E|].
      eapply Forall_impl; [|exact Hall]. intros z Hz. now apply le_trans with y.
    + constructor; [exact IH|].
      assert (Hyx : le y x).
      { destruct (le_total x y) as [H|H]; [|exact H].
        apply cmp_le, Z.leb_le in H. congruence. }
      rewrite Forall_forall. intros z Hz.
      apply (Permutation_in _ (insert_perm x r)) in Hz.
      destruct Hz as [<-|Hz]; [exact Hyx|].
      rewrite Forall_forall in Hall. now apply Hall.
Qed.

Lemma sort_sorted (l : list A) : StronglySorted le (Array.sort cmp l).
Proof.
  unfold Array.sort.
  induction l as [|x r IH]; simpl.
  - constructor.
  - now apply insert_sorted.
Qed.

End SortFacts.

Lemma sort_asc_sorted {A} (key : A -> Z) (l : list A) :
  StronglySorted (fun a b => key a <= key b)
                 (Array.sort (fun a b => key a - key b) l).
Proof.
  apply sort_sorted; intros; lia.
Qed.

Lemma sort_desc_sorted {A} (key : A -> Z) (l : list A) :
  StronglySorted (fun a b => key b <= key a)
                 (Array.sort (fun a b => key b - key a) l).
Proof.
  apply sort_sorted; intros; lia.
Qed.

Lemma insert_last {A} (cmp : A -> A -> Z) (x : A) (l : list A) :
  Forall (fun y => 0 < cmp x y) l -> Array.insert cmp x l = l ++ [x].
Proof.
  induction 1 as [|y r Hy Hr IH]; simpl.
  - reflexivity.
  - destruct (cmp x y <=? 0) eqn:E.
    + apply Z.leb_le in E. lia.
    + now rewrite IH.
Qed.

(** Rows created at strictly increasing times come back newest-first as the
    reverse of their creation order. *)
Lemma sort_desc_increasing {A} (key : A -> Z) (l : list A) :
  StronglySorted (fun a b => key a < key b) l ->
  Array.sort (fun a b => key b - key a) l = rev l.
Proof.
  unfold Array.sort.
  induction 1 as [|x r Hs IH Hall]; simpl.
  - reflexivity.
  - rewrite IH. apply insert_last.
    rewrite Forall_forall in *. intros y Hy.
    apply in_rev in Hy. specialize (Hall y Hy). lia.
Qed.

Lemma slice_window {A} (offset limit : Z) (l : list A) :
  0 <= offset -> 0 <= limit ->
  Array.slice offset (offset + limit) l
  = firstn (Z.to_nat limit) (skipn (Z.to_nat offset) l).
Proof.
  intros Ho Hl. unfold Array.slice.
  destruct (offset <? 0) eqn:E1; [apply Z.ltb_lt in E1; lia|].
  destruct (offset + limit <? 0) eqn:E2; [apply Z.ltb_lt in E2; lia|].
  set (len := Z.of_nat (List.length l)).
  destruct (Z_lt_le_dec offset len) as [Hlt|Hge].
  - rewrite (Z.min_l offset len) by lia.
    destruct (Z_le_gt_dec (offset + limit) len) as [H1|H1].
    + rewrite Z.min_l by lia. f_equal. lia.
    + rewrite Z.min_r by lia.
      rewrite !firstn_all2; try reflexivity; rewrite length_skipn; subst len; lia.
  - rewrite (Z.min_r offset len) by lia.
    rewrite (@skipn_all2 _ (Z.to_nat len) l) by (subst len; lia).
    rewrite (@skipn_all2 _ (Z.to_nat offset) l) by (subst len; lia).
    now rewrite !firstn_nil.
Qed.

(** ** Defaults applied by [createUser] *)

Lemma Mem_createUser_persists (u : InsertUser.t) (s : MemStorage.t) :
  MemStorage.getUser (User.id (fst (MemStorage.createUser u s)))
                     (snd (MemStorage.createUser u s))
  = Some (fst (MemStorage.createUser u s)).
Proof.
  unfold MemStorage.createUser, MemStorage.getUser. simpl.
  apply JsMap_get_set_eq.
Qed.

Lemma Db_createUser_accepts (u : InsertUser.t) (d : Db.t) :
  Db.username_taken (InsertUser.username u) (Db.users d) = false ->
  Db.mem (Db.users_id_seq d) (map User.id (Db.users d)) = false ->
  exists r d',
    DatabaseStorage.createUser u d = (Db.Ok r, d')
    /\ In r (Db.users d')
    /\ User.username r = InsertUser.username u
    /\ User.profilePicture r = Js.or_null (InsertUser.profilePicture u)
    /\ User.dailyWaterGoal r
       = Some (Js.or_else (InsertUser.dailyWaterGoal u) 2000).
Proof.
  intros Hfree Hid.
  unfold DatabaseStorage.createUser, Db.insert_users. rewrite Hfree, Hid.
  eexists. eexists. split; [reflexivity|].
  simpl. split; [apply in_or_app; right; now left|]. repeat split.
Qed.

Lemma Db_createUser_rejects (u : InsertUser.t) (d : Db.t) :
  Db.username_taken (InsertUser.username u) (Db.users d) = true ->
  fst (DatabaseStorage.createUser u d) = Db.Err Db.UniqueViolation
  /\ Db.users (snd (DatabaseStorage.createUser u d)) = Db.users d.
Proof.
  intros Htaken.
  unfold DatabaseStorage.createUser, Db.insert_users. rewrite Htaken.
  simpl. split; reflexivity.
Qed.

(** C10, as amended: a [dailyWaterGoal] provided as 0 is stored as 2000 and
    a [profilePicture] provided as the empty string is stored as null, by the
    in-memory store for every input and by the relational store for every
    input it accepts, that is, whose username is not taken and for which
    the id drawn from the sequence is free (otherwise the insert raises the
    uniqueness violation and stores nothing). *)
Theorem createUser_replaces_falsy_values :
  forall u : InsertUser.t,
    (InsertUser.dailyWaterGoal u = Js.Val 0 ->
       (forall s,
          let r := fst (MemStorage.createUser u s) in
          let s' := snd (MemStorage.createUser u s) in
          User.dailyWaterGoal r = Some 2000
          /\ MemStorage.getUser (User.id r) s' = Some r)
       /\
       (forall d,
          Db.username_taken (InsertUser.username u) (Db.users d) = false ->
          Db.mem (Db.users_id_seq d) (map User.id (Db.users d)) = false ->
          exists r d',
            DatabaseStorage.createUser u d = (Db.Ok r, d')
            /\ User.dailyWaterGoal r = Some 2000
            /\ In r (Db.users d')))
    /\
    (InsertUser.profilePicture u = Js.Val EmptyString ->
       (forall s,
          let r := fst (MemStorage.createUser u s) in
          let s' := snd (MemStorage.createUser u s) in
          User.profilePicture r = None
          /\ MemStorage.getUser (User.id r) s' = Some r)
       /\
       (forall d,
          Db.username_taken (InsertUser.username u) (Db.users d) = false ->
          Db.mem (Db.users_id_seq d) (map User.id (Db.users d)) = false ->
          exists r d',
            DatabaseStorage.createUser u d = (Db.Ok r, d')
            /\ User.profilePicture r = None
            /\ In r (Db.users d'))).
Proof.
  intros u. split; intros Hv; split.
  - intros s r s'. split; [|apply Mem_createUser_persists].
    subst r. simpl. now rewrite Hv.
  - intros d Hfree Hid.
    destruct (Db_createUser_accepts u d Hfree Hid)
      as (r & d' & E & Hin & _ & _ & Hg).
    exists r, d'. rewrite Hv in Hg. auto.
  - intros s r s'. split; [|apply Mem_createUser_persists].
    subst r. simpl. now rewrite Hv.
  - intros d Hfree Hid.
    destruct (Db_createUser_accepts u d Hfree Hid)
      as (r & d' & E & Hin & _ & Hp & _).
    exists r, d'. rewrite Hv in Hp. auto.
Qed.

Lemma createUser_replaces_falsy_values_witness :
  User.dailyWaterGoal (fst (MemStorage.createUser Sample.zero_goal_user MemStorage.constructor))
  = Some 2000
  /\ User.profilePicture (fst (MemStorage.createUser Sample.zero_goal_user MemStorage.constructor))
     = None
  /\ exists r d',
       DatabaseStorage.createUser Sample.zero_goal_user Db.empty = (Db.Ok r, d')
       /\ User.dailyWaterGoal r = Some 2000 /\ In r (Db.users d').
Proof.
  destruct (createUser_replaces_falsy_values Sample.zero_goal_user) as [Hg Hp].
  destruct (Hg eq_refl) as [Hm Hd].
  destruct (Hp eq_refl) as [Hm' _].
  split; [exact (proj1 (Hm MemStorage.constructor))|].
  split; [exact (proj1 (Hm' MemStorage.constructor))|].
  exact (Hd Db.empty eq_refl eq_refl).
Defined.

(** C10 as stated fails on the relational store: with the username already
    in the table, a [createUser] whose goal is 0 raises and stores no user. *)
Lemma createUser_zero_goal_duplicate_rejected :
  let d := snd (DatabaseStorage.createUser Sample.zero_goal_user Db.empty) in
  InsertUser.dailyWaterGoal Sample.zero_goal_user = Js.Val 0
  /\ fst (DatabaseStorage.createUser Sample.zero_goal_user d)
     = Db.Err Db.UniqueViolation
  /\ Db.users (snd (DatabaseStorage.createUser Sample.zero_goal_user d))
     = Db.users d.
Proof. repeat split. Qed.

(** ** Two users with one username *)

Lemma username_taken_app (name : string) (l1 l2 : list User.t) :
  Db.username_taken name (l1 ++ l2)
  = Db.username_taken name l1 || Db.username_taken name l2.
Proof. apply existsb_app. Qed.

(** C7: two [createUser] calls with the same username both succeed on the
    in-memory store and leave two stored users with distinct ids, while on
    the relational store, once the first call has inserted its user (or the
    username was there before), the second call raises the uniqueness
    violation of the schema and stores nothing. *)
Theorem createUser_same_username_twice :
  forall u1 u2 : InsertUser.t,
    InsertUser.username u1 = InsertUser.username u2 ->
    (forall s,
       let r1 := fst (MemStorage.createUser u1 s) in
       let s1 := snd (MemStorage.createUser u1 s) in
       let r2 := fst (MemStorage.createUser u2 s1) in
       let s2 := snd (MemStorage.createUser u2 s1) in
       User.id r1 <> User.id r2
       /\ User.username r1 = User.username r2
       /\ MemStorage.getUser (User.id r1) s2 = Some r1
       /\ MemStorage.getUser (User.id r2) s2 = Some r2)
    /\
    (forall d,
       let d1 := snd (DatabaseStorage.createUser u1 d) in
       Db.is_ok (fst (DatabaseStorage.createUser u1 d)) = true
       \/ Db.username_taken (InsertUser.username u1) (Db.users d) = true ->
       fst (DatabaseStorage.createUser u2 d1) = Db.Err Db.UniqueViolation
       /\ Db.users (snd (DatabaseStorage.createUser u2 d1)) = Db.users d1).
Proof.
  intros u1 u2 Hname. split.
  - intros s r1 s1 r2 s2.
    assert (Hid : User.id r2 = User.id r1 + 1) by reflexivity.
    split; [lia|]. split; [exact Hname|]. split.
    + subst s2. unfold MemStorage.createUser, MemStorage.getUser. simpl.
      rewrite JsMap_get_set_neq by (simpl; lia).
      apply JsMap_get_set_eq.
    + apply Mem_createUser_persists.
  - intros d d1 Hfirst. apply Db_createUser_rejects.
    subst d1. revert Hfirst.
    unfold DatabaseStorage.createUser, Db.insert_users.
    destruct (Db.username_taken (InsertUser.username u1) (Db.users d)) eqn:E;
      simpl.
    + intros _. now rewrite <- Hname.
    + destruct (Db.mem (Db.users_id_seq d) (map User.id (Db.users d))); simpl.
      * intros [H|H]; discriminate H.
      * intros _. rewrite username_taken_app, <- Hname. simpl.
        rewrite String.eqb_refl. apply orb_true_r.
Qed.

Lemma createUser_same_username_twice_witness :
  let u := Sample.zero_goal_user in
  let s1 := snd (MemStorage.createUser u MemStorage.constructor) in
  User.id (fst (MemStorage.createUser u MemStorage.constructor))
  <> User.id (fst (MemStorage.createUser u s1))
  /\ fst (DatabaseStorage.createUser u
            (snd (DatabaseStorage.createUser u Db.empty)))
     = Db.Err Db.UniqueViolation.
Proof.
  destruct (createUser_same_username_twice Sample.zero_goal_user
              Sample.zero_goal_user eq_refl) as [Hm Hd].
  split.
  - exact (proj1 (Hm MemStorage.constructor)).
  - exact (proj1 (Hd Db.empty (or_introl eq_refl))).
Defined.

(** C7 as stated fails on the relational store where the first of the two
    calls is itself refused: after an update moved the only user to id 2,
    the id the sequence gives next, a first [createUser] of a new username
    raises on the primary key and stores nothing, and the second call with
    the same username is accepted under id 3. *)
Lemma createUser_same_username_second_accepted :
  let u := Sample.second_user in
  let d := Sample.renumbered_db in
  let d1 := snd (DatabaseStorage.createUser u d) in
  DatabaseStorage.reachable d
  /\ map User.id (Db.users d) = [2]
  /\ Db.users_id_seq d = 2
  /\ fst (DatabaseStorage.createUser u d) = Db.Err Db.UniqueViolation
  /\ Db.users d1 = Db.users d
  /\ fst (DatabaseStorage.createUser u d1)
     = Db.Ok (User.mk 3 "bob" "pw2" "bob@example.com" None (Some 2000))
  /\ map User.username (Db.users (snd (DatabaseStorage.createUser u d1)))
     = ["ada"%string; "bob"%string].
Proof.
  split; [repeat constructor | repeat split].
Qed.

(** ** Activities *)

Lemma or_null_left_out {A} `{Js.Truthy A} (x : Js.opt A) :
  x = Js.Undefined \/ x = Js.Null -> Js.or_null x = None.
Proof. intros [-> | ->]; reflexivity. Qed.

Lemma or_null_truthy {A} `{Js.Truthy A} (x : Js.opt A) (a : A) :
  x = Js.Val a -> Js.truthy a = true -> Js.or_null x = Some a.
Proof. intros -> Ht. simpl. now rewrite Ht. Qed.

Lemma nullish_left_out {A} (x : Js.opt A) (d : A) :
  x = Js.Undefined \/ x = Js.Null -> Js.nullish x d = d.
Proof. intros [-> | ->]; reflexivity. Qed.

Lemma truthy_number_nonzero (v : Z) : v <> 0 -> Js.truthy v = true.
Proof.
  intros Hv. unfold Js.truthy, Js.truthy_number.
  destruct (v =? 0) eqn:E; [apply Z.eqb_eq in E; contradiction | reflexivity].
Qed.

Lemma truthy_string_nonempty (w : string) :
  w <> EmptyString -> Js.truthy w = true.
Proof.
  intros Hw. unfold Js.truthy, Js.truthy_string.
  destruct (String.eqb w EmptyString) eqn:E;
    [apply String.eqb_eq in E; contradiction | reflexivity].
Qed.

Lemma activity_row_created_from (a : InsertActivity.t) (now id : Z) :
  activity_created_from a now
    (Activity.mk id
       (InsertActivity.userId a) (InsertActivity.title a)
       (InsertActivity.type a) (InsertActivity.distance a)
       (InsertActivity.duration a)
       (Js.or_null (InsertActivity.elevationGain a))
       (Js.or_null (InsertActivity.weather a))
       (Js.or_null (InsertActivity.temperature a))
       now
       (Some (Js.nullish (InsertActivity.isPublic a) true))).
Proof.
  unfold activity_created_from. simpl.
  repeat match goal with |- _ /\ _ => split end; try reflexivity.
  - apply or_null_left_out.
  - apply or_null_left_out.
  - apply or_null_left_out.
  - intros H. now rewrite nullish_left_out.
  - intros b ->. reflexivity.
  - intros v E Hv. apply or_null_truthy; [exact E|].
    now apply truthy_number_nonzero.
  - intros w E Hw. apply or_null_truthy; [exact E|].
    now apply truthy_string_nonempty.
  - intros f E Hf. now apply or_null_truthy.
Qed.

(** C5, as amended: [createActivity] returns and stores a record stamped
    with the server's time in which an optional field that is left out is
    null, [isPublic] is [true] when left out and kept when given (also when
    [false]), and a provided non-zero number or non-empty string is kept;
    the in-memory store does so for every input, the relational store for
    every input whose [userId] refers to a stored user. *)
Theorem createActivity_defaults :
  forall (a : InsertActivity.t) (now : Z),
    (forall s,
       let r := fst (MemStorage.createActivity a now s) in
       let s' := snd (MemStorage.createActivity a now s) in
       activity_created_from a now r
       /\ MemStorage.getActivityById (Activity.id r) s' = Some r)
    /\
    (forall d,
       Db.user_exists (InsertActivity.userId a) d = true ->
       exists r d',
         DatabaseStorage.createActivity a now d = (Db.Ok r, d')
         /\ activity_created_from a now r
         /\ In r (Db.activities d')).
Proof.
  intros a now. split.
  - intros s r s'. split.
    + apply activity_row_created_from.
    + subst r s'. unfold MemStorage.createActivity, MemStorage.getActivityById.
      simpl. apply JsMap_get_set_eq.
  - intros d Hu.
    unfold DatabaseStorage.createActivity, Db.insert_activities.
    rewrite Hu. simpl.
    eexists. eexists. split; [reflexivity|]. split.
    + apply activity_row_created_from.
    + simpl. apply in_or_app. right. now left.
Qed.

Lemma createActivity_defaults_witness :
  let d := snd (DatabaseStorage.createUser Sample.zero_goal_user Db.empty) in
  exists r d',
    DatabaseStorage.createActivity Sample.private_ride 1000 d = (Db.Ok r, d')
    /\ activity_created_from Sample.private_ride 1000 r
    /\ In r (Db.activities d').
Proof.
  exact (proj2 (createActivity_defaults Sample.private_ride 1000)
               (snd (DatabaseStorage.createUser Sample.zero_goal_user Db.empty))
               eq_refl).
Defined.

(** C5 as stated fails: a temperature of 0 and an elevation gain of 0 are
    provided and yet stored as null, and the relational store returns no
    record for an activity of an unknown user. *)
Lemma createActivity_drops_zero :
  let r := fst (MemStorage.createActivity Sample.freezing_run 1000
                  MemStorage.constructor) in
  InsertActivity.temperature Sample.freezing_run = Js.Val (S754_zero false)
  /\ Activity.temperature r = None
  /\ InsertActivity.elevationGain Sample.freezing_run = Js.Val 0
  /\ Activity.elevationGain r = None
  /\ fst (DatabaseStorage.createActivity Sample.freezing_run 1000 Db.empty)
     = Db.Err Db.ForeignKeyViolation
  /\ Db.activities
       (snd (DatabaseStorage.createActivity Sample.freezing_run 1000 Db.empty))
     = [].
Proof. repeat split. Qed.

(** ** The nearby stub *)

Lemma In_firstn {A} (n : nat) (l : list A) (x : A) :
  In x (firstn n l) -> In x l.
Proof.
  intros H. rewrite <- (firstn_skipn n l). apply in_or_app. now left.
Qed.

Lemma In_skipn {A} (n : nat) (l : list A) (x : A) :
  In x (skipn n l) -> In x l.
Proof.
  intros H. rewrite <- (firstn_skipn n l). apply in_or_app. now right.
Qed.

Lemma firstn_sorted {A} (R : A -> A -> Prop) (n : nat) (l : list A) :
  StronglySorted R l -> StronglySorted R (firstn n l).
Proof.
  intros Hs. revert n.
  induction Hs as [|x r Hs IH Hall]; intros [|n]; simpl; try constructor.
  - apply IH.
  - rewrite Forall_forall in *. intros y Hy. apply Hall.
    eapply In_firstn; eassumption.
Qed.

Lemma Mem_getRecentActivities_firstn (limit : Z) (s : MemStorage.t) :
  0 <= limit ->
  MemStorage.getRecentActivities limit s
  = firstn (Z.to_nat limit)
      (Array.sort (fun a b => Activity.timestamp b - Activity.timestamp a)
         (filter (fun a => Js.truthy_nullable (Activity.isPublic a))
                 (JsMap.values (MemStorage.activities s)))).
Proof.
  intros Hl. unfold MemStorage.getRecentActivities.
  change limit with (0 + limit) at 1.
  now rewrite slice_window by lia.
Qed.

(** C6: on both stores [getPublicActivitiesNearby] does not depend on its
    arguments and returns what [getRecentActivities(10)] returns: the first
    ten of the public activities ordered newest-first. *)
Theorem getPublicActivitiesNearby_is_recent_10 :
  (forall s lat lng radiusKm,
     let res := MemStorage.getPublicActivitiesNearby lat lng radiusKm s in
     res = MemStorage.getRecentActivities 10 s
     /\ (forall lat' lng' radiusKm',
           MemStorage.getPublicActivitiesNearby lat' lng' radiusKm' s = res)
     /\ (List.length res <= 10)%nat
     /\ (forall a, In a res ->
           In a (JsMap.values (MemStorage.activities s))
           /\ Activity.isPublic a = Some true)
     /\ StronglySorted
          (fun a b => Activity.timestamp b <= Activity.timestamp a) res
     /\ exists ranked,
          Permutation ranked
            (filter (fun a => Js.truthy_nullable (Activity.isPublic a))
                    (JsMap.values (MemStorage.activities s)))
          /\ StronglySorted
               (fun a b => Activity.timestamp b <= Activity.timestamp a) ranked
          /\ res = firstn 10 ranked)
  /\
  (forall d lat lng radiusKm,
     DatabaseStorage.getPublicActivitiesNearby lat lng radiusKm d
     = DatabaseStorage.getRecentActivities 10 d
     /\ (forall lat' lng' radiusKm',
           DatabaseStorage.getPublicActivitiesNearby lat' lng' radiusKm' d
           = DatabaseStorage.getPublicActivitiesNearby lat lng radiusKm d)
     /\ exists ranked,
          Permutation ranked
            (filter DatabaseStorage.is_public_true (Db.activities d))
          /\ StronglySorted
               (fun a b => Activity.timestamp b <= Activity.timestamp a) ranked
          /\ DatabaseStorage.getPublicActivitiesNearby lat lng radiusKm d
             = Db.Ok (firstn 10 ranked)).
Proof.
  split.
  - intros s lat lng radiusKm res.
    assert (E : res
                = firstn 10
                    (Array.sort
                       (fun a b => Activity.timestamp b - Activity.timestamp a)
                       (filter
                          (fun a => Js.truthy_nullable (Activity.isPublic a))
                          (JsMap.values (MemStorage.activities s))))).
    { subst res. unfold MemStorage.getPublicActivitiesNearby.
      now rewrite Mem_getRecentActivities_firstn by lia. }
    split; [reflexivity|]. split; [reflexivity|].
    split; [rewrite E; apply firstn_le_length|].
    split.
    + intros a Ha. rewrite E in Ha. apply In_firstn in Ha.
      apply sort_in, filter_In in Ha. destruct Ha as [Hin Hp].
      split; [exact Hin|].
      destruct (Activity.isPublic a) as [[|]|]; simpl in Hp;
        [reflexivity | discriminate | discriminate].
    + split.
      * rewrite E. apply firstn_sorted.
        apply (sort_desc_sorted Activity.timestamp).
      * eexists. split; [apply sort_perm|]. split; [|exact E].
        apply (sort_desc_sorted Activity.timestamp).
  - intros d lat lng radiusKm.
    split; [reflexivity|]. split; [reflexivity|].
    eexists. split; [apply sort_perm|]. split.
    + apply (sort_desc_sorted Activity.timestamp).
    + reflexivity.
Qed.

(** ** Pagination of posts *)

Lemma createPosts_values (ins : list (InsertPost.t * Z)) (s : MemStorage.t) :
  Forall (fun k => k < MemStorage.postIdCounter s)
         (JsMap.keys (MemStorage.posts s)) ->
  JsMap.values (MemStorage.posts (snd (createPosts ins s)))
  = JsMap.values (MemStorage.posts s) ++ fst (createPosts ins s)
  /\ map Post.timestamp (fst (createPosts ins s)) = map snd ins.
Proof.
  revert s. induction ins as [|[p now] ins IH]; intros s Hk; simpl.
  - now rewrite app_nil_r.
  - set (r := Post.mk (MemStorage.postIdCounter s) (InsertPost.userId p)
                      (Js.or_null (InsertPost.activityId p))
                      (InsertPost.content p)
                      (Js.or_null (InsertPost.imagePath p)) now).
    set (s1 := MemStorage.with_posts
                 (JsMap.set (MemStorage.postIdCounter s) r (MemStorage.posts s))
                 (MemStorage.postIdCounter s + 1) s).
    assert (Hfresh : ~ In (MemStorage.postIdCounter s)
                          (JsMap.keys (MemStorage.posts s))).
    { intros Hin. rewrite Forall_forall in Hk. specialize (Hk _ Hin). lia. }
    assert (Hs1 : MemStorage.posts s1 = MemStorage.posts s ++ [(MemStorage.postIdCounter s, r)]).
    { subst s1. simpl. now apply JsMap_set_fresh. }
    assert (Hk1 : Forall (fun k => k < MemStorage.postIdCounter s1)
                         (JsMap.keys (MemStorage.posts s1))).
    { rewrite Hs1. unfold JsMap.keys. rewrite map_app. apply Forall_app. split.
      - eapply Forall_impl; [|exact Hk]. subst s1. simpl. intros; lia.
      - repeat constructor. subst s1. simpl. lia. }
    destruct (IH s1 Hk1) as [IHv IHt].
    destruct (createPosts ins s1) as [rs s2] eqn:E. simpl in *.
    split.
    + rewrite IHv, Hs1. unfold JsMap.values. rewrite map_app. simpl.
      now rewrite <- app_assoc.
    + now rewrite IHt.
Qed.

Lemma sorted_map_lt {A} (key : A -> Z) (l : list A) :
  StronglySorted Z.lt (map key l) ->
  StronglySorted (fun a b => key a < key b) l.
Proof.
  induction l as [|x r IH]; simpl; intros H.
  - constructor.
  - inversion H as [|? ? Hs Hall]; subst. constructor; [now apply IH|].
    rewrite Forall_forall in *. intros y Hy. apply Hall. now apply in_map.
Qed.

Lemma window_6_to_10 {A} (l : list A) :
  List.length l = 15%nat ->
  firstn 5 (skipn 5 (rev l)) = rev (firstn 5 (skipn 5 l)).
Proof.
  intros H. do 16 (destruct l as [|? l]; try discriminate H). reflexivity.
Qed.

(** C4: for non-negative [limit] and [offset], [getPosts] returns the
    elements [offset, offset+limit) of the stored posts ranked newest-first
    (nothing when the window starts past the end); after fifteen posts are
    created in order on a store without posts, [getPosts(5, 5)] is the posts
    created sixth to tenth, newest first. *)
Theorem getPosts_window :
  forall limit offset : Z,
    0 <= limit -> 0 <= offset ->
    (forall s,
       exists ranked,
         Permutation ranked (JsMap.values (MemStorage.posts s))
         /\ StronglySorted (fun a b => Post.timestamp b <= Post.timestamp a)
                           ranked
         /\ MemStorage.getPosts limit offset s
            = firstn (Z.to_nat limit) (skipn (Z.to_nat offset) ranked)
         /\ (Z.of_nat (List.length (JsMap.values (MemStorage.posts s)))
             <= offset ->
             MemStorage.getPosts limit offset s = []))
    /\
    (forall d,
       exists ranked,
         Permutation ranked (Db.posts d)
         /\ StronglySorted (fun a b => Post.timestamp b <= Post.timestamp a)
                           ranked
         /\ DatabaseStorage.getPosts limit offset d
            = Db.Ok (firstn (Z.to_nat limit) (skipn (Z.to_nat offset) ranked))
         /\ (Z.of_nat (List.length (Db.posts d)) <= offset ->
             DatabaseStorage.getPosts limit offset d = Db.Ok []))
    /\
    (forall ins s,
       MemStorage.posts s = [] ->
       List.length ins = 15%nat ->
       StronglySorted Z.lt (map snd ins) ->
       MemStorage.getPosts 5 5 (snd (createPosts ins s))
       = rev (firstn 5 (skipn 5 (fst (createPosts ins s))))).
Proof.
  intros limit offset Hl Ho. split; [|split].
  - intros s.
    exists (Array.sort (fun a b => Post.timestamp b - Post.timestamp a)
                       (JsMap.values (MemStorage.posts s))).
    split; [apply sort_perm|].
    split; [apply (sort_desc_sorted Post.timestamp)|].
    unfold MemStorage.getPosts. rewrite slice_window by assumption.
    split; [reflexivity|].
    intros Hend. rewrite skipn_all2; [apply firstn_nil|].
    rewrite sort_length. lia.
  - intros d.
    exists (Db.order_desc Post.timestamp (Db.posts d)).
    split; [apply sort_perm|].
    split; [apply (sort_desc_sorted Post.timestamp)|].
    unfold DatabaseStorage.getPosts, Db.limit_offset.
    destruct (limit <? 0) eqn:E1; [apply Z.ltb_lt in E1; lia|].
    destruct (offset <? 0) eqn:E2; [apply Z.ltb_lt in E2; lia|].
    simpl. split; [reflexivity|].
    intros Hend. rewrite skipn_all2; [now rewrite firstn_nil|].
    unfold Db.order_desc. rewrite sort_length. lia.
  - intros ins s Hempty Hlen Hinc.
    assert (Hk : Forall (fun k => k < MemStorage.postIdCounter s)
                        (JsMap.keys (MemStorage.posts s)))
      by (rewrite Hempty; constructor).
    destruct (createPosts_values ins s Hk) as [Hv Ht].
    rewrite Hempty in Hv. simpl in Hv.
    unfold MemStorage.getPosts.
    change (5 + 5) with (5 + 5)%Z.
    rewrite (slice_window 5 5) by lia. rewrite Hv.
    rewrite sort_desc_increasing.
    + apply window_6_to_10.
      rewrite <- (length_map Post.timestamp), Ht, length_map. exact Hlen.
    + apply sorted_map_lt. now rewrite Ht.
Qed.

Lemma getPosts_window_witness :
  map Post.id (MemStorage.getPosts 5 5
                 (snd (createPosts Sample.fifteen_posts MemStorage.constructor)))
  = [10; 9; 8; 7; 6].
Proof.
  destruct (getPosts_window 5 5 ltac:(lia) ltac:(lia)) as (_ & _ & H).
  rewrite (H Sample.fifteen_posts MemStorage.constructor).
  - reflexivity.
  - reflexivity.
  - reflexivity.
  - unfold Sample.fifteen_posts. simpl. repeat constructor.
Defined.

(** ** The day window of water intakes *)

Lemma setHours_start (tza date : Z) :
  Date.setHours (Date.fixed tza) date 0 0 0 0
  = Date.Day (Date.LocalTime (Date.fixed tza) date) * Date.msPerDay - tza.
Proof.
  unfold Date.setHours, Date.UTC, Date.MakeDate, Date.MakeTime, Date.fixed.
  lia.
Qed.

Lemma setHours_end (tza date : Z) :
  Date.setHours (Date.fixed tza) date 23 59 59 999
  = Date.setHours (Date.fixed tza) date 0 0 0 0 + (Date.msPerDay - 1).
Proof.
  unfold Date.setHours, Date.UTC, Date.MakeDate, Date.MakeTime, Date.fixed,
    Date.msPerHour, Date.msPerMinute, Date.msPerSecond, Date.msPerDay. lia.
Qed.



Lemma day_window (tza date ts : Z) :
  (Date.setHours (Date.fixed tza) date 0 0 0 0 <=? ts)
  && (ts <=? Date.setHours (Date.fixed tza) date 23 59 59 999)
  = same_local_day tza date ts.
Proof.
  rewrite setHours_end, setHours_start.
  unfold same_local_day, Date.LocalTime, Date.Day, Date.msPerDay, Date.fixed.
  pose proof (Z.div_mod (ts + tza) 86400000 ltac:(lia)) as Hts.
  pose proof (Z.mod_pos_bound (ts + tza) 86400000 ltac:(lia)) as Hts'.
  destruct ((ts + tza) / 86400000 =? (date + tza) / 86400000) eqn:E.
  - apply Z.eqb_eq in E. rewrite <- E.
    apply andb_true_iff. split; apply Z.leb_le; lia.
  - apply Z.eqb_neq in E. apply andb_false_iff.
    destruct (Z_lt_le_dec ((ts + tza) / 86400000) ((date + tza) / 86400000)).
    + left. apply Z.leb_gt. lia.
    + right. apply Z.leb_gt. lia.
Qed.


Lemma Mem_window_query (LocalTZA : Date.zone) (userId date : Z)
  (s : MemStorage.t) :
  MemStorage.getWaterIntakeByUserIdAndDate LocalTZA userId date s
  = Array.sort (fun a b => WaterIntake.timestamp a - WaterIntake.timestamp b)
      (filter (intake_in_window userId
                 (Date.setHours LocalTZA date 0 0 0 0)
                 (Date.setHours LocalTZA date 23 59 59 999))
              (JsMap.values (MemStorage.waterIntakes s))).
Proof.
  unfold MemStorage.getWaterIntakeByUserIdAndDate, Array.filter. f_equal.
  apply filter_ext. intros w. unfold intake_in_window.
  now rewrite andb_assoc.
Qed.

Lemma Db_window_query (LocalTZA : Date.zone) (userId date : Z) (d : Db.t) :
  DatabaseStorage.getWaterIntakeByUserIdAndDate LocalTZA userId date d
  = Array.sort (fun a b => WaterIntake.timestamp a - WaterIntake.timestamp b)
      (filter (intake_in_window userId
                 (Date.setHours LocalTZA date 0 0 0 0)
                 (Date.setHours LocalTZA date 23 59 59 999))
              (Db.waterIntake d)).
Proof.
  reflexivity.
Qed.




Example day_query_on_a_23_hour_day :
  Date.setHours Sample.new_york_2024 1710086400000 23 59 59 999
  - Date.setHours Sample.new_york_2024 1710086400000 0 0 0 0
  = 23 * Date.msPerHour - 1
  /\ MemStorage.getWaterIntakeByUserIdAndDate Sample.new_york_2024 1
       1710086400000 Sample.spring_forward_store
     = [WaterIntake.mk 1 1 250 1710048600000;
        WaterIntake.mk 2 1 300 1710127800000].
Proof.
  split; reflexivity.
Qed.


(** ** Invariants of the in-memory store *)

Lemma existsb_eqb_below (c : Z) (ks : list Z) :
  Forall (fun k => k < c) ks -> existsb (Z.eqb c) ks = false.
Proof.
  induction 1 as [|k r Hk Hr IH]; simpl.
  - reflexivity.
  - rewrite IH, orb_false_r. apply Z.eqb_neq. lia.
Qed.

Lemma existsb_eqb_in (c : Z) (ks : list Z) :
  In c ks -> existsb (Z.eqb c) ks = true.
Proof.
  intros H. apply existsb_exists. exists c. split; [exact H | apply Z.eqb_refl].
Qed.

Lemma below_not_in (c : Z) (ks : list Z) :
  Forall (fun k => k < c) ks -> ~ In c ks.
Proof.
  intros H Hin. rewrite Forall_forall in H. specialize (H c Hin). lia.
Qed.

Lemma keys_set_below {V} (m : JsMap.t V) (c : Z) (v : V) :
  Forall (fun k => k < c) (JsMap.keys m) ->
  Forall (fun k => k < c + 1) (JsMap.keys (JsMap.set c v m)).
Proof.
  intros H. rewrite JsMap_set_fresh by now apply below_not_in.
  unfold JsMap.keys. rewrite map_app. apply Forall_app. split.
  - eapply Forall_impl; [|exact H]. simpl. intros; lia.
  - repeat constructor. simpl. lia.
Qed.

Lemma get_some_key {V} (m : JsMap.t V) (k : Z) (v : V) :
  JsMap.get k m = Some v -> In k (JsMap.keys m).
Proof.
  intros H. apply JsMap_get_some_in in H.
  unfold JsMap.keys. now apply (in_map fst) in H.
Qed.

Lemma keys_delete_below {V} (m : JsMap.t V) (k c : Z) :
  Forall (fun k => k < c) (JsMap.keys m) ->
  Forall (fun k => k < c) (JsMap.keys (JsMap.delete k m)).
Proof.
  unfold JsMap.keys, JsMap.delete. rewrite !Forall_forall.
  intros H x Hx. apply H. apply in_map_iff in Hx.
  destruct Hx as (kv & E & Hin). apply filter_In in Hin.
  apply in_map_iff. exists kv. tauto.
Qed.

Lemma find_like_in (u p : Z) (m : JsMap.t Like.t) (l : Like.t) :
  find (like_matches u p) (JsMap.values m) = Some l ->
  In l (JsMap.values m) /\ Like.userId l = u /\ Like.postId l = p.
Proof.
  intros H. apply find_some in H. destruct H as [Hin Hm].
  unfold like_matches in Hm. apply andb_true_iff in Hm.
  rewrite !Z.eqb_eq in Hm. tauto.
Qed.

Lemma find_like_none (u p : Z) (ls : list Like.t) :
  find (like_matches u p) ls = None -> ~ In (u, p) (map like_pair ls).
Proof.
  intros H Hin. apply in_map_iff in Hin. destruct Hin as (l & E & Hl).
  apply (find_none _ _ H) in Hl. unfold like_matches in Hl.
  unfold like_pair in E. injection E as <- <-.
  now rewrite !Z.eqb_refl in Hl.
Qed.

Lemma value_key_in (m : JsMap.t Like.t) (l : Like.t) :
  Forall (fun kv => Like.id (snd kv) = fst kv) m ->
  In l (JsMap.values m) -> In (Like.id l) (JsMap.keys m).
Proof.
  intros Hid Hin. unfold JsMap.values in Hin. apply in_map_iff in Hin.
  destruct Hin as ([k v] & E & Hkv). simpl in E. subst v.
  rewrite Forall_forall in Hid. specialize (Hid _ Hkv). simpl in Hid.
  rewrite Hid. unfold JsMap.keys. now apply (in_map fst) in Hkv.
Qed.

Lemma NoDup_map_filter {Row Key} (key : Row -> Key) (keep : Row -> bool)
  (rows : list Row) (Hkeys : NoDup (map key rows)) :
  NoDup (map key (filter keep rows)).
Proof.
  induction rows as [|row rows IH]; simpl in *.
  - constructor.
  - inversion Hkeys as [|? ? Hfresh Hrest]; subst.
    destruct (keep row); simpl; [constructor|]; auto.
    intros Hin. apply Hfresh. apply in_map_iff in Hin.
    destruct Hin as (x & E & Hx). apply filter_In in Hx.
    apply in_map_iff. exists x. tauto.
Qed.

Lemma map_filter_comm_snd {V} (q : Z -> bool) (m : JsMap.t V) :
  map fst (filter (fun kv => q (fst kv)) m) = filter q (map fst m).
Proof.
  induction m as [|[k v] r IH]; simpl.
  - reflexivity.
  - destruct (q k); simpl; now rewrite IH.
Qed.

Lemma NoDup_filter {A} (p : A -> bool) (l : list A) :
  NoDup l -> NoDup (filter p l).
Proof.
  intros H. rewrite <- (map_id (filter p l)). apply NoDup_map_filter.
  now rewrite map_id.
Qed.

Ltac unfold_ops :=
  unfold MemStorage.step, MemStorage.createUser, MemStorage.updateUser,
    MemStorage.addWaterIntake, MemStorage.createActivity,
    MemStorage.saveRoute, MemStorage.createPost, MemStorage.addLike,
    MemStorage.removeLike, MemStorage.addComment, MemStorage.getUser,
    Array.find in *.

Ltac by_entity H :=
  first [ exact (H EUser) | exact (H EWaterIntake) | exact (H EActivity)
        | exact (H ERoute) | exact (H EPost) | exact (H ELike)
        | exact (H EComment) ].

Lemma keys_below_step (o : MemStorage.op) (s : MemStorage.t) :
  keys_below s -> keys_below (snd (MemStorage.step o s)).
Proof.
  intros H e. destruct o; unfold_ops.
  - destruct e; simpl; try by_entity H. apply keys_set_below. by_entity H.
  - destruct (JsMap.get id (MemStorage.users s)) as [user|] eqn:E;
      simpl; [|apply H].
    destruct e; simpl; try by_entity H.
    rewrite JsMap_keys_set_present by (eapply get_some_key; eassumption).
    by_entity H.
  - destruct e; simpl; try by_entity H. apply keys_set_below. by_entity H.
  - destruct e; simpl; try by_entity H. apply keys_set_below. by_entity H.
  - destruct e; simpl; try by_entity H. apply keys_set_below. by_entity H.
  - destruct e; simpl; try by_entity H. apply keys_set_below. by_entity H.
  - destruct (find _ (JsMap.values (MemStorage.likes s))) as [l|] eqn:E;
      simpl; [apply H|].
    destruct e; simpl; try by_entity H. apply keys_set_below. by_entity H.
  - destruct (find _ (JsMap.values (MemStorage.likes s))) as [l|] eqn:E;
      simpl; [|apply H].
    destruct e; simpl; try by_entity H. apply keys_delete_below. by_entity H.
  - destruct e; simpl; try by_entity H. apply keys_set_below. by_entity H.
Qed.

Lemma likes_ok_add (s : MemStorage.t) (u p : Z) :
  keys_below s -> likes_ok s ->
  find (like_matches u p) (JsMap.values (MemStorage.likes s)) = None ->
  let c := MemStorage.likeIdCounter s in
  JsMap.set c (Like.mk c u p) (MemStorage.likes s)
  = MemStorage.likes s ++ [(c, Like.mk c u p)]
  /\ likes_ok (MemStorage.with_likes
                 (JsMap.set c (Like.mk c u p) (MemStorage.likes s)) (c + 1) s).
Proof.
  intros Hk (Hid & Hkeys & Hpairs) Hnone c.
  assert (Hfresh : ~ In c (JsMap.keys (MemStorage.likes s)))
    by apply below_not_in, (Hk ELike).
  assert (Hset : JsMap.set c (Like.mk c u p) (MemStorage.likes s)
                 = MemStorage.likes s ++ [(c, Like.mk c u p)])
    by now apply JsMap_set_fresh.
  split; [exact Hset|].
  unfold likes_ok. simpl. rewrite Hset.
  unfold JsMap.keys, JsMap.values. rewrite !map_app. simpl.
  split; [|split].
  - apply Forall_app. split; [exact Hid | repeat constructor].
  - apply NoDup_app; [exact Hkeys | repeat constructor; auto |].
    intros a Ha [<-|[]]. contradiction.
  - apply NoDup_app; [exact Hpairs | repeat constructor; auto |].
    intros a Ha [<-|[]]. revert Ha. now apply find_like_none.
Qed.

Lemma likes_ok_delete (s : MemStorage.t) (k : Z) :
  likes_ok s ->
  likes_ok (MemStorage.with_likes (JsMap.delete k (MemStorage.likes s))
                                  (MemStorage.likeIdCounter s) s).
Proof.
  intros (Hid & Hkeys & Hpairs). unfold likes_ok. simpl.
  unfold JsMap.delete, JsMap.keys, JsMap.values. split; [|split].
  - rewrite Forall_forall in *. intros kv Hkv. apply filter_In in Hkv.
    now apply Hid.
  - now apply NoDup_map_filter.
  - rewrite map_map. apply NoDup_map_filter.
    unfold JsMap.values in Hpairs. now rewrite map_map in Hpairs.
Qed.

Lemma likes_ok_step (o : MemStorage.op) (s : MemStorage.t) :
  keys_below s -> likes_ok s -> likes_ok (snd (MemStorage.step o s)).
Proof.
  intros Hk H. destruct o; unfold_ops; try exact H.
  - destruct (JsMap.get id (MemStorage.users s)); exact H.
  - destruct (find _ (JsMap.values (MemStorage.likes s))) as [l|] eqn:E;
      simpl; [exact H|].
    destruct like as [u p]. simpl in *.
    now apply likes_ok_add.
  - destruct (find _ (JsMap.values (MemStorage.likes s))) as [l|] eqn:E;
      simpl; [|exact H].
    now apply likes_ok_delete.
Qed.

Lemma reachable_invariant (s : MemStorage.t) :
  MemStorage.reachable s -> keys_below s /\ likes_ok s.
Proof.
  induction 1 as [|o s Hr [Hk Hl]].
  - split.
    + intros e. destruct e; simpl; repeat constructor.
    + unfold likes_ok. simpl. repeat split; constructor.
  - split; [now apply keys_below_step | now apply likes_ok_step].
Qed.

(** ** Identifier assignment *)

Lemma seqZ_in (a : Z) (n : nat) (x : Z) :
  In x (seqZ a n) <-> a <= x < a + Z.of_nat n.
Proof.
  revert a. induction n as [|n IH]; intros a; simpl seqZ.
  - simpl. lia.
  - simpl In. rewrite IH. lia.
Qed.

Lemma seqZ_NoDup (a : Z) (n : nat) : NoDup (seqZ a n).
Proof.
  revert a. induction n as [|n IH]; intros a; simpl; constructor.
  - rewrite seqZ_in. lia.
  - apply IH.
Qed.

Lemma run_cons (o : MemStorage.op) (os : list MemStorage.op)
  (s : MemStorage.t) :
  snd (MemStorage.run (o :: os) s)
  = snd (MemStorage.run os (snd (MemStorage.step o s))).
Proof.
  simpl. destruct (MemStorage.step o s) as [r s']. simpl.
  now destruct (MemStorage.run os s').
Qed.

Ltac fresh_id X :=
  let HH := fresh in
  pose proof X as HH; simpl in HH; rewrite HH; reflexivity.

(** One call either issues the current counter value of [e] and advances the
    counter by one, or issues nothing and leaves the counter as it is; the
    creation calls of every type but Like always do the former. *)
Lemma issued_by_step (e : entity) (o : MemStorage.op) (s : MemStorage.t) :
  keys_below s -> likes_ok s ->
  (issued_by e o s = [counter e s]
   /\ counter e (snd (MemStorage.step o s)) = counter e s + 1
   /\ creates e o = true)
  \/
  (issued_by e o s = []
   /\ counter e (snd (MemStorage.step o s)) = counter e s
   /\ (creates e o = true -> e = ELike)).
Proof.
  intros Hk (Hid & _ & _).
  pose proof (fun e => existsb_eqb_below _ _ (Hk e)) as Hfresh.
  unfold issued_by.
  destruct o; unfold_ops;
    try (destruct (JsMap.get id (MemStorage.users s)) as [user|]);
    try (destruct (find _ (JsMap.values (MemStorage.likes s))) as [l|] eqn:E);
    destruct e; simpl;
    try (right; repeat split; (reflexivity || discriminate));
    try (left; split; [|split; reflexivity];
         first [ fresh_id (Hfresh EUser) | fresh_id (Hfresh EWaterIntake)
               | fresh_id (Hfresh EActivity) | fresh_id (Hfresh ERoute)
               | fresh_id (Hfresh EPost) | fresh_id (Hfresh ELike)
               | fresh_id (Hfresh EComment) ]).
  right. apply find_some in E. destruct E as [Hin _].
  rewrite existsb_eqb_in by now apply value_key_in.
  repeat split.
Qed.

Lemma issued_from (e : entity) (os : list MemStorage.op) (s : MemStorage.t) :
  keys_below s -> likes_ok s ->
  issued e os s = seqZ (counter e s) (List.length (issued e os s))
  /\ counter e (snd (MemStorage.run os s))
     = counter e s + Z.of_nat (List.length (issued e os s))
  /\ (e <> ELike ->
      List.length (issued e os s) = List.length (filter (creates e) os)).
Proof.
  revert s. induction os as [|o os IH]; intros s Hk Hl.
  - simpl. repeat split. lia.
  - rewrite run_cons. simpl issued. simpl filter.
    destruct (IH (snd (MemStorage.step o s))
                 (keys_below_step o s Hk) (likes_ok_step o s Hk Hl))
      as (IHs & IHc & IHn).
    destruct (issued_by_step e o s Hk Hl)
      as [(Hi & Hc & Hcr) | (Hi & Hc & Hcr)];
      rewrite Hi; rewrite Hc in IHs, IHc.
    + rewrite Hcr. simpl. split; [now f_equal|]. split; [lia|].
      intros Hne. f_equal. now apply IHn.
    + simpl. split; [exact IHs|]. split; [exact IHc|].
      intros Hne. destruct (creates e o) eqn:Ecr.
      * now specialize (Hcr eq_refl).
      * now apply IHn.
Qed.

(** C2, as amended: on a freshly constructed in-memory store, whatever the
    sequence of calls, the ids issued for an entity type are consecutive in
    issuance order and issued once each, starting at 1 for every type except
    User, where they start at 2 because the constructor's test user holds id
    1; for every type but Like each creation call issues an id, while
    [addLike] issues one only when it creates a Like; no counter ever goes
    back, and [removeLike] leaves the Like counter as it is. *)
Theorem issued_ids_consecutive :
  forall (e : entity) (os : list MemStorage.op),
    let ids := issued e os MemStorage.constructor in
    ids = seqZ (first_id e) (List.length ids)
    /\ NoDup ids
    /\ (e <> ELike ->
        List.length ids = List.length (filter (creates e) os))
    /\ counter e (snd (MemStorage.run os MemStorage.constructor))
       = first_id e + Z.of_nat (List.length ids)
    /\ (forall u p s,
          MemStorage.likeIdCounter (MemStorage.removeLike u p s)
          = MemStorage.likeIdCounter s).
Proof.
  intros e os ids.
  destruct (reachable_invariant _ MemStorage.reachable_new) as [Hk Hl].
  destruct (issued_from e os MemStorage.constructor Hk Hl) as (Hs & Hc & Hn).
  assert (E0 : counter e MemStorage.constructor = first_id e)
    by (destruct e; reflexivity).
  rewrite E0 in *. fold ids in Hs, Hc, Hn.
  split; [exact Hs|]. split; [rewrite Hs; apply seqZ_NoDup|].
  split; [exact Hn|]. split; [exact Hc|].
  intros u p s. unfold MemStorage.removeLike.
  now destruct (Array.find _ _).
Qed.

Lemma issued_ids_consecutive_witness :
  List.length
    (issued EPost [MemStorage.CreatePost (InsertPost.mk 1 Js.Undefined "a" Js.Undefined) 5;
                   MemStorage.RemoveLike 1 1;
                   MemStorage.CreatePost (InsertPost.mk 1 Js.Undefined "b" Js.Undefined) 6]
            MemStorage.constructor)
  = 2%nat.
Proof.
  refine (proj1 (proj2 (proj2 (issued_ids_consecutive EPost _))) _).
  discriminate.
Defined.

(** C2 as stated fails: the first [createUser] on a fresh store is given id
    2, and two [addLike] calls for one pair are both given id 1. *)
Lemma fresh_store_first_user_id :
  User.id (fst (MemStorage.createUser Sample.zero_goal_user
                  MemStorage.constructor)) = 2
  /\ issued EUser [MemStorage.CreateUser Sample.zero_goal_user]
            MemStorage.constructor <> seqZ 1 1
  /\ map (returned_id ELike)
         (fst (MemStorage.run [MemStorage.AddLike (InsertLike.mk 1 1);
                               MemStorage.AddLike (InsertLike.mk 1 1)]
                 MemStorage.constructor))
     = [Some 1; Some 1].
Proof. repeat split. discriminate. Qed.

(** ** Invariants of the relational store *)

Lemma NoDup_map_inj_in {A B} (f : A -> B) (l : list A) (x y : A) :
  NoDup (map f l) -> In x l -> In y l -> f x = f y -> x = y.
Proof.
  induction l as [|a l IH]; simpl; intros Hnd Hx Hy E.
  - contradiction.
  - inversion Hnd as [|? ? Hn Hd]; subst.
    destruct Hx as [->|Hx], Hy as [->|Hy]; auto.
    + exfalso. apply Hn. rewrite E. now apply in_map.
    + exfalso. apply Hn. rewrite <- E. now apply in_map.
Qed.

Lemma username_taken_spec (name : string) (rows : list User.t) :
  Db.username_taken name rows = true <-> In name (map User.username rows).
Proof.
  unfold Db.username_taken. rewrite existsb_exists, in_map_iff.
  split; intros (u & H1 & H2).
  - apply String.eqb_eq in H2. eauto.
  - exists u. split; [exact H2|]. now apply String.eqb_eq.
Qed.

Lemma username_free_spec (name : string) (rows : list User.t) :
  Db.username_taken name rows = false <-> ~ In name (map User.username rows).
Proof.
  rewrite <- username_taken_spec. now destruct (Db.username_taken name rows).
Qed.

Lemma Db_mem_false (k : Z) (ks : list Z) : Db.mem k ks = false <-> ~ In k ks.
Proof. rewrite <- Db_mem_spec. now destruct (Db.mem k ks). Qed.

Section UpdateRows.

Variable id : Z.
Variable g : User.t -> User.t.

Let hit (u : User.t) : bool := User.id u =? id.
Let miss (u : User.t) : bool := negb (User.id u =? id).
Let rewrite_row (u : User.t) : User.t := if User.id u =? id then g u else u.

Lemma no_hit_rows (l : list User.t) :
  ~ In id (map User.id l) ->
  map rewrite_row l = l /\ filter miss l = l /\ filter hit l = [].
Proof.
  induction l as [|a l IH]; simpl; intros Hn.
  - auto.
  - assert (Ha : (User.id a =? id) = false)
      by (apply Z.eqb_neq; intros E; apply Hn; now left).
    destruct IH as (IH1 & IH2 & IH3); [intros H; apply Hn; now right|].
    unfold rewrite_row, miss, hit in *. rewrite Ha. simpl.
    now rewrite IH1, IH2, IH3.
Qed.

Lemma filter_miss_cons (a : User.t) (l : list User.t) :
  filter miss (a :: l)
  = if User.id a =? id then filter miss l else a :: filter miss l.
Proof. simpl. unfold miss. now destruct (User.id a =? id). Qed.

Lemma update_rows_NoDup {K} (f : User.t -> K) (l : list User.t) :
  NoDup (map User.id l) -> NoDup (map f l) ->
  (forall u, In u l -> User.id u = id ->
             ~ In (f (g u)) (map f (filter miss l))) ->
  NoDup (map f (map rewrite_row l)).
Proof.
  induction l as [|a l IH]; intros Hids Hf Hchk.
  - constructor.
  - simpl in Hids, Hf. simpl map.
    inversion Hids as [|? ? Hida Hids']; subst.
    inversion Hf as [|? ? Hfa Hf']; subst.
    assert (Hchk' : forall u, In u (a :: l) -> User.id u = id ->
               ~ In (f (g u))
                    (map f (if User.id a =? id then filter miss l
                            else a :: filter miss l)))
      by (intros u Hu Eu; rewrite <- filter_miss_cons; now apply Hchk).
    clear Hchk. unfold rewrite_row at 1.
    destruct (User.id a =? id) eqn:Ea.
    + apply Z.eqb_eq in Ea. rewrite Ea in Hida.
      destruct (no_hit_rows l Hida) as (E1 & E2 & _).
      rewrite E1. constructor; [|exact Hf'].
      specialize (Hchk' a (or_introl eq_refl) Ea).
      now rewrite E2 in Hchk'.
    + constructor.
      * intros Hin. apply in_map_iff in Hin. destruct Hin as (y & E & Hy).
        apply in_map_iff in Hy. destruct Hy as (x & <- & Hx).
        unfold rewrite_row in E. destruct (User.id x =? id) eqn:Ex.
        -- apply Z.eqb_eq in Ex.
           apply (Hchk' x (or_intror Hx) Ex). left. now symmetry.
        -- apply Hfa. rewrite <- E. now apply in_map.
      * apply IH; auto. intros u Hu Eu Hin.
        apply (Hchk' u (or_intror Hu) Eu). now right.
Qed.

End UpdateRows.

Lemma existsb_false_in {A} (p : A -> bool) (l : list A) (x : A) :
  existsb p l = false -> In x l -> p x = false.
Proof.
  intros H Hx. destruct (p x) eqn:E; [|reflexivity].
  rewrite <- H. symmetry. apply existsb_exists. eauto.
Qed.

Lemma update_users_consistent (data : PartialUser.t) (id : Z) (d : Db.t) :
  Db_consistent d -> Db_consistent (snd (Db.update_users data id d)).
Proof.
  intros (Hids & Hnames & Hlikes). unfold Db.update_users.
  destruct (Db.no_values data); [now repeat split|].
  match goal with |- context [if existsb ?p ?l then _ else _] =>
    destruct (existsb p l) eqn:Echk end; [now repeat split|].
  match goal with |- context [if ?c then _ else _] =>
    destruct c end; [now repeat split|].
  assert (Hchk : forall u, In u (Db.users d) -> User.id u = id ->
             Db.username_taken (User.username (spread_user u data))
               (filter (fun u => negb (User.id u =? id)) (Db.users d)) = false
             /\ Db.mem (User.id (spread_user u data))
                  (map User.id
                     (filter (fun u => negb (User.id u =? id)) (Db.users d)))
                = false).
  { intros u Hu Eu. apply orb_false_iff.
    apply (existsb_false_in _ _ (spread_user u data)) in Echk;
      [exact Echk|].
    apply (in_map (fun u => spread_user u data)).
    apply filter_In. split; [exact Hu | now apply Z.eqb_eq]. }
  unfold Db_consistent. simpl. split; [|split; [|exact Hlikes]].
  - apply update_rows_NoDup; auto. intros u Hu Eu.
    apply Db_mem_false. now apply Hchk.
  - apply update_rows_NoDup; auto. intros u Hu Eu.
    apply username_free_spec. now apply Hchk.
Qed.

Lemma NoDup_snoc {A} (l : list A) (x : A) :
  NoDup l -> ~ In x l -> NoDup (l ++ [x]).
Proof.
  intros Hl Hx. apply NoDup_app; [exact Hl | repeat constructor; auto |].
  intros a Ha [<-|[]]. contradiction.
Qed.

Lemma Db_consistent_ext (d d' : Db.t) :
  Db.users d' = Db.users d -> Db.likes d' = Db.likes d ->
  Db_consistent d -> Db_consistent d'.
Proof. unfold Db_consistent. now intros -> ->. Qed.

Lemma filter_like_none (u p : Z) (ls : list Like.t) :
  filter (like_matches u p) ls = [] -> ~ In (u, p) (map like_pair ls).
Proof.
  intros H. apply find_like_none. now apply find_none_filter.
Qed.

Lemma Db_step_consistent (o : DatabaseStorage.op) (d : Db.t) :
  Db_consistent d -> Db_consistent (DatabaseStorage.step o d).
Proof.
  intros H. pose proof H as (Hids & Hnames & Hlikes).
  destruct o; simpl.
  - unfold DatabaseStorage.createUser, Db.insert_users.
    destruct (Db.username_taken _ _ || Db.mem _ _) eqn:E; simpl.
    + now apply (Db_consistent_ext d).
    + apply orb_false_iff in E. destruct E as [E1 E2].
      unfold Db_consistent. simpl. rewrite !map_app. simpl.
      split; [|split; [|exact Hlikes]].
      * apply NoDup_snoc; [exact Hids | now apply Db_mem_false].
      * apply NoDup_snoc; [exact Hnames | now apply username_free_spec].
  - unfold DatabaseStorage.updateUser.
    pose proof (update_users_consistent data id d H) as Hu.
    destruct (Db.update_users data id d) as [[rows|e] d']; exact Hu.
  - unfold DatabaseStorage.addWaterIntake, Db.insert_waterIntake.
    destruct (negb _); now apply (Db_consistent_ext d).
  - unfold DatabaseStorage.createActivity, Db.insert_activities.
    destruct (negb _); now apply (Db_consistent_ext d).
  - unfold DatabaseStorage.saveRoute, Db.insert_routes.
    destruct (negb _); now apply (Db_consistent_ext d).
  - unfold DatabaseStorage.createPost, Db.insert_posts.
    destruct (negb _); now apply (Db_consistent_ext d).
  - unfold DatabaseStorage.addLike.
    destruct like as [u p]. simpl.
    change (fun l => (Like.userId l =? u) && (Like.postId l =? p))
      with (like_matches u p).
    destruct (filter (like_matches u p) (Db.likes d)) as [|l ls] eqn:E;
      simpl; [|exact H].
    unfold Db.insert_likes. destruct (negb _); simpl.
    + now apply (Db_consistent_ext d).
    + unfold Db_consistent. simpl. rewrite map_app. simpl.
      split; [exact Hids|]. split; [exact Hnames|].
      apply NoDup_snoc; [exact Hlikes|]. now apply filter_like_none.
  - unfold DatabaseStorage.removeLike, Db.delete_likes, Db_consistent. simpl.
    split; [exact Hids|]. split; [exact Hnames|].
    now apply NoDup_map_filter.
  - unfold DatabaseStorage.addComment, Db.insert_comments.
    destruct (negb _); now apply (Db_consistent_ext d).
Qed.

Lemma Db_reachable_consistent (d : Db.t) :
  DatabaseStorage.reachable d -> Db_consistent d.
Proof.
  induction 1 as [|o d Hr IH].
  - unfold Db_consistent. simpl. repeat split; constructor.
  - now apply Db_step_consistent.
Qed.

(** ** Likes *)

Lemma like_matches_self (l : Like.t) :
  like_matches (Like.userId l) (Like.postId l) l = true.
Proof. unfold like_matches. now rewrite !Z.eqb_refl. Qed.

Lemma like_matches_pair (u p : Z) (l : Like.t) :
  like_matches u p l = true <-> like_pair l = (u, p).
Proof.
  unfold like_matches, like_pair. rewrite andb_true_iff, !Z.eqb_eq.
  split; [intros [-> ->]; reflexivity | intros E; injection E; auto].
Qed.

Lemma filter_pair_unique (ls : list Like.t) (l : Like.t) :
  NoDup (map like_pair ls) -> In l ls ->
  filter (like_matches (Like.userId l) (Like.postId l)) ls = [l].
Proof.
  induction ls as [|a r IH]; simpl; intros Hnd Hin.
  - contradiction.
  - inversion Hnd as [|? ? Hn Hd]; subst. destruct Hin as [->|Hin].
    + rewrite like_matches_self. f_equal. apply filter_all_false.
      intros x Hx. destruct (like_matches _ _ x) eqn:E; [|reflexivity].
      exfalso. apply Hn. apply like_matches_pair in E.
      change (Like.userId l, Like.postId l) with (like_pair l) in E.
      rewrite <- E. now apply in_map.
    + destruct (like_matches _ _ a) eqn:E.
      * exfalso. apply Hn. apply like_matches_pair in E.
        rewrite E. change (Like.userId l, Like.postId l) with (like_pair l).
        now apply in_map.
      * now apply IH.
Qed.

Lemma filter_user_of_post (u p : Z) (ls : list Like.t) :
  filter (fun l => Like.userId l =? u) (filter (fun l => Like.postId l =? p) ls)
  = filter (like_matches u p) ls.
Proof.
  induction ls as [|a r IH]; simpl.
  - reflexivity.
  - unfold like_matches at 1.
    destruct (Like.postId a =? p); simpl;
      destruct (Like.userId a =? u); simpl; now rewrite IH.
Qed.

Lemma Mem_addLike_twice (s : MemStorage.t) (u p : Z) :
  keys_below s -> likes_ok s ->
  let like := InsertLike.mk u p in
  let r1 := fst (MemStorage.addLike like s) in
  let s1 := snd (MemStorage.addLike like s) in
  MemStorage.addLike like s1 = (r1, s1)
  /\ Like.userId r1 = u /\ Like.postId r1 = p
  /\ filter (fun l => Like.userId l =? u) (MemStorage.getLikesByPostId p s1)
     = [r1].
Proof.
  intros Hk Hl like r1 s1.
  assert (Hfacts : likes_ok s1 /\ In r1 (JsMap.values (MemStorage.likes s1))
                   /\ Like.userId r1 = u /\ Like.postId r1 = p).
  { subst r1 s1 like. unfold MemStorage.addLike, Array.find. simpl.
    change (fun l => (Like.userId l =? u) && (Like.postId l =? p))
      with (like_matches u p).
    destruct (find (like_matches u p) (JsMap.values (MemStorage.likes s)))
      as [l|] eqn:E; simpl.
    - apply find_like_in in E. tauto.
    - destruct (likes_ok_add s u p Hk Hl E) as [Hset Hok].
      split; [exact Hok|]. rewrite Hset.
      unfold JsMap.values. rewrite map_app. simpl.
      split; [apply in_or_app; right; now left | auto]. }
  destruct Hfacts as ((_ & _ & Hpairs) & Hin & Hu & Hp).
  assert (Hfilter : filter (like_matches u p)
                           (JsMap.values (MemStorage.likes s1)) = [r1]).
  { rewrite <- Hu at 1. rewrite <- Hp at 1. now apply filter_pair_unique. }
  split; [|split; [exact Hu|split; [exact Hp|]]].
  - unfold MemStorage.addLike at 1, Array.find. simpl.
    change (fun l => (Like.userId l =? u) && (Like.postId l =? p))
      with (like_matches u p).
    now rewrite find_some_hd_filter, Hfilter.
  - unfold MemStorage.getLikesByPostId, Array.filter.
    now rewrite filter_user_of_post.
Qed.

Lemma Db_addLike_twice (d : Db.t) (u p : Z) :
  Db_consistent d ->
  Db.user_exists u d = true -> Db.post_exists p d = true ->
  let like := InsertLike.mk u p in
  let d1 := snd (DatabaseStorage.addLike like d) in
  exists r1,
    fst (DatabaseStorage.addLike like d) = Db.Ok r1
    /\ DatabaseStorage.addLike like d1 = (Db.Ok r1, d1)
    /\ Like.userId r1 = u /\ Like.postId r1 = p
    /\ filter (fun l => Like.userId l =? u)
              (DatabaseStorage.getLikesByPostId p d1) = [r1].
Proof.
  intros (_ & _ & Hlikes) Hu Hp like d1. subst like d1.
  unfold DatabaseStorage.getLikesByPostId. rewrite filter_user_of_post.
  unfold DatabaseStorage.addLike. simpl.
  change (fun l => (Like.userId l =? u) && (Like.postId l =? p))
    with (like_matches u p).
  destruct (filter (like_matches u p) (Db.likes d)) as [|l ls] eqn:E; simpl.
  - unfold Db.insert_likes. rewrite Hu, Hp. simpl.
    rewrite filter_app, E. simpl.
    assert (Hs : like_matches u p (Like.mk (Db.likes_id_seq d) u p) = true)
      by apply (like_matches_self (Like.mk _ u p)).
    rewrite !Hs. eexists. repeat split.
  - assert (Hl : In l (Db.likes d) /\ like_matches u p l = true).
    { apply filter_In. rewrite E. now left. }
    destruct Hl as [Hin Hm]. apply like_matches_pair in Hm.
    injection Hm as Hlu Hlp.
    assert (Hone : filter (like_matches u p) (Db.likes d) = [l]).
    { rewrite <- Hlu at 1. rewrite <- Hlp at 1. now apply filter_pair_unique. }
    rewrite E in *. exists l. repeat split; auto.
Qed.

(** C1, as amended: in every reachable state of the in-memory store, and in
    every reachable state of the relational store in which the user and the
    post exist, two [addLike] calls for one (userId, postId) pair return the
    same Like, the second call changes nothing, and [getLikesByPostId] then
    holds exactly one Like of that user; every reachable state of either
    store holds at most one Like per pair.  On the relational store an
    [addLike] for a pair that is not there yet and whose user or post does
    not exist raises the foreign-key violation and stores no Like. *)
Theorem addLike_idempotent :
  (forall s u p,
     MemStorage.reachable s ->
     let like := InsertLike.mk u p in
     let r1 := fst (MemStorage.addLike like s) in
     let s1 := snd (MemStorage.addLike like s) in
     MemStorage.addLike like s1 = (r1, s1)
     /\ Like.userId r1 = u /\ Like.postId r1 = p
     /\ filter (fun l => Like.userId l =? u)
               (MemStorage.getLikesByPostId p s1) = [r1])
  /\
  (forall s,
     MemStorage.reachable s ->
     NoDup (map like_pair (JsMap.values (MemStorage.likes s))))
  /\
  (forall d u p,
     DatabaseStorage.reachable d ->
     Db.user_exists u d = true -> Db.post_exists p d = true ->
     let like := InsertLike.mk u p in
     let d1 := snd (DatabaseStorage.addLike like d) in
     exists r1,
       fst (DatabaseStorage.addLike like d) = Db.Ok r1
       /\ DatabaseStorage.addLike like d1 = (Db.Ok r1, d1)
       /\ Like.userId r1 = u /\ Like.postId r1 = p
       /\ filter (fun l => Like.userId l =? u)
                 (DatabaseStorage.getLikesByPostId p d1) = [r1])
  /\
  (forall d,
     DatabaseStorage.reachable d -> NoDup (map like_pair (Db.likes d)))
  /\
  (forall d u p,
     filter (like_matches u p) (Db.likes d) = [] ->
     Db.user_exists u d && Db.post_exists p d = false ->
     fst (DatabaseStorage.addLike (InsertLike.mk u p) d)
     = Db.Err Db.ForeignKeyViolation
     /\ Db.likes (snd (DatabaseStorage.addLike (InsertLike.mk u p) d))
        = Db.likes d).
Proof.
  split; [|split; [|split; [|split]]].
  - intros s u p Hr. destruct (reachable_invariant s Hr) as [Hk Hl].
    now apply Mem_addLike_twice.
  - intros s Hr. now destruct (reachable_invariant s Hr) as [_ (_ & _ & H)].
  - intros d u p Hr. apply Db_addLike_twice.
    now apply Db_reachable_consistent.
  - intros d Hr. now destruct (Db_reachable_consistent d Hr) as (_ & _ & H).
  - intros d u p Hnone Hfk. unfold DatabaseStorage.addLike. simpl.
    change (fun l => (Like.userId l =? u) && (Like.postId l =? p))
      with (like_matches u p).
    rewrite Hnone. unfold Db.insert_likes. rewrite Hfk. simpl. auto.
Qed.

Lemma db_with_post_reachable : DatabaseStorage.reachable Sample.db_with_post.
Proof. repeat constructor. Qed.

Lemma addLike_idempotent_witness :
  (let s1 := snd (MemStorage.addLike (InsertLike.mk 1 1)
                    MemStorage.constructor) in
   MemStorage.addLike (InsertLike.mk 1 1) s1
   = (fst (MemStorage.addLike (InsertLike.mk 1 1) MemStorage.constructor), s1))
  /\ (exists r1,
        fst (DatabaseStorage.addLike (InsertLike.mk 1 1) Sample.db_with_post)
        = Db.Ok r1)
  /\ fst (DatabaseStorage.addLike (InsertLike.mk 7 9) Db.empty)
     = Db.Err Db.ForeignKeyViolation.
Proof.
  destruct addLike_idempotent as (Hmem & _ & Hdb & _ & Hfk).
  split; [|split].
  - exact (proj1 (Hmem MemStorage.constructor 1 1 MemStorage.reachable_new)).
  - destruct (Hdb Sample.db_with_post 1 1 db_with_post_reachable
                  eq_refl eq_refl) as (r1 & H & _).
    exists r1. exact H.
  - exact (proj1 (Hfk Db.empty 7 9 eq_refl eq_refl)).
Defined.

(** C1 as stated fails on the relational store: in its initial state, which
    holds no user and no post, both [addLike] calls raise and no Like is
    returned or stored. *)
Lemma addLike_unknown_user_rejected :
  let d1 := snd (DatabaseStorage.addLike (InsertLike.mk 1 1) Db.empty) in
  fst (DatabaseStorage.addLike (InsertLike.mk 1 1) Db.empty)
  = Db.Err Db.ForeignKeyViolation
  /\ fst (DatabaseStorage.addLike (InsertLike.mk 1 1) d1)
     = Db.Err Db.ForeignKeyViolation
  /\ DatabaseStorage.getLikesByPostId 1
       (snd (DatabaseStorage.addLike (InsertLike.mk 1 1) d1)) = [].
Proof. repeat split. Qed.

(** ** Removing a like *)

Lemma Db_with_likes_same (d : Db.t) :
  Db.with_likes (Db.likes d) (Db.likes_id_seq d) d = d.
Proof. now destruct d. Qed.

Lemma Mem_removeLike_absent (s : MemStorage.t) (u p : Z) :
  ~ In (u, p) (map like_pair (JsMap.values (MemStorage.likes s))) ->
  MemStorage.removeLike u p s = s.
Proof.
  intros Hn. unfold MemStorage.removeLike, Array.find.
  change (fun like => (Like.userId like =? u) && (Like.postId like =? p))
    with (like_matches u p).
  destruct (find (like_matches u p) (JsMap.values (MemStorage.likes s)))
    as [l|] eqn:E; [|reflexivity].
  exfalso. apply Hn. apply find_like_in in E. destruct E as (Hin & <- & <-).
  now apply (in_map like_pair) in Hin.
Qed.

Lemma Mem_removeLike_present (s : MemStorage.t) (u p : Z) (l : Like.t) :
  likes_ok s ->
  In l (JsMap.values (MemStorage.likes s)) ->
  Like.userId l = u -> Like.postId l = p ->
  MemStorage.removeLike u p s
  = MemStorage.with_likes (JsMap.delete (Like.id l) (MemStorage.likes s))
                          (MemStorage.likeIdCounter s) s
  /\ (forall l',
        In l' (JsMap.values (JsMap.delete (Like.id l) (MemStorage.likes s)))
        <-> In l' (JsMap.values (MemStorage.likes s)) /\ l' <> l).
Proof.
  intros (Hid & Hkeys & Hpairs) Hin Hu Hp. split.
  - unfold MemStorage.removeLike, Array.find.
    change (fun like => (Like.userId like =? u) && (Like.postId like =? p))
      with (like_matches u p).
    rewrite find_some_hd_filter. subst u p.
    now rewrite filter_pair_unique.
  - assert (Hkey : forall x, In x (JsMap.values (MemStorage.likes s)) ->
                             In (Like.id x, x) (MemStorage.likes s)).
    { intros x Hx. unfold JsMap.values in Hx. apply in_map_iff in Hx.
      destruct Hx as ([k v] & E & Hkv). simpl in E. subst v.
      rewrite Forall_forall in Hid. specialize (Hid _ Hkv). simpl in Hid.
      now rewrite Hid. }
    intros l'. unfold JsMap.values at 1, JsMap.delete.
    rewrite in_map_iff. split.
    + intros ([k v] & E & Hkv). simpl in E. subst v.
      apply filter_In in Hkv. destruct Hkv as [Hkv Hne]. simpl in Hne.
      split; [unfold JsMap.values; now apply (in_map snd) in Hkv|].
      intros ->. rewrite Forall_forall in Hid.
      specialize (Hid _ Hkv). simpl in Hid. subst k.
      now rewrite Z.eqb_refl in Hne.
    + intros [Hl' Hne]. exists (Like.id l', l'). split; [reflexivity|].
      apply filter_In. split; [now apply Hkey|]. simpl.
      destruct (Like.id l =? Like.id l') eqn:E; [|reflexivity].
      apply Z.eqb_eq in E. exfalso. apply Hne.
      assert (Heq : (Like.id l', l') = (Like.id l, l)).
      { apply (NoDup_map_inj_in fst (MemStorage.likes s)); auto;
          simpl; now symmetry. }
      now injection Heq.
Qed.

Lemma Db_removeLike_absent (d : Db.t) (u p : Z) :
  ~ In (u, p) (map like_pair (Db.likes d)) ->
  DatabaseStorage.removeLike u p d = d.
Proof.
  intros Hn. unfold DatabaseStorage.removeLike, Db.delete_likes.
  rewrite filter_all_true; [apply Db_with_likes_same|].
  intros x Hx. apply negb_true_iff.
  destruct ((Like.userId x =? u) && (Like.postId x =? p)) eqn:E;
    [|reflexivity].
  exfalso. apply Hn. apply (like_matches_pair u p x) in E.
  rewrite <- E. now apply in_map.
Qed.

Lemma Db_removeLike_present (d : Db.t) (u p : Z) (l : Like.t) :
  Db_consistent d ->
  In l (Db.likes d) -> Like.userId l = u -> Like.postId l = p ->
  forall l',
    In l' (Db.likes (DatabaseStorage.removeLike u p d))
    <-> In l' (Db.likes d) /\ l' <> l.
Proof.
  intros (_ & _ & Hpairs) Hin Hu Hp l'.
  unfold DatabaseStorage.removeLike, Db.delete_likes. simpl.
  rewrite filter_In, negb_true_iff.
  change ((Like.userId l' =? u) && (Like.postId l' =? p))
    with (like_matches u p l').
  split; intros [Hl' H]; (split; [exact Hl'|]).
  - intros ->. subst u p. now rewrite like_matches_self in H.
  - destruct (like_matches u p l') eqn:E; [|reflexivity].
    exfalso. apply H. apply like_matches_pair in E.
    apply (NoDup_map_inj_in like_pair (Db.likes d)); auto.
    rewrite E. unfold like_pair. now subst.
Qed.

(** C9: on both stores [removeLike] for a pair without a Like returns
    normally and leaves the whole store as it is; when the Like of the pair
    exists (in a reachable state), the likes afterwards are the former ones
    without that Like, and nothing else changes. *)
Theorem removeLike_effect :
  (forall s u p,
     ~ In (u, p) (map like_pair (JsMap.values (MemStorage.likes s))) ->
     MemStorage.removeLike u p s = s)
  /\
  (forall s u p l,
     MemStorage.reachable s ->
     In l (JsMap.values (MemStorage.likes s)) ->
     Like.userId l = u -> Like.postId l = p ->
     let s' := MemStorage.removeLike u p s in
     (forall l',
        In l' (JsMap.values (MemStorage.likes s'))
        <-> In l' (JsMap.values (MemStorage.likes s)) /\ l' <> l)
     /\ s' = MemStorage.with_likes (MemStorage.likes s')
                                   (MemStorage.likeIdCounter s) s)
  /\
  (forall d u p,
     ~ In (u, p) (map like_pair (Db.likes d)) ->
     DatabaseStorage.removeLike u p d = d)
  /\
  (forall d u p l,
     DatabaseStorage.reachable d ->
     In l (Db.likes d) -> Like.userId l = u -> Like.postId l = p ->
     let d' := DatabaseStorage.removeLike u p d in
     (forall l', In l' (Db.likes d') <-> In l' (Db.likes d) /\ l' <> l)
     /\ d' = Db.with_likes (Db.likes d') (Db.likes_id_seq d) d).
Proof.
  split; [|split; [|split]].
  - apply Mem_removeLike_absent.
  - intros s u p l Hr Hin Hu Hp s'.
    destruct (reachable_invariant s Hr) as [_ Hl].
    destruct (Mem_removeLike_present s u p l Hl Hin Hu Hp) as [E Hiff].
    subst s'. rewrite E. simpl. split; [exact Hiff | reflexivity].
  - apply Db_removeLike_absent.
  - intros d u p l Hr Hin Hu Hp d'. split.
    + apply Db_removeLike_present; auto. now apply Db_reachable_consistent.
    + reflexivity.
Qed.

Lemma store_with_like_reachable : MemStorage.reachable Sample.store_with_like.
Proof. repeat constructor. Qed.

Lemma db_with_like_reachable : DatabaseStorage.reachable Sample.db_with_like.
Proof. repeat constructor. Qed.

Lemma removeLike_effect_witness :
  MemStorage.removeLike 4 2 Sample.store_with_like = Sample.store_with_like
  /\ (forall l',
        In l' (JsMap.values
                 (MemStorage.likes
                    (MemStorage.removeLike 1 1 Sample.store_with_like)))
        <-> In l' (JsMap.values (MemStorage.likes Sample.store_with_like))
            /\ l' <> Like.mk 1 1 1)
  /\ DatabaseStorage.removeLike 4 2 Sample.db_with_like = Sample.db_with_like
  /\ (forall l',
        In l' (Db.likes (DatabaseStorage.removeLike 1 1 Sample.db_with_like))
        <-> In l' (Db.likes Sample.db_with_like) /\ l' <> Like.mk 1 1 1).
Proof.
  destruct removeLike_effect as (Hm0 & Hm1 & Hd0 & Hd1).
  split; [|split; [|split]].
  - apply Hm0. simpl. intros [E|[]]. discriminate E.
  - exact (proj1 (Hm1 Sample.store_with_like 1 1 (Like.mk 1 1 1)
                      store_with_like_reachable (or_introl eq_refl)
                      eq_refl eq_refl)).
  - apply Hd0. simpl. intros [E|[]]. discriminate E.
  - exact (proj1 (Hd1 Sample.db_with_like 1 1 (Like.mk 1 1 1)
                      db_with_like_reachable (or_introl eq_refl)
                      eq_refl eq_refl)).
Defined.

(** ** Partial update of a user *)

Lemma filter_key_unique {A} (key : A -> Z) (l : list A) (x : A) :
  NoDup (map key l) -> In x l -> filter (fun y => key y =? key x) l = [x].
Proof.
  induction l as [|a r IH]; simpl; intros Hnd Hin.
  - contradiction.
  - inversion Hnd as [|? ? Hn Hd]; subst. destruct Hin as [->|Hin].
    + rewrite Z.eqb_refl. f_equal. apply filter_all_false.
      intros y Hy. apply Z.eqb_neq. intros E. apply Hn. rewrite <- E.
      now apply in_map.
    + destruct (key a =? key x) eqn:E.
      * apply Z.eqb_eq in E. exfalso. apply Hn. rewrite E. now apply in_map.
      * now apply IH.
Qed.

Lemma hd_filter_in {A} (p : A -> bool) (l : list A) (x : A) :
  hd_error (filter p l) = Some x -> In x l /\ p x = true.
Proof.
  intros H. apply filter_In. destruct (filter p l) as [|y r]; [discriminate|].
  injection H as ->. now left.
Qed.

Lemma filter_rewritten_rows (id id' : Z) (g : User.t -> User.t)
  (l : list User.t) :
  id' <> id -> (forall u, User.id (g u) = User.id u) ->
  filter (fun u => User.id u =? id')
         (map (fun u => if User.id u =? id then g u else u) l)
  = filter (fun u => User.id u =? id') l.
Proof.
  intros Hne Hg. induction l as [|a r IH]; simpl.
  - reflexivity.
  - rewrite IH. destruct (User.id a =? id) eqn:E; [|reflexivity].
    apply Z.eqb_eq in E. rewrite Hg.
    destruct (User.id a =? id') eqn:E'; [|reflexivity].
    apply Z.eqb_eq in E'. congruence.
Qed.

Lemma hd_filter_rewritten_rows (id : Z) (g : User.t -> User.t)
  (l : list User.t) (x : User.t) :
  User.id x = id -> (forall u, User.id (g u) = User.id u) ->
  NoDup (map User.id l) -> In x l ->
  hd_error
    (filter (fun u => User.id u =? id)
            (map (fun u => if User.id u =? id then g u else u) l))
  = Some (g x).
Proof.
  intros Hx Hg. induction l as [|a r IH]; simpl; intros Hnd Hin.
  - contradiction.
  - inversion Hnd as [|? ? Hn Hd]; subst. destruct Hin as [->|Hin].
    + rewrite Z.eqb_refl, Hg, Z.eqb_refl. reflexivity.
    + destruct (User.id a =? User.id x) eqn:E.
      * apply Z.eqb_eq in E. exfalso. apply Hn. rewrite E. now apply in_map.
      * rewrite E. now apply IH.
Qed.

Lemma Mem_updateUser_email (s : MemStorage.t) (id : Z) (user : User.t)
  (e : string) :
  MemStorage.getUser id s = Some user ->
  let u' := User.mk (User.id user) (User.username user) (User.password user)
                    e (User.profilePicture user) (User.dailyWaterGoal user) in
  let s' := snd (MemStorage.updateUser id (PartialUser.only_email e) s) in
  fst (MemStorage.updateUser id (PartialUser.only_email e) s) = Some u'
  /\ MemStorage.getUser id s' = Some u'
  /\ (forall id', id' <> id ->
        MemStorage.getUser id' s' = MemStorage.getUser id' s)
  /\ JsMap.keys (MemStorage.users s') = JsMap.keys (MemStorage.users s)
  /\ s' = MemStorage.with_users (MemStorage.users s')
                                (MemStorage.userIdCounter s) s.
Proof.
  intros Hget u' s'. subst s'. unfold MemStorage.updateUser. rewrite Hget.
  simpl. unfold MemStorage.getUser in *. simpl.
  split; [reflexivity|]. split; [apply JsMap_get_set_eq|].
  split; [intros id' Hne; now apply JsMap_get_set_neq|].
  split; [|reflexivity].
  apply JsMap_keys_set_present. eapply get_some_key; eassumption.
Qed.

Lemma Db_updateUser_email (d : Db.t) (id : Z) (user : User.t) (e : string) :
  Db_consistent d ->
  DatabaseStorage.getUser id d = Some user ->
  let u' := User.mk (User.id user) (User.username user) (User.password user)
                    e (User.profilePicture user) (User.dailyWaterGoal user) in
  let d' := snd (DatabaseStorage.updateUser id (PartialUser.only_email e) d) in
  fst (DatabaseStorage.updateUser id (PartialUser.only_email e) d)
  = Db.Ok (Some u')
  /\ DatabaseStorage.getUser id d' = Some u'
  /\ (forall id', id' <> id ->
        DatabaseStorage.getUser id' d' = DatabaseStorage.getUser id' d)
  /\ d' = Db.with_users (Db.users d') (Db.users_id_seq d) d.
Proof.
  intros (Hids & Hnames & _) Hget u' d'.
  apply hd_filter_in in Hget. destruct Hget as [Hin Hid].
  apply Z.eqb_eq in Hid.
  assert (Hone : filter (fun u => User.id u =? id) (Db.users d) = [user]).
  { rewrite <- Hid. now apply filter_key_unique. }
  assert (Hname : Db.username_taken (User.username user)
                    (filter (fun u => negb (User.id u =? id)) (Db.users d))
                  = false).
  { apply username_free_spec. intros H. apply in_map_iff in H.
    destruct H as (y & E & Hy). apply filter_In in Hy.
    destruct Hy as [Hy Hmiss].
    assert (y = user) by (apply (NoDup_map_inj_in User.username
                                   (Db.users d)); auto).
    subst y. rewrite Hid, Z.eqb_refl in Hmiss. discriminate. }
  assert (Hpk : Db.mem (User.id user)
                  (map User.id
                     (filter (fun u => negb (User.id u =? id)) (Db.users d)))
                = false).
  { apply Db_mem_false. intros H. apply in_map_iff in H.
    destruct H as (y & E & Hy). apply filter_In in Hy.
    destruct Hy as [_ Hmiss]. rewrite E, Hid, Z.eqb_refl in Hmiss.
    discriminate. }
  assert (Hupd : Db.update_users (PartialUser.only_email e) id d
                 = (Db.Ok [u'],
                    Db.with_users
                      (map (fun u => if User.id u =? id
                                     then spread_user u (PartialUser.only_email e)
                                     else u) (Db.users d))
                      (Db.users_id_seq d) d)).
  { unfold Db.update_users. simpl Db.no_values. cbv iota.
    rewrite Hone. simpl map. simpl existsb.
    rewrite Hname, Hpk, Hid, Z.eqb_refl. reflexivity. }
  subst d'. unfold DatabaseStorage.updateUser. rewrite Hupd. simpl.
  split; [reflexivity|]. split; [|split; [|reflexivity]].
  - unfold DatabaseStorage.getUser. simpl.
    now rewrite (hd_filter_rewritten_rows id
                   (fun u => spread_user u (PartialUser.only_email e))
                   (Db.users d) user).
  - intros id' Hne. unfold DatabaseStorage.getUser. simpl.
    now rewrite filter_rewritten_rows.
Qed.

(** C8: for an id of a stored user, [updateUser(id, {email})] returns the
    user with the new email and with username, password, profilePicture and
    dailyWaterGoal (and id) as stored before; the store then holds that
    record under the id, every lookup of another id answers as before, and
    nothing but the users collection changes.  The relational store does so
    in every reachable state. *)
Theorem updateUser_email_preserves_other_fields :
  forall (id : Z) (user : User.t) (e : string),
    (forall s,
       MemStorage.getUser id s = Some user ->
       let s' := snd (MemStorage.updateUser id (PartialUser.only_email e) s) in
       exists u',
         fst (MemStorage.updateUser id (PartialUser.only_email e) s) = Some u'
         /\ User.username u' = User.username user
         /\ User.password u' = User.password user
         /\ User.profilePicture u' = User.profilePicture user
         /\ User.dailyWaterGoal u' = User.dailyWaterGoal user
         /\ User.email u' = e
         /\ MemStorage.getUser id s' = Some u'
         /\ (forall id', id' <> id ->
               MemStorage.getUser id' s' = MemStorage.getUser id' s)
         /\ s' = MemStorage.with_users (MemStorage.users s')
                                       (MemStorage.userIdCounter s) s)
    /\
    (forall d,
       DatabaseStorage.reachable d ->
       DatabaseStorage.getUser id d = Some user ->
       let d' :=
         snd (DatabaseStorage.updateUser id (PartialUser.only_email e) d) in
       exists u',
         fst (DatabaseStorage.updateUser id (PartialUser.only_email e) d)
         = Db.Ok (Some u')
         /\ User.username u' = User.username user
         /\ User.password u' = User.password user
         /\ User.profilePicture u' = User.profilePicture user
         /\ User.dailyWaterGoal u' = User.dailyWaterGoal user
         /\ User.email u' = e
         /\ DatabaseStorage.getUser id d' = Some u'
         /\ (forall id', id' <> id ->
               DatabaseStorage.getUser id' d' = DatabaseStorage.getUser id' d)
         /\ d' = Db.with_users (Db.users d') (Db.users_id_seq d) d).
Proof.
  intros id user e. split.
  - intros s Hget s'.
    destruct (Mem_updateUser_email s id user e Hget) as (H1 & H2 & H3 & _ & H5).
    eexists. split; [exact H1|]. simpl. repeat split; assumption.
  - intros d Hr Hget d'.
    destruct (Db_updateUser_email d id user e
                (Db_reachable_consistent d Hr) Hget) as (H1 & H2 & H3 & H4).
    eexists. split; [exact H1|]. simpl. repeat split; assumption.
Qed.

Lemma updateUser_email_preserves_other_fields_witness :
  (exists u',
     fst (MemStorage.updateUser 1 (PartialUser.only_email "new@example.com")
            MemStorage.constructor) = Some u'
     /\ User.username u' = "testuser"%string)
  /\ (exists u',
        fst (DatabaseStorage.updateUser 1
               (PartialUser.only_email "new@example.com")
               Sample.db_with_post) = Db.Ok (Some u')
        /\ User.username u' = "ada"%string).
Proof.
  split.
  - destruct (proj1 (updateUser_email_preserves_other_fields
                       1 (User.mk 1 "testuser" "password" "test@example.com"
                                  None (Some 2000))
                       "new@example.com")
                    MemStorage.constructor eq_refl) as (u' & H1 & H2 & _).
    exists u'. split; [exact H1 | exact H2].
  - destruct (proj2 (updateUser_email_preserves_other_fields
                       1 (User.mk 1 "ada" "pw" "ada@example.com"
                                  None (Some 2000))
                       "new@example.com")
                    Sample.db_with_post db_with_post_reachable eq_refl)
      as (u' & H1 & H2 & _).
    exists u'. split; [exact H1 | exact H2].
Defined.

(** * Further properties of the stores and the handlers *)

(** ** Lookups that take the first match *)

Lemma find_over_app {A} (p : A -> bool) (l1 l2 : list A) :
  find p (l1 ++ l2)
  = match find p l1 with
    | Some x => Some x
    | None => find p l2
    end.
Proof.
  induction l1 as [|a l1 IH]; simpl; [reflexivity|].
  now destruct (p a).
Qed.

Lemma JsMap_values_set_fresh {V} (m : JsMap.t V) (k : Z) (v : V) :
  ~ In k (JsMap.keys m) ->
  JsMap.values (JsMap.set k v m) = JsMap.values m ++ [v].
Proof.
  intros H. rewrite JsMap_set_fresh by exact H.
  unfold JsMap.values. now rewrite map_app.
Qed.

Lemma Mem_users_after_createUser (u : InsertUser.t) (s : MemStorage.t) :
  keys_below s ->
  JsMap.values (MemStorage.users (snd (MemStorage.createUser u s)))
  = JsMap.values (MemStorage.users s) ++ [fst (MemStorage.createUser u s)].
Proof.
  intros Hk. unfold MemStorage.createUser. simpl.
  apply JsMap_values_set_fresh. apply below_not_in. exact (Hk EUser).
Qed.

(** X1: in a reachable in-memory store, [createUser] leaves every lookup by
    another username as it was; a lookup by the new user's name finds the
    new user when the name was free and still finds the older user when the
    name was taken, so that the later of two users with one name cannot be
    found by name. *)
Theorem getUserByUsername_after_createUser :
  forall (s : MemStorage.t) (u : InsertUser.t),
    MemStorage.reachable s ->
    let r := fst (MemStorage.createUser u s) in
    let s' := snd (MemStorage.createUser u s) in
    (forall name, name <> InsertUser.username u ->
       MemStorage.getUserByUsername name s'
       = MemStorage.getUserByUsername name s)
    /\ (MemStorage.getUserByUsername (InsertUser.username u) s = None ->
        MemStorage.getUserByUsername (InsertUser.username u) s' = Some r)
    /\ (forall older,
          MemStorage.getUserByUsername (InsertUser.username u) s = Some older ->
          MemStorage.getUserByUsername (InsertUser.username u) s'
          = Some older).
Proof.
  intros s u Hr r s'.
  destruct (reachable_invariant s Hr) as [Hk _].
  assert (E : forall name,
             MemStorage.getUserByUsername name s'
             = match MemStorage.getUserByUsername name s with
               | Some x => Some x
               | None => if String.eqb (InsertUser.username u) name
                         then Some r else None
               end).
  { intros name. unfold MemStorage.getUserByUsername, Array.find. subst s'.
    rewrite Mem_users_after_createUser by exact Hk.
    rewrite find_over_app. reflexivity. }
  split; [|split].
  - intros name Hne. rewrite E.
    destruct (MemStorage.getUserByUsername name s); [reflexivity|].
    destruct (String.eqb (InsertUser.username u) name) eqn:En;
      [|reflexivity].
    apply String.eqb_eq in En. congruence.
  - intros Hnone. rewrite E, Hnone. now rewrite String.eqb_refl.
  - intros older Hold. now rewrite E, Hold.
Qed.

Lemma getUserByUsername_after_createUser_witness :
  MemStorage.getUserByUsername "ada"
    (snd (MemStorage.createUser Sample.zero_goal_user MemStorage.constructor))
  = Some (fst (MemStorage.createUser Sample.zero_goal_user
                 MemStorage.constructor)).
Proof.
  refine (proj1 (proj2 (getUserByUsername_after_createUser
                          MemStorage.constructor Sample.zero_goal_user
                          MemStorage.reachable_new)) _).
  reflexivity.
Defined.

(** ** Repeated and renumbering updates *)

Lemma spread_user_twice (user : User.t) (data : PartialUser.t) :
  spread_user (spread_user user data) data = spread_user user data.
Proof.
  destruct user, data as [[?|] [?|] [?|] [?|] [?|] [?|]]; reflexivity.
Qed.

Lemma JsMap_set_twice {V} (m : JsMap.t V) (k : Z) (v : V) :
  JsMap.set k v (JsMap.set k v m) = JsMap.set k v m.
Proof.
  induction m as [|[k' v'] r IH]; simpl.
  - now rewrite Z.eqb_refl.
  - destruct (k =? k') eqn:E; simpl.
    + now rewrite Z.eqb_refl.
    + now rewrite E, IH.
Qed.

(** X2: [updateUser] of the in-memory store is idempotent: a second call
    with the same id and the same partial data returns what the first
    returned (the updated user, or undefined for an unknown id) and leaves
    the store as the first call left it. *)
Theorem updateUser_idempotent :
  forall (s : MemStorage.t) (id : Z) (data : PartialUser.t),
    let r1 := fst (MemStorage.updateUser id data s) in
    let s1 := snd (MemStorage.updateUser id data s) in
    MemStorage.updateUser id data s1 = (r1, s1).
Proof.
  intros s id data r1 s1. subst r1 s1. unfold MemStorage.updateUser.
  destruct (MemStorage.getUser id s) as [user|] eqn:E; simpl.
  - unfold MemStorage.getUser. simpl. rewrite JsMap_get_set_eq.
    rewrite spread_user_twice. unfold MemStorage.with_users. simpl.
    now rewrite JsMap_set_twice.
  - now rewrite E.
Qed.

(** X3: [updateUser] of the in-memory store never files a record under
    another key: when the partial data carries an id [j], the record stays
    under the key it was looked up with, now with [j] in its id field, and
    every lookup under another key (also under [j]) answers as before. *)
Theorem updateUser_keeps_key :
  forall (s : MemStorage.t) (id j : Z) (user : User.t) (data : PartialUser.t),
    MemStorage.getUser id s = Some user ->
    PartialUser.id data = Some j ->
    let s' := snd (MemStorage.updateUser id data s) in
    exists u',
      fst (MemStorage.updateUser id data s) = Some u'
      /\ MemStorage.getUser id s' = Some u'
      /\ User.id u' = j
      /\ (forall k, k <> id ->
            MemStorage.getUser k s' = MemStorage.getUser k s)
      /\ JsMap.keys (MemStorage.users s') = JsMap.keys (MemStorage.users s).
Proof.
  intros s id j user data Hget Hj s'. subst s'.
  unfold MemStorage.updateUser. rewrite Hget. simpl.
  exists (spread_user user data). split; [reflexivity|].
  unfold MemStorage.getUser in *. simpl.
  split; [apply JsMap_get_set_eq|].
  split; [destruct user, data; simpl in *; now rewrite Hj|].
  split; [intros k Hk; now apply JsMap_get_set_neq|].
  apply JsMap_keys_set_present. eapply get_some_key; eassumption.
Qed.

Lemma updateUser_keeps_key_witness :
  exists u',
    MemStorage.getUser 1
      (snd (MemStorage.updateUser 1
              (PartialUser.mk (Some 7) None None None None None)
              MemStorage.constructor)) = Some u'
    /\ User.id u' = 7
    /\ MemStorage.getUser 7
         (snd (MemStorage.updateUser 1
                 (PartialUser.mk (Some 7) None None None None None)
                 MemStorage.constructor)) = None.
Proof.
  destruct (updateUser_keeps_key MemStorage.constructor 1 7
              (User.mk 1 "testuser" "password" "test@example.com"
                       None (Some 2000))
              (PartialUser.mk (Some 7) None None None None None)
              eq_refl eq_refl) as (u' & _ & H1 & H2 & H3 & _).
  exists u'. split; [exact H1|]. split; [exact H2|].
  rewrite H3 by discriminate. reflexivity.
Defined.

(** ** Routes of an activity *)

(** X4: in a reachable in-memory store, [saveRoute] leaves the lookup of
    every other activity's route as it was; for the activity of the new
    route the lookup returns the new route when the activity had none, and
    still returns the route saved first when it had one. *)
Theorem getRouteByActivityId_first_saved :
  forall (s : MemStorage.t) (route : InsertRoute.t),
    MemStorage.reachable s ->
    let r := fst (MemStorage.saveRoute route s) in
    let s' := snd (MemStorage.saveRoute route s) in
    Route.id r = MemStorage.routeIdCounter s
    /\ (forall a, a <> InsertRoute.activityId route ->
          MemStorage.getRouteByActivityId a s'
          = MemStorage.getRouteByActivityId a s)
    /\ (MemStorage.getRouteByActivityId (InsertRoute.activityId route) s
        = None ->
        MemStorage.getRouteByActivityId (InsertRoute.activityId route) s'
        = Some r)
    /\ (forall first,
          MemStorage.getRouteByActivityId (InsertRoute.activityId route) s
          = Some first ->
          MemStorage.getRouteByActivityId (InsertRoute.activityId route) s'
          = Some first).
Proof.
  intros s route Hr r s'.
  destruct (reachable_invariant s Hr) as [Hk _].
  assert (E : forall a,
             MemStorage.getRouteByActivityId a s'
             = match MemStorage.getRouteByActivityId a s with
               | Some x => Some x
               | None => if InsertRoute.activityId route =? a
                         then Some r else None
               end).
  { intros a. unfold MemStorage.getRouteByActivityId, Array.find. subst s'.
    unfold MemStorage.saveRoute. simpl.
    rewrite JsMap_values_set_fresh
      by (apply below_not_in; exact (Hk ERoute)).
    rewrite find_over_app. reflexivity. }
  split; [reflexivity|]. split; [|split].
  - intros a Hne. rewrite E.
    destruct (MemStorage.getRouteByActivityId a s); [reflexivity|].
    destruct (InsertRoute.activityId route =? a) eqn:Ea; [|reflexivity].
    apply Z.eqb_eq in Ea. congruence.
  - intros Hnone. rewrite E, Hnone. now rewrite Z.eqb_refl.
  - intros first Hfirst. now rewrite E, Hfirst.
Qed.

Lemma getRouteByActivityId_first_saved_witness :
  let s1 := snd (MemStorage.saveRoute (InsertRoute.mk 3 "[[0,0]]")
                   MemStorage.constructor) in
  MemStorage.getRouteByActivityId 3
    (snd (MemStorage.saveRoute (InsertRoute.mk 3 "[[1,1]]") s1))
  = Some (Route.mk 1 3 "[[0,0]]").
Proof.
  refine (proj2 (proj2 (proj2 (getRouteByActivityId_first_saved
            (snd (MemStorage.step
                    (MemStorage.SaveRoute (InsertRoute.mk 3 "[[0,0]]"))
                    MemStorage.constructor))
            (InsertRoute.mk 3 "[[1,1]]")
            (MemStorage.reachable_step _ _ MemStorage.reachable_new))))
          (Route.mk 1 3 "[[0,0]]") _).
  reflexivity.
Defined.

(** ** Listings *)

Lemma listing_newest_first {A} (key : A -> Z) (wanted : A -> bool)
  (stored : list A) :
  listing key true wanted stored
          (Array.sort (fun a b => key b - key a) (filter wanted stored)).
Proof.
  split; [apply sort_perm | apply (sort_desc_sorted key)].
Qed.

Lemma listing_oldest_first {A} (key : A -> Z) (wanted : A -> bool)
  (stored : list A) :
  listing key false wanted stored
          (Array.sort (fun a b => key a - key b) (filter wanted stored)).
Proof.
  split; [apply sort_perm | apply (sort_asc_sorted key)].
Qed.

(** X5: on both stores the per-user listings of water intakes, activities
    and posts return exactly the stored records of that user (each as often
    as it is stored), ordered newest first. *)
Theorem listings_by_user_newest_first :
  forall userId : Z,
    (forall s,
       listing WaterIntake.timestamp true
               (fun w => WaterIntake.userId w =? userId)
               (JsMap.values (MemStorage.waterIntakes s))
               (MemStorage.getWaterIntakeByUserId userId s)
       /\ listing Activity.timestamp true
                  (fun a => Activity.userId a =? userId)
                  (JsMap.values (MemStorage.activities s))
                  (MemStorage.getActivitiesByUserId userId s)
       /\ listing Post.timestamp true
                  (fun p => Post.userId p =? userId)
                  (JsMap.values (MemStorage.posts s))
                  (MemStorage.getPostsByUserId userId s))
    /\
    (forall d,
       listing WaterIntake.timestamp true
               (fun w => WaterIntake.userId w =? userId)
               (Db.waterIntake d)
               (DatabaseStorage.getWaterIntakeByUserId userId d)
       /\ listing Activity.timestamp true
                  (fun a => Activity.userId a =? userId)
                  (Db.activities d)
                  (DatabaseStorage.getActivitiesByUserId userId d)
       /\ listing Post.timestamp true
                  (fun p => Post.userId p =? userId)
                  (Db.posts d)
                  (DatabaseStorage.getPostsByUserId userId d)).
Proof.
  intros userId. split; intros x; repeat split;
    first [ apply sort_perm
          | apply (sort_desc_sorted WaterIntake.timestamp)
          | apply (sort_desc_sorted Activity.timestamp)
          | apply (sort_desc_sorted Post.timestamp) ].
Qed.

(** X6: on both stores [getCommentsByPostId] returns exactly the stored
    comments of that post, ordered oldest first. *)
Theorem getCommentsByPostId_oldest_first :
  forall postId : Z,
    (forall s,
       listing Comment.timestamp false
               (fun c => Comment.postId c =? postId)
               (JsMap.values (MemStorage.comments s))
               (MemStorage.getCommentsByPostId postId s))
    /\
    (forall d,
       listing Comment.timestamp false
               (fun c => Comment.postId c =? postId)
               (Db.comments d)
               (DatabaseStorage.getCommentsByPostId postId d)).
Proof.
  intros postId. split; intros x; apply listing_oldest_first.
Qed.

(** ** Limits and pages *)

Lemma slice_from_start {A} (limit : Z) (l : list A) :
  Array.slice 0 limit l
  = firstn (if limit <? 0
            then (List.length l - Z.to_nat (- limit))%nat
            else Z.to_nat limit) l.
Proof.
  unfold Array.slice. set (len := Z.of_nat (List.length l)).
  assert (Hlen : 0 <= len) by (subst len; lia).
  change (0 <? 0) with false. cbv iota.
  rewrite (Z.min_l 0 len) by lia. simpl skipn.
  destruct (limit <? 0) eqn:E.
  - apply Z.ltb_lt in E. f_equal. subst len. lia.
  - apply Z.ltb_ge in E.
    destruct (Z_le_gt_dec limit len).
    + rewrite Z.min_l by lia. f_equal. lia.
    + rewrite Z.min_r by lia.
      rewrite !firstn_all2 by (subst len; lia). reflexivity.
Qed.

(** X7: [getRecentActivities] of the in-memory store returns the first
    [limit] public activities of the newest-first ranking when [limit] is
    not negative; a negative [limit] does not give an empty answer: it drops
    the [-limit] oldest public activities and returns all the others. *)
Theorem getRecentActivities_limit :
  forall (s : MemStorage.t) (limit : Z),
    let ranked :=
      Array.sort (fun a b => Activity.timestamp b - Activity.timestamp a)
        (filter (fun a => Js.truthy_nullable (Activity.isPublic a))
                (JsMap.values (MemStorage.activities s))) in
    MemStorage.getRecentActivities limit s
    = firstn (if limit <? 0
              then (List.length ranked - Z.to_nat (- limit))%nat
              else Z.to_nat limit) ranked
    /\ listing Activity.timestamp true
               (fun a => Js.truthy_nullable (Activity.isPublic a))
               (JsMap.values (MemStorage.activities s)) ranked.
Proof.
  intros s limit ranked. split.
  - unfold MemStorage.getRecentActivities. apply slice_from_start.
  - apply listing_newest_first.
Qed.

Lemma firstn_plus {A} (a b : nat) (l : list A) :
  firstn (a + b) l = firstn a l ++ firstn b (skipn a l).
Proof.
  revert l. induction a as [|a IH]; intros l; simpl.
  - reflexivity.
  - destruct l as [|x l]; simpl.
    + now rewrite firstn_nil.
    + now rewrite IH.
Qed.

Lemma pages_tile {A} (a b o : Z) (l : list A) :
  0 <= a -> 0 <= b -> 0 <= o ->
  firstn (Z.to_nat a) (skipn (Z.to_nat o) l)
  ++ firstn (Z.to_nat b) (skipn (Z.to_nat (o + a)) l)
  = firstn (Z.to_nat (a + b)) (skipn (Z.to_nat o) l).
Proof.
  intros Ha Hb Ho.
  rewrite !Z2Nat.inj_add by lia.
  rewrite firstn_plus, skipn_skipn.
  now rewrite (Nat.add_comm (Z.to_nat a) (Z.to_nat o)).
Qed.

(** X8: pages of the in-memory store tile the ranking: for non-negative
    sizes and offset, the page of [a] posts at [offset] followed by the page
    of [b] posts at [offset + a] is the page of [a + b] posts at [offset];
    no post is lost or repeated between consecutive pages (with no call in
    between), also among posts of one timestamp. *)
Theorem getPosts_pages_tile :
  forall a b offset : Z,
    0 <= a -> 0 <= b -> 0 <= offset ->
    forall s,
      MemStorage.getPosts a offset s ++ MemStorage.getPosts b (offset + a) s
      = MemStorage.getPosts (a + b) offset s.
Proof.
  intros a b offset Ha Hb Ho s. unfold MemStorage.getPosts.
  rewrite !slice_window by lia. now apply pages_tile.
Qed.

Lemma getPosts_pages_tile_witness :
  let s := snd (createPosts Sample.fifteen_posts MemStorage.constructor) in
  MemStorage.getPosts 5 0 s ++ MemStorage.getPosts 5 5 s
  = MemStorage.getPosts 10 0 s.
Proof.
  exact (getPosts_pages_tile 5 5 0 ltac:(lia) ltac:(lia) ltac:(lia)
           (snd (createPosts Sample.fifteen_posts MemStorage.constructor))).
Defined.

(** ** Liking and unliking *)

Lemma JsMap_delete_last {V} (m : JsMap.t V) (k : Z) (v : V) :
  ~ In k (JsMap.keys m) -> JsMap.delete k (m ++ [(k, v)]) = m.
Proof.
  intros H. unfold JsMap.delete. rewrite filter_app. simpl.
  rewrite Z.eqb_refl. simpl. rewrite app_nil_r.
  now apply (JsMap_delete_absent m k).
Qed.

Lemma absent_pair_find (u p : Z) (ls : list Like.t) :
  ~ In (u, p) (map like_pair ls) -> find (like_matches u p) ls = None.
Proof.
  intros H. destruct (find (like_matches u p) ls) as [l|] eqn:E;
    [|reflexivity].
  exfalso. apply H. apply find_some in E. destruct E as [Hin Hm].
  apply like_matches_pair in Hm. rewrite <- Hm. now apply in_map.
Qed.

Lemma Mem_like_unlike (s : MemStorage.t) (u p : Z) :
  keys_below s -> likes_ok s ->
  ~ In (u, p) (map like_pair (JsMap.values (MemStorage.likes s))) ->
  let s1 := snd (MemStorage.addLike (InsertLike.mk u p) s) in
  let s2 := MemStorage.removeLike u p s1 in
  s2 = MemStorage.with_likes (MemStorage.likes s)
                             (MemStorage.likeIdCounter s + 1) s
  /\ Like.id (fst (MemStorage.addLike (InsertLike.mk u p) s))
     = MemStorage.likeIdCounter s
  /\ Like.id (fst (MemStorage.addLike (InsertLike.mk u p) s2))
     = MemStorage.likeIdCounter s + 1.
Proof.
  intros Hk Hl Habs s1 s2.
  pose proof (absent_pair_find u p _ Habs) as Hnone.
  destruct (likes_ok_add s u p Hk Hl Hnone) as [Hset Hok1].
  assert (Hfresh : ~ In (MemStorage.likeIdCounter s)
                        (JsMap.keys (MemStorage.likes s)))
    by apply below_not_in, (Hk ELike).
  assert (E1 : MemStorage.addLike (InsertLike.mk u p) s
               = (Like.mk (MemStorage.likeIdCounter s) u p,
                  MemStorage.with_likes
                    (MemStorage.likes s
                     ++ [(MemStorage.likeIdCounter s,
                          Like.mk (MemStorage.likeIdCounter s) u p)])
                    (MemStorage.likeIdCounter s + 1) s)).
  { unfold MemStorage.addLike, Array.find. simpl.
    change (fun l => (Like.userId l =? u) && (Like.postId l =? p))
      with (like_matches u p).
    now rewrite Hnone, Hset. }
  assert (E2 : s2 = MemStorage.with_likes (MemStorage.likes s)
                      (MemStorage.likeIdCounter s + 1) s).
  { subst s2 s1. rewrite E1. simpl snd.
    match goal with |- MemStorage.removeLike u p ?st = _ =>
      assert (Hok : likes_ok st) by (rewrite <- Hset; exact Hok1);
      destruct (Mem_removeLike_present st u p
                  (Like.mk (MemStorage.likeIdCounter s) u p) Hok)
        as [Er _]
    end.
    - simpl. unfold JsMap.values. rewrite map_app. simpl.
      apply in_or_app. right. now left.
    - reflexivity.
    - reflexivity.
    - rewrite Er. simpl. unfold MemStorage.with_likes. simpl.
      now rewrite JsMap_delete_last. }
  split; [exact E2|]. split; [now rewrite E1|].
  rewrite E2. unfold MemStorage.addLike, Array.find. simpl.
  change (fun l => (Like.userId l =? u) && (Like.postId l =? p))
    with (like_matches u p).
  now rewrite Hnone.
Qed.

Lemma Db_like_unlike (d : Db.t) (u p : Z) :
  Db.user_exists u d = true -> Db.post_exists p d = true ->
  ~ In (u, p) (map like_pair (Db.likes d)) ->
  let d1 := snd (DatabaseStorage.addLike (InsertLike.mk u p) d) in
  DatabaseStorage.removeLike u p d1
  = Db.with_likes (Db.likes d) (Db.likes_id_seq d + 1) d
  /\ fst (DatabaseStorage.addLike (InsertLike.mk u p) d)
     = Db.Ok (Like.mk (Db.likes_id_seq d) u p).
Proof.
  intros Hu Hp Habs d1. subst d1.
  assert (Hnone : filter (like_matches u p) (Db.likes d) = []).
  { apply find_none_filter. now apply absent_pair_find. }
  unfold DatabaseStorage.addLike. simpl.
  change (fun l => (Like.userId l =? u) && (Like.postId l =? p))
    with (like_matches u p).
  rewrite Hnone. unfold Db.insert_likes. rewrite Hu, Hp. simpl.
  split; [|reflexivity].
  unfold DatabaseStorage.removeLike, Db.delete_likes. simpl.
  rewrite filter_app. simpl. rewrite !Z.eqb_refl. simpl.
  rewrite app_nil_r. unfold Db.with_likes. simpl. f_equal.
  apply filter_all_true. intros x Hx. apply negb_true_iff.
  change ((Like.userId x =? u) && (Like.postId x =? p))
    with (like_matches u p x).
  destruct (like_matches u p x) eqn:E; [|reflexivity].
  exfalso. apply Habs. apply like_matches_pair in E. rewrite <- E.
  now apply in_map.
Qed.

(** X9: liking and then unliking restores the likes but not the id: in a
    reachable store without a Like for the pair (on the relational store:
    with the user and the post present), [addLike] followed by [removeLike]
    leaves the store as it was except that the Like counter (sequence) has
    moved on by one, so that liking again creates a Like with the next id,
    never the old one. *)
Theorem like_then_unlike :
  forall u p : Z,
    (forall s,
       MemStorage.reachable s ->
       ~ In (u, p) (map like_pair (JsMap.values (MemStorage.likes s))) ->
       let s1 := snd (MemStorage.addLike (InsertLike.mk u p) s) in
       let s2 := MemStorage.removeLike u p s1 in
       s2 = MemStorage.with_likes (MemStorage.likes s)
                                  (MemStorage.likeIdCounter s + 1) s
       /\ Like.id (fst (MemStorage.addLike (InsertLike.mk u p) s))
          = MemStorage.likeIdCounter s
       /\ Like.id (fst (MemStorage.addLike (InsertLike.mk u p) s2))
          = MemStorage.likeIdCounter s + 1)
    /\
    (forall d,
       Db.user_exists u d = true -> Db.post_exists p d = true ->
       ~ In (u, p) (map like_pair (Db.likes d)) ->
       let d1 := snd (DatabaseStorage.addLike (InsertLike.mk u p) d) in
       DatabaseStorage.removeLike u p d1
       = Db.with_likes (Db.likes d) (Db.likes_id_seq d + 1) d
       /\ fst (DatabaseStorage.addLike (InsertLike.mk u p) d)
          = Db.Ok (Like.mk (Db.likes_id_seq d) u p)).
Proof.
  intros u p. split.
  - intros s Hr Habs. destruct (reachable_invariant s Hr) as [Hk Hl].
    now apply Mem_like_unlike.
  - intros d. apply Db_like_unlike.
Qed.

Lemma like_then_unlike_witness :
  Like.id (fst (MemStorage.addLike (InsertLike.mk 1 1)
                  (MemStorage.removeLike 1 1
                     (snd (MemStorage.addLike (InsertLike.mk 1 1)
                             MemStorage.constructor))))) = 2
  /\ DatabaseStorage.removeLike 1 1
       (snd (DatabaseStorage.addLike (InsertLike.mk 1 1) Sample.db_with_post))
     = Db.with_likes (Db.likes Sample.db_with_post)
                     (Db.likes_id_seq Sample.db_with_post + 1)
                     Sample.db_with_post.
Proof.
  destruct (like_then_unlike 1 1) as [Hm Hd]. split.
  - refine (proj2 (proj2 (Hm MemStorage.constructor
                             MemStorage.reachable_new _))).
    simpl. tauto.
  - refine (proj1 (Hd Sample.db_with_post eq_refl eq_refl _)).
    simpl. tauto.
Defined.

Lemma likes_of_post_distinct_users (p : Z) (ls : list Like.t) :
  NoDup (map like_pair ls) ->
  NoDup (map Like.userId (filter (fun l => Like.postId l =? p) ls)).
Proof.
  induction ls as [|a r IH]; simpl; intros Hnd.
  - constructor.
  - inversion Hnd as [|? ? Hn Hd]; subst.
    destruct (Like.postId a =? p) eqn:E; [|now apply IH].
    simpl. constructor; [|now apply IH].
    intros Hin. apply Hn. apply in_map_iff in Hin.
    destruct Hin as (x & Ex & Hx). apply filter_In in Hx.
    destruct Hx as [Hx Hp]. apply in_map_iff. exists x. split; [|exact Hx].
    apply Z.eqb_eq in E, Hp. unfold like_pair. congruence.
Qed.

(** X10: in every reachable state of either store, the likes that
    [getLikesByPostId] returns all belong to that post and come from
    pairwise distinct users, so that their number is the number of users
    who like the post. *)
Theorem getLikesByPostId_distinct_users :
  forall postId : Z,
    (forall s,
       MemStorage.reachable s ->
       let res := MemStorage.getLikesByPostId postId s in
       NoDup (map Like.userId res)
       /\ (forall l, In l res <->
                     In l (JsMap.values (MemStorage.likes s))
                     /\ Like.postId l = postId))
    /\
    (forall d,
       DatabaseStorage.reachable d ->
       let res := DatabaseStorage.getLikesByPostId postId d in
       NoDup (map Like.userId res)
       /\ (forall l, In l res <->
                     In l (Db.likes d) /\ Like.postId l = postId)).
Proof.
  intros postId. split.
  - intros s Hr res. destruct (reachable_invariant s Hr) as [_ (_ & _ & Hp)].
    split; [now apply likes_of_post_distinct_users|].
    intros l. subst res. unfold MemStorage.getLikesByPostId, Array.filter.
    now rewrite filter_In, Z.eqb_eq.
  - intros d Hr res. destruct (Db_reachable_consistent d Hr) as (_ & _ & Hp).
    split; [now apply likes_of_post_distinct_users|].
    intros l. subst res. unfold DatabaseStorage.getLikesByPostId.
    now rewrite filter_In, Z.eqb_eq.
Qed.

Lemma getLikesByPostId_distinct_users_witness :
  NoDup (map Like.userId
           (MemStorage.getLikesByPostId 1 Sample.store_with_like))
  /\ NoDup (map Like.userId
              (DatabaseStorage.getLikesByPostId 1 Sample.db_with_like)).
Proof.
  destruct (getLikesByPostId_distinct_users 1) as [Hm Hd]. split.
  - exact (proj1 (Hm Sample.store_with_like store_with_like_reachable)).
  - exact (proj1 (Hd Sample.db_with_like db_with_like_reachable)).
Defined.

(** ** Records and their keys *)

Lemma filed_set_fresh {V} (ident : V -> Z) (m : JsMap.t V) (c : Z) (v : V) :
  Forall (fun k => k < c) (JsMap.keys m) ->
  ident v = c ->
  Forall (fun kv => ident (snd kv) = fst kv) m ->
  Forall (fun kv => ident (snd kv) = fst kv) (JsMap.set c v m).
Proof.
  intros Hk Hv Hm. rewrite JsMap_set_fresh by now apply below_not_in.
  apply Forall_app. split; [exact Hm | now repeat constructor].
Qed.

Lemma filed_delete {V} (ident : V -> Z) (m : JsMap.t V) (k : Z) :
  Forall (fun kv => ident (snd kv) = fst kv) m ->
  Forall (fun kv => ident (snd kv) = fst kv) (JsMap.delete k m).
Proof.
  unfold JsMap.delete. rewrite !Forall_forall. intros H kv Hkv.
  apply filter_In in Hkv. now apply H.
Qed.

Lemma records_filed_step (o : MemStorage.op) (s : MemStorage.t) :
  keys_below s -> records_filed_by_id s ->
  records_filed_by_id (snd (MemStorage.step o s)).
Proof.
  intros Hk H. pose proof H as (Hw & Ha & Hr & Hp & Hl & Hc).
  destruct o; unfold_ops; try exact H.
  - destruct (JsMap.get id (MemStorage.users s)); exact H.
  - unfold records_filed_by_id. simpl. repeat split; try assumption.
    apply filed_set_fresh; auto. exact (Hk EWaterIntake).
  - unfold records_filed_by_id. simpl. repeat split; try assumption.
    apply filed_set_fresh; auto. exact (Hk EActivity).
  - unfold records_filed_by_id. simpl. repeat split; try assumption.
    apply filed_set_fresh; auto. exact (Hk ERoute).
  - unfold records_filed_by_id. simpl. repeat split; try assumption.
    apply filed_set_fresh; auto. exact (Hk EPost).
  - destruct (find _ (JsMap.values (MemStorage.likes s))); simpl;
      [exact H|].
    unfold records_filed_by_id. simpl. repeat split; try assumption.
    apply filed_set_fresh; auto. exact (Hk ELike).
  - destruct (find _ (JsMap.values (MemStorage.likes s))); simpl;
      [|exact H].
    unfold records_filed_by_id. simpl. repeat split; try assumption.
    now apply filed_delete.
  - unfold records_filed_by_id. simpl. repeat split; try assumption.
    apply filed_set_fresh; auto. exact (Hk EComment).
Qed.

(** X11: in every reachable state of the in-memory store each water intake,
    activity, route, post, like and comment is stored under the key that its
    own id field names; hence [getActivityById(id)] returns nothing or an
    activity whose id is [id], an id below the activity counter. *)
Theorem stored_records_filed_by_id :
  forall s : MemStorage.t,
    MemStorage.reachable s ->
    records_filed_by_id s
    /\ (forall id a,
          MemStorage.getActivityById id s = Some a ->
          Activity.id a = id /\ id < MemStorage.activityIdCounter s).
Proof.
  intros s Hr.
  assert (Hf : records_filed_by_id s).
  { induction Hr as [|o s Hr IH].
    - unfold records_filed_by_id. simpl. repeat split; constructor.
    - apply records_filed_step; [|exact IH].
      now destruct (reachable_invariant s Hr). }
  split; [exact Hf|].
  intros id a Hget. destruct Hf as (_ & Ha & _).
  destruct (reachable_invariant s Hr) as [Hk _].
  unfold MemStorage.getActivityById in Hget.
  pose proof (get_some_key _ _ _ Hget) as Hkey.
  apply JsMap_get_some_in in Hget.
  rewrite Forall_forall in Ha. specialize (Ha _ Hget). simpl in Ha.
  split; [exact Ha|].
  pose proof (Hk EActivity) as Hb. simpl in Hb.
  rewrite Forall_forall in Hb. now apply Hb.
Qed.

Lemma stored_records_filed_by_id_witness :
  records_filed_by_id Sample.store_with_like.
Proof.
  exact (proj1 (stored_records_filed_by_id Sample.store_with_like
                  store_with_like_reachable)).
Defined.

Lemma keys_from_one_step (o : MemStorage.op) (s : MemStorage.t) :
  keys_below s -> keys_from_one s -> keys_from_one (snd (MemStorage.step o s)).
Proof.
  intros Hk H.
  assert (Hset : forall {V} (m : JsMap.t V) (c : Z) (v : V),
             Forall (fun k => k < c) (JsMap.keys m) -> 1 <= c ->
             Forall (fun k => 1 <= k) (JsMap.keys m) ->
             1 <= c + 1
             /\ Forall (fun k => 1 <= k) (JsMap.keys (JsMap.set c v m))).
  { intros V m c v Hb Hc Hm. split; [lia|].
    rewrite JsMap_set_fresh by now apply below_not_in.
    unfold JsMap.keys. rewrite map_app. apply Forall_app.
    split; [exact Hm | now repeat constructor]. }
  intros e. destruct o; unfold_ops.
  - destruct e; simpl; try by_entity H.
    apply Hset; [by_entity Hk | apply (H EUser) | apply (H EUser)].
  - destruct (JsMap.get id (MemStorage.users s)) as [user|] eqn:E;
      simpl; [|apply H].
    destruct e; simpl; try by_entity H.
    rewrite JsMap_keys_set_present by (eapply get_some_key; eassumption).
    by_entity H.
  - destruct e; simpl; try by_entity H.
    apply Hset; [by_entity Hk | apply (H EWaterIntake) | apply (H EWaterIntake)].
  - destruct e; simpl; try by_entity H.
    apply Hset; [by_entity Hk | apply (H EActivity) | apply (H EActivity)].
  - destruct e; simpl; try by_entity H.
    apply Hset; [by_entity Hk | apply (H ERoute) | apply (H ERoute)].
  - destruct e; simpl; try by_entity H.
    apply Hset; [by_entity Hk | apply (H EPost) | apply (H EPost)].
  - destruct (find _ (JsMap.values (MemStorage.likes s))) as [l|] eqn:E;
      simpl; [apply H|].
    destruct e; simpl; try by_entity H.
    apply Hset; [by_entity Hk | apply (H ELike) | apply (H ELike)].
  - destruct (find _ (JsMap.values (MemStorage.likes s))) as [l|] eqn:E;
      simpl; [|apply H].
    destruct e; simpl; try by_entity H.
    split; [apply (H ELike)|].
    destruct (H ELike) as [_ Hl]. simpl in Hl.
    unfold JsMap.keys, JsMap.delete. rewrite Forall_forall in *.
    intros x Hx. apply Hl. apply in_map_iff in Hx.
    destruct Hx as (kv & Ekv & Hin). apply filter_In in Hin.
    apply in_map_iff. exists kv. tauto.
  - destruct e; simpl; try by_entity H.
    apply Hset; [by_entity Hk | apply (H EComment) | apply (H EComment)].
Qed.

Lemma reachable_keys_from_one (s : MemStorage.t) :
  MemStorage.reachable s -> keys_from_one s.
Proof.
  induction 1 as [|o s Hr IH].
  - intros e. destruct e; simpl; split; try lia; repeat constructor; lia.
  - apply keys_from_one_step; [|exact IH].
    now destruct (reachable_invariant s Hr).
Qed.

(** X12: [createPost] of the in-memory store stamps the post with the
    server's time and keeps user and content; its [activityId || null]
    turns a provided 0 into null, but in a reachable store no activity has
    id 0 (ids start at 1), so that a post never loses a reference to a
    stored activity: whenever [getActivityById] knows the provided id, the
    stored post carries it. *)
Theorem createPost_keeps_activity_reference :
  forall (s : MemStorage.t) (post : InsertPost.t) (now a : Z),
    MemStorage.reachable s ->
    InsertPost.activityId post = Js.Val a ->
    MemStorage.getActivityById a s <> None ->
    let r := fst (MemStorage.createPost post now s) in
    let s' := snd (MemStorage.createPost post now s) in
    Post.activityId r = Some a
    /\ Post.timestamp r = now
    /\ Post.userId r = InsertPost.userId post
    /\ Post.content r = InsertPost.content post
    /\ In r (JsMap.values (MemStorage.posts s'))
    /\ MemStorage.getActivityById 0 s = None.
Proof.
  intros s post now a Hr Ha Hknown r s'.
  destruct (reachable_invariant s Hr) as [Hk _].
  pose proof (reachable_keys_from_one s Hr EActivity) as [_ Hpos].
  simpl in Hpos.
  assert (Hzero : MemStorage.getActivityById 0 s = None).
  { unfold MemStorage.getActivityById.
    destruct (JsMap.get 0 (MemStorage.activities s)) as [x|] eqn:E;
      [|reflexivity].
    apply get_some_key in E. rewrite Forall_forall in Hpos.
    specialize (Hpos 0 E). lia. }
  assert (Hnz : a <> 0) by (intros ->; contradiction).
  subst r s'. unfold MemStorage.createPost. simpl. rewrite Ha.
  repeat split; try assumption.
  - simpl. now rewrite truthy_number_nonzero.
  - rewrite JsMap_values_set_fresh
      by (apply below_not_in; exact (Hk EPost)).
    apply in_or_app. right. now left.
Qed.

Lemma createPost_keeps_activity_reference_witness :
  let s := snd (MemStorage.step
                  (MemStorage.CreateActivity Sample.private_ride 500)
                  MemStorage.constructor) in
  Post.activityId
    (fst (MemStorage.createPost
            (InsertPost.mk 1 (Js.Val 1) "ride done" Js.Undefined) 900 s))
  = Some 1.
Proof.
  refine (proj1 (createPost_keeps_activity_reference
                   (snd (MemStorage.step
                           (MemStorage.CreateActivity Sample.private_ride 500)
                           MemStorage.constructor))
                   (InsertPost.mk 1 (Js.Val 1) "ride done" Js.Undefined)
                   900 1
                   (MemStorage.reachable_step _ _ MemStorage.reachable_new)
                   eq_refl _)).
  discriminate.
Defined.

(** ** Logging water and reading it back *)

Lemma sort_snoc_perm {A} (cmp : A -> A -> Z) (l : list A) (x : A) :
  Permutation (Array.sort cmp (l ++ [x])) (x :: Array.sort cmp l).
Proof.
  rewrite sort_perm. rewrite Permutation_app_comm. simpl.
  constructor. symmetry. apply sort_perm.
Qed.

(** X13: [addWaterIntake] of the in-memory store, which accepts any
    [userId], stamps the record with the server's time; afterwards the
    listing of that user holds the new record besides the former ones, and
    the listing of every other user is what it was. *)
Theorem addWaterIntake_then_list :
  forall (intake : InsertWaterIntake.t) (now : Z) (s : MemStorage.t),
    MemStorage.reachable s ->
    let r := fst (MemStorage.addWaterIntake intake now s) in
    let s' := snd (MemStorage.addWaterIntake intake now s) in
    r = WaterIntake.mk (MemStorage.waterIntakeIdCounter s)
                       (InsertWaterIntake.userId intake)
                       (InsertWaterIntake.amount intake) now
    /\ Permutation
         (MemStorage.getWaterIntakeByUserId
            (InsertWaterIntake.userId intake) s')
         (r :: MemStorage.getWaterIntakeByUserId
                 (InsertWaterIntake.userId intake) s)
    /\ (forall u, u <> InsertWaterIntake.userId intake ->
          MemStorage.getWaterIntakeByUserId u s'
          = MemStorage.getWaterIntakeByUserId u s).
Proof.
  intros intake now s Hr r s'. destruct (reachable_invariant s Hr) as [Hk _].
  assert (Hv : JsMap.values (MemStorage.waterIntakes s')
               = JsMap.values (MemStorage.waterIntakes s) ++ [r]).
  { subst s' r. unfold MemStorage.addWaterIntake. simpl.
    apply JsMap_values_set_fresh, below_not_in. exact (Hk EWaterIntake). }
  split; [reflexivity|].
  unfold MemStorage.getWaterIntakeByUserId, Array.filter. rewrite Hv.
  split.
  - rewrite filter_app. simpl. rewrite Z.eqb_refl.
    apply sort_snoc_perm.
  - intros u Hu. rewrite filter_app. simpl.
    replace (InsertWaterIntake.userId intake =? u) with false
      by (symmetry; apply Z.eqb_neq; congruence).
    now rewrite app_nil_r.
Qed.

Lemma addWaterIntake_then_list_witness :
  let s' := snd (MemStorage.addWaterIntake (InsertWaterIntake.mk 9 250) 77
                   MemStorage.constructor) in
  Permutation (MemStorage.getWaterIntakeByUserId 9 s')
              [WaterIntake.mk 1 9 250 77].
Proof.
  exact (proj1 (proj2 (addWaterIntake_then_list (InsertWaterIntake.mk 9 250)
                         77 MemStorage.constructor
                         MemStorage.reachable_new))).
Defined.

(** X20: on the relational store, for a user id, an amount and a next
    sequence value within the range of an [integer] column,
    [addWaterIntake] for a stored user returns the record it inserted,
    stamped with the server's time; afterwards the listing of that user
    holds the new record besides the former ones, and the listing of every
    other user is what it was.  For an unknown user it raises the
    foreign-key violation and every listing is what it was. *)
Theorem relational_addWaterIntake_then_list :
  forall (intake : InsertWaterIntake.t) (now : Z) (d : Db.t),
    int4 (InsertWaterIntake.userId intake) ->
    int4 (InsertWaterIntake.amount intake) ->
    int4 (Db.water_intake_id_seq d) ->
    let d' := snd (DatabaseStorage.addWaterIntake intake now d) in
    (Db.user_exists (InsertWaterIntake.userId intake) d = true ->
     exists r,
       fst (DatabaseStorage.addWaterIntake intake now d) = Db.Ok r
       /\ r = WaterIntake.mk (Db.water_intake_id_seq d)
                             (InsertWaterIntake.userId intake)
                             (InsertWaterIntake.amount intake) now
       /\ Permutation
            (DatabaseStorage.getWaterIntakeByUserId
               (InsertWaterIntake.userId intake) d')
            (r :: DatabaseStorage.getWaterIntakeByUserId
                    (InsertWaterIntake.userId intake) d)
       /\ (forall u, u <> InsertWaterIntake.userId intake ->
             DatabaseStorage.getWaterIntakeByUserId u d'
             = DatabaseStorage.getWaterIntakeByUserId u d))
    /\ (Db.user_exists (InsertWaterIntake.userId intake) d = false ->
        fst (DatabaseStorage.addWaterIntake intake now d)
        = Db.Err Db.ForeignKeyViolation
        /\ forall u, DatabaseStorage.getWaterIntakeByUserId u d'
                     = DatabaseStorage.getWaterIntakeByUserId u d).
Proof.
  intros intake now d _ _ _ d'. subst d'.
  unfold DatabaseStorage.addWaterIntake, Db.insert_waterIntake. split.
  - intros Hu. rewrite Hu. simpl. eexists. split; [reflexivity|].
    split; [reflexivity|].
    unfold DatabaseStorage.getWaterIntakeByUserId, Db.order_desc. simpl.
    split.
    + rewrite filter_app. simpl. rewrite Z.eqb_refl.
      apply sort_snoc_perm.
    + intros u Hne. rewrite filter_app. simpl.
      replace (InsertWaterIntake.userId intake =? u) with false
        by (symmetry; apply Z.eqb_neq; congruence).
      now rewrite app_nil_r.
  - intros Hu. rewrite Hu. simpl. split; reflexivity.
Qed.

Lemma relational_addWaterIntake_then_list_witness :
  fst (DatabaseStorage.addWaterIntake (InsertWaterIntake.mk 1 250) 77
         Sample.db_with_post)
  = Db.Ok (WaterIntake.mk 1 1 250 77)
  /\ fst (DatabaseStorage.addWaterIntake (InsertWaterIntake.mk 9 250) 77
            Db.empty)
     = Db.Err Db.ForeignKeyViolation.
Proof.
  assert (H250 : int4 250) by (unfold int4; lia).
  assert (H1 : int4 1) by (unfold int4; lia).
  assert (H9 : int4 9) by (unfold int4; lia).
  split.
  - destruct (proj1 (relational_addWaterIntake_then_list
                       (InsertWaterIntake.mk 1 250) 77 Sample.db_with_post
                       H1 H250 H1) eq_refl) as (r & E & -> & _).
    exact E.
  - exact (proj1 (proj2 (relational_addWaterIntake_then_list
                           (InsertWaterIntake.mk 9 250) 77 Db.empty
                           H9 H250 H1) eq_refl)).
Defined.

(** ** The date argument of a day query *)

(** X14: in a zone of constant offset the day query reads nothing but the
    local calendar day off its date: two dates on the same local day give
    the same answer on either store, and every date lies inside its own
    window. *)
Theorem day_query_ignores_time_of_day :
  forall tza userId date1 date2 : Z,
    Date.Day (Date.LocalTime (Date.fixed tza) date1)
    = Date.Day (Date.LocalTime (Date.fixed tza) date2) ->
    (forall s,
       MemStorage.getWaterIntakeByUserIdAndDate (Date.fixed tza) userId date1 s
       = MemStorage.getWaterIntakeByUserIdAndDate (Date.fixed tza) userId
           date2 s)
    /\ (forall d,
          DatabaseStorage.getWaterIntakeByUserIdAndDate (Date.fixed tza)
            userId date1 d
          = DatabaseStorage.getWaterIntakeByUserIdAndDate (Date.fixed tza)
              userId date2 d)
    /\ Date.setHours (Date.fixed tza) date1 0 0 0 0 <= date1
       <= Date.setHours (Date.fixed tza) date1 23 59 59 999.
Proof.
  intros tza userId date1 date2 Hday.
  assert (E0 : Date.setHours (Date.fixed tza) date1 0 0 0 0
               = Date.setHours (Date.fixed tza) date2 0 0 0 0)
    by (rewrite !setHours_start; now rewrite Hday).
  assert (E1 : Date.setHours (Date.fixed tza) date1 23 59 59 999
               = Date.setHours (Date.fixed tza) date2 23 59 59 999)
    by (rewrite !setHours_end; now rewrite E0).
  split; [|split].
  - intros s. unfold MemStorage.getWaterIntakeByUserIdAndDate.
    now rewrite E0, E1.
  - intros d. unfold DatabaseStorage.getWaterIntakeByUserIdAndDate.
    now rewrite E0, E1.
  - pose proof (day_window tza date1 date1) as Hw.
    unfold same_local_day in Hw. rewrite Z.eqb_refl in Hw.
    apply andb_true_iff in Hw. rewrite !Z.leb_le in Hw. exact Hw.
Qed.

Lemma day_query_ignores_time_of_day_witness :
  MemStorage.getWaterIntakeByUserIdAndDate (Date.fixed 3600000) 1 10
    Sample.midnight_store
  = MemStorage.getWaterIntakeByUserIdAndDate (Date.fixed 3600000) 1 43200000
      Sample.midnight_store.
Proof.
  exact (proj1 (day_query_ignores_time_of_day 3600000 1 10 43200000 eq_refl)
               Sample.midnight_store).
Defined.

(** ** Registration and login *)

Lemma find_none_not_in_names (name : string) (l : list User.t) :
  find (fun user => String.eqb (User.username user) name) l = None ->
  ~ In name (map User.username l).
Proof.
  intros H Hin. apply in_map_iff in Hin. destruct Hin as (x & E & Hx).
  apply (find_none _ _ H) in Hx. simpl in Hx.
  rewrite E, String.eqb_refl in Hx. discriminate.
Qed.

Lemma Mem_find_user_after_createUser (u : InsertUser.t) (s : MemStorage.t)
  (name : string) :
  keys_below s ->
  MemStorage.getUserByUsername name (snd (MemStorage.createUser u s))
  = match MemStorage.getUserByUsername name s with
    | Some x => Some x
    | None => if String.eqb (InsertUser.username u) name
              then Some (fst (MemStorage.createUser u s)) else None
    end.
Proof.
  intros Hk. unfold MemStorage.getUserByUsername, Array.find.
  rewrite Mem_users_after_createUser by exact Hk.
  rewrite find_over_app. reflexivity.
Qed.

Lemma Mem_register_cases (reqBody : Routes.parsed InsertUser.t)
  (s : MemStorage.t) :
  (exists u,
     reqBody = Routes.Valid u
     /\ MemStorage.getUserByUsername (InsertUser.username u) s = None
     /\ Routes.register reqBody s
        = (Routes.mkResponse 201
             (Routes.UserBody
                (Routes.without_password (fst (MemStorage.createUser u s)))),
           snd (MemStorage.createUser u s)))
  \/ (Routes.status (fst (Routes.register reqBody s)) = 400
      /\ snd (Routes.register reqBody s) = s).
Proof.
  destruct reqBody as [u|m]; [|right; split; reflexivity].
  destruct (MemStorage.getUserByUsername (InsertUser.username u) s) eqn:E.
  - right. unfold Routes.register. simpl. rewrite E. split; reflexivity.
  - left. exists u. split; [reflexivity|]. split; [exact E|].
    unfold Routes.register. simpl. now rewrite E.
Qed.

Lemma registered_only_invariant (s : MemStorage.t) :
  registered_only s ->
  MemStorage.reachable s
  /\ NoDup (map User.username (JsMap.values (MemStorage.users s))).
Proof.
  induction 1 as [|reqBody s Hs [Hr Hnd]].
  - split; [constructor | simpl; repeat constructor; auto].
  - destruct (Mem_register_cases reqBody s)
      as [(u & _ & Hnone & E) | [_ E]]; rewrite E; simpl; [|now split].
    split.
    + apply (MemStorage.reachable_step (MemStorage.CreateUser u) s Hr).
    + destruct (reachable_invariant s Hr) as [Hk _].
      pose proof (Mem_users_after_createUser u s Hk) as Hv.
      unfold MemStorage.createUser in Hv. simpl in Hv. rewrite Hv.
      rewrite map_app. simpl. apply NoDup_snoc; [exact Hnd|].
      now apply find_none_not_in_names.
Qed.

(** X15: an in-memory store that is written through the register handler
    only never holds two users with one username, although [createUser]
    itself accepts duplicates; each request is answered either with 201 and
    the created user without its password (the body was valid and the name
    free) or with 400 and an unchanged store. *)
Theorem register_keeps_usernames_unique :
  forall s : MemStorage.t,
    registered_only s ->
    NoDup (map User.username (JsMap.values (MemStorage.users s)))
    /\ forall reqBody,
         (exists u,
            reqBody = Routes.Valid u
            /\ MemStorage.getUserByUsername (InsertUser.username u) s = None
            /\ Routes.register reqBody s
               = (Routes.mkResponse 201
                    (Routes.UserBody
                       (Routes.without_password
                          (fst (MemStorage.createUser u s)))),
                  snd (MemStorage.createUser u s)))
         \/ (Routes.status (fst (Routes.register reqBody s)) = 400
             /\ snd (Routes.register reqBody s) = s).
Proof.
  intros s Hs. split.
  - now destruct (registered_only_invariant s Hs).
  - intros reqBody. apply Mem_register_cases.
Qed.

Lemma register_keeps_usernames_unique_witness :
  NoDup (map User.username
           (JsMap.values
              (MemStorage.users
                 (snd (Routes.register (Routes.Valid Sample.zero_goal_user)
                         (snd (Routes.register
                                 (Routes.Valid Sample.zero_goal_user)
                                 MemStorage.constructor))))))).
Proof.
  exact (proj1 (register_keeps_usernames_unique _
                  (registered_step _ _
                     (registered_step _ _ registered_new)))).
Defined.

Lemma filter_nil_existsb {A} (p : A -> bool) (l : list A) :
  filter p l = [] -> existsb p l = false.
Proof.
  induction l as [|a l IH]; simpl; [reflexivity|].
  destruct (p a); [discriminate | exact IH].
Qed.

Lemma hd_filter_none {A} (p : A -> bool) (l : list A) :
  hd_error (filter p l) = None -> filter p l = [].
Proof. now destruct (filter p l). Qed.

(** X16: a user who registered can log in: when the username is free (and,
    on the relational store, the id drawn from the sequence is free) the
    register handler answers 201, and a login with the same username and
    password then answers 200 with the very body the registration returned,
    while a login with any other password answers 401. *)
Theorem register_then_login :
  forall u : InsertUser.t,
    (forall s,
       MemStorage.reachable s ->
       MemStorage.getUserByUsername (InsertUser.username u) s = None ->
       let resp := fst (Routes.register (Routes.Valid u) s) in
       let s' := snd (Routes.register (Routes.Valid u) s) in
       Routes.status resp = 201
       /\ Routes.login
            (Routes.Valid (InsertUser.username u, InsertUser.password u)) s'
          = Routes.mkResponse 200 (Routes.json resp)
       /\ (forall pw, pw <> InsertUser.password u ->
             Routes.login (Routes.Valid (InsertUser.username u, pw)) s'
             = Routes.mkResponse 401
                 (Routes.Message (Routes.Text "Invalid credentials"))))
    /\
    (forall d,
       DatabaseStorage.getUserByUsername (InsertUser.username u) d = None ->
       Db.mem (Db.users_id_seq d) (map User.id (Db.users d)) = false ->
       let resp := fst (Routes.register (Routes.Valid u) d) in
       let d' := snd (Routes.register (Routes.Valid u) d) in
       Routes.status resp = 201
       /\ Routes.login
            (Routes.Valid (InsertUser.username u, InsertUser.password u)) d'
          = Routes.mkResponse 200 (Routes.json resp)
       /\ (forall pw, pw <> InsertUser.password u ->
             Routes.login (Routes.Valid (InsertUser.username u, pw)) d'
             = Routes.mkResponse 401
                 (Routes.Message (Routes.Text "Invalid credentials")))).
Proof.
  intros u. split.
  - intros s Hr Hnone resp s'. subst resp s'.
    destruct (reachable_invariant s Hr) as [Hk _].
    pose proof (Mem_find_user_after_createUser u s (InsertUser.username u) Hk)
      as Hfind.
    rewrite Hnone, String.eqb_refl in Hfind.
    unfold Routes.register. simpl. rewrite Hnone. simpl.
    split; [reflexivity|].
    unfold Routes.login. simpl.
    unfold MemStorage.createUser in Hfind. simpl in Hfind. rewrite Hfind.
    simpl. split.
    + now rewrite String.eqb_refl.
    + intros pw Hpw.
      destruct (String.eqb (InsertUser.password u) pw) eqn:E; [|reflexivity].
      apply String.eqb_eq in E. congruence.
  - intros d Hnone Hid resp d'. subst resp d'.
    apply hd_filter_none in Hnone.
    assert (Hfree : Db.username_taken (InsertUser.username u) (Db.users d)
                    = false) by now apply filter_nil_existsb.
    set (row := User.mk (Db.users_id_seq d) (InsertUser.username u)
                        (InsertUser.password u) (InsertUser.email u)
                        (Js.or_null (InsertUser.profilePicture u))
                        (Some (Js.or_else (InsertUser.dailyWaterGoal u) 2000))).
    assert (Ereg : Routes.register (Routes.Valid u) d
                   = (Routes.mkResponse 201
                        (Routes.UserBody (Routes.without_password row)),
                      Db.with_users (Db.users d ++ [row])
                                    (Db.users_id_seq d + 1) d)).
    { unfold Routes.register. simpl.
      unfold DatabaseStorage.getUserByUsername. rewrite Hnone. simpl.
      unfold DatabaseStorage.createUser, Db.insert_users.
      now rewrite Hfree, Hid. }
    rewrite Ereg. simpl fst. simpl snd.
    assert (Efind : DatabaseStorage.getUserByUsername (InsertUser.username u)
                      (Db.with_users (Db.users d ++ [row])
                                     (Db.users_id_seq d + 1) d)
                    = Some row).
    { unfold DatabaseStorage.getUserByUsername. simpl.
      rewrite filter_app, Hnone. simpl. now rewrite String.eqb_refl. }
    split; [reflexivity|].
    unfold Routes.login. simpl. rewrite Efind. simpl. split.
    + now rewrite String.eqb_refl.
    + intros pw Hpw.
      destruct (String.eqb (InsertUser.password u) pw) eqn:E; [|reflexivity].
      apply String.eqb_eq in E. congruence.
Qed.

Lemma register_then_login_witness :
  Routes.login (Routes.Valid ("ada"%string, "pw"%string))
    (snd (Routes.register (Routes.Valid Sample.zero_goal_user) Db.empty))
  = Routes.mkResponse 200
      (Routes.json
         (fst (Routes.register (Routes.Valid Sample.zero_goal_user)
                 Db.empty)))
  /\ Routes.login (Routes.Valid ("ada"%string, "pw"%string))
       (snd (Routes.register (Routes.Valid Sample.zero_goal_user)
               MemStorage.constructor))
     = Routes.mkResponse 200
         (Routes.json
            (fst (Routes.register (Routes.Valid Sample.zero_goal_user)
                    MemStorage.constructor))).
Proof.
  destruct (register_then_login Sample.zero_goal_user) as [Hm Hd]. split.
  - exact (proj1 (proj2 (Hd Db.empty eq_refl eq_refl))).
  - exact (proj1 (proj2 (Hm MemStorage.constructor
                            MemStorage.reachable_new eq_refl))).
Defined.

(** ** The day listing inside the full listing *)

Lemma filter_perm {A} (p : A -> bool) (l l' : list A) :
  Permutation l l' -> Permutation (filter p l) (filter p l').
Proof.
  induction 1 as [|x l l' H IH|x y l|l l' l'' H1 IH1 H2 IH2]; simpl.
  - constructor.
  - destruct (p x); [now constructor | exact IH].
  - destruct (p x), (p y); try reflexivity. apply perm_swap.
  - now transitivity (filter p l').
Qed.

Lemma filter_twice {A} (p q : A -> bool) (l : list A) :
  filter p (filter q l) = filter (fun x => q x && p x) l.
Proof.
  induction l as [|a l IH]; simpl; [reflexivity|].
  destruct (q a); simpl; [destruct (p a)|]; now rewrite IH.
Qed.

(** X17: the day listing is the full listing of the user cut down to the
    window of the day query: on either store and in every time zone the
    records [getWaterIntakeByUserIdAndDate] returns are, up to their order
    (oldest first instead of newest first), exactly those of
    [getWaterIntakeByUserId] whose timestamp lies between the instants at
    which the server clock shows 00:00:00.000 and 23:59:59.999 of the local
    day of the date; in a zone of constant offset these are the records of
    the full listing whose timestamp falls on that calendar day. *)
Theorem day_listing_within_full_listing :
  forall userId date : Z,
    (forall LocalTZA : Date.zone,
       let in_window (w : WaterIntake.t) :=
         (Date.setHours LocalTZA date 0 0 0 0 <=? WaterIntake.timestamp w)
         && (WaterIntake.timestamp w
             <=? Date.setHours LocalTZA date 23 59 59 999) in
       (forall s,
          Permutation
            (MemStorage.getWaterIntakeByUserIdAndDate LocalTZA userId date s)
            (filter in_window (MemStorage.getWaterIntakeByUserId userId s)))
       /\
       (forall d,
          Permutation
            (DatabaseStorage.getWaterIntakeByUserIdAndDate LocalTZA userId
               date d)
            (filter in_window
                    (DatabaseStorage.getWaterIntakeByUserId userId d))))
    /\
    (forall tza : Z,
       (forall s,
          Permutation
            (MemStorage.getWaterIntakeByUserIdAndDate (Date.fixed tza) userId
               date s)
            (filter
               (fun w => same_local_day tza date (WaterIntake.timestamp w))
               (MemStorage.getWaterIntakeByUserId userId s)))
       /\
       (forall d,
          Permutation
            (DatabaseStorage.getWaterIntakeByUserIdAndDate (Date.fixed tza)
               userId date d)
            (filter
               (fun w => same_local_day tza date (WaterIntake.timestamp w))
               (DatabaseStorage.getWaterIntakeByUserId userId d)))).
Proof.
  intros userId date.
  assert (H : forall (lo hi : Z) (keep : WaterIntake.t -> bool) rows,
             (forall w,
                keep w
                = (lo <=? WaterIntake.timestamp w)
                  && (WaterIntake.timestamp w <=? hi)) ->
             Permutation
               (Array.sort
                  (fun a b => WaterIntake.timestamp a - WaterIntake.timestamp b)
                  (filter (intake_in_window userId lo hi) rows))
               (filter keep
                  (Array.sort
                     (fun a b =>
                        WaterIntake.timestamp b - WaterIntake.timestamp a)
                     (filter (fun w => WaterIntake.userId w =? userId) rows)))).
  { intros lo hi keep rows Hkeep. rewrite sort_perm.
    rewrite (filter_perm _ _ _ (sort_perm _ _)).
    rewrite filter_twice.
    erewrite filter_ext; [reflexivity|].
    intros w. unfold intake_in_window. now rewrite Hkeep. }
  split.
  - intros LocalTZA in_window. split.
    + intros s. rewrite Mem_window_query. now apply H.
    + intros d. rewrite Db_window_query. now apply H.
  - intros tza. split.
    + intros s. rewrite Mem_window_query. apply H.
      intros w. now rewrite day_window.
    + intros d. rewrite Db_window_query. apply H.
      intros w. now rewrite day_window.
Qed.

Lemma day_listing_within_full_listing_witness :
  Permutation
    (MemStorage.getWaterIntakeByUserIdAndDate Sample.new_york_2024 1
       1710086400000 Sample.spring_forward_store)
    (filter
       (fun w => (1710046800000 <=? WaterIntake.timestamp w)
                 && (WaterIntake.timestamp w <=? 1710129599999))
       (MemStorage.getWaterIntakeByUserId 1 Sample.spring_forward_store)).
Proof.
  exact (proj1 (proj1 (day_listing_within_full_listing 1 1710086400000)
                  Sample.new_york_2024)
           Sample.spring_forward_store).
Defined.

(** ** What is never removed *)

Lemma get_set_fresh_keeps {V} (m : JsMap.t V) (c k : Z) (v v' : V) :
  Forall (fun k => k < c) (JsMap.keys m) ->
  JsMap.get k m = Some v -> JsMap.get k (JsMap.set c v' m) = Some v.
Proof.
  intros Hb Hget. rewrite JsMap_get_set_neq; [exact Hget|].
  apply get_some_key in Hget. rewrite Forall_forall in Hb.
  specialize (Hb k Hget). lia.
Qed.

Lemma keys_set_incl {V} (m : JsMap.t V) (c k : Z) (v : V) :
  In k (JsMap.keys m) -> In k (JsMap.keys (JsMap.set c v m)).
Proof.
  induction m as [|[k' v'] r IH]; simpl; [contradiction|].
  destruct (c =? k') eqn:E; simpl.
  - apply Z.eqb_eq in E. subst. tauto.
  - intros [->|H]; [now left | right; now apply IH].
Qed.

Lemma kept_records_refl (s : MemStorage.t) : kept_records s s.
Proof. unfold kept_records. repeat split; auto. Qed.

Lemma kept_records_trans (s1 s2 s3 : MemStorage.t) :
  kept_records s1 s2 -> kept_records s2 s3 -> kept_records s1 s3.
Proof.
  intros (A1 & A2 & A3 & A4 & A5 & A6) (B1 & B2 & B3 & B4 & B5 & B6).
  unfold kept_records. repeat split; eauto.
Qed.

Lemma kept_records_step (o : MemStorage.op) (s : MemStorage.t) :
  keys_below s -> kept_records s (snd (MemStorage.step o s)).
Proof.
  intros Hk. destruct o; unfold_ops;
    try (destruct (JsMap.get id (MemStorage.users s)) as [user|] eqn:E);
    try (destruct (find _ (JsMap.values (MemStorage.likes s))) as [l|]);
    unfold kept_records; simpl; repeat split; auto;
    try (intros k v Hget; eapply get_set_fresh_keeps; [|exact Hget];
         by_entity Hk);
    intros k Hin; now apply keys_set_incl.
Qed.

(** X18: the in-memory store never removes or rewrites a water intake, an
    activity, a route, a post or a comment, and never removes a user: along
    any sequence of operations from a reachable state, each such record is
    still found under its key, unchanged, and each user key is still
    there. *)
Theorem nothing_but_likes_is_removed :
  forall (s : MemStorage.t) (os : list MemStorage.op),
    MemStorage.reachable s ->
    kept_records s (snd (MemStorage.run os s)).
Proof.
  intros s os. revert s. induction os as [|o os IH]; intros s Hr.
  - apply kept_records_refl.
  - rewrite run_cons.
    apply (kept_records_trans _ (snd (MemStorage.step o s))).
    + apply kept_records_step. now destruct (reachable_invariant s Hr).
    + apply IH. now constructor.
Qed.

Lemma nothing_but_likes_is_removed_witness :
  kept_records Sample.midnight_store
    (snd (MemStorage.run
            [MemStorage.AddWaterIntake (InsertWaterIntake.mk 1 100) 5;
             MemStorage.RemoveLike 1 1]
            Sample.midnight_store)).
Proof.
  apply nothing_but_likes_is_removed.
  unfold Sample.midnight_store.
  apply (MemStorage.reachable_step
           (MemStorage.AddWaterIntake (InsertWaterIntake.mk 1 300) 86400000)).
  apply (MemStorage.reachable_step
           (MemStorage.AddWaterIntake (InsertWaterIntake.mk 1 250) 86399999)).
  constructor.
Defined.

(** ** A username held twice *)

(** X19: when the in-memory store is made to hold a second user under a
    username that is taken ([createUser] does not check), that user cannot
    log in: the login handler compares with the password of the older user
    and answers 401 unless the two passwords are equal. *)
Theorem shadowed_user_cannot_log_in :
  forall (s : MemStorage.t) (u : InsertUser.t) (older : User.t),
    MemStorage.reachable s ->
    MemStorage.getUserByUsername (InsertUser.username u) s = Some older ->
    User.password older <> InsertUser.password u ->
    let s' := snd (MemStorage.createUser u s) in
    MemStorage.getUser (User.id (fst (MemStorage.createUser u s))) s'
    = Some (fst (MemStorage.createUser u s))
    /\ Routes.login
         (Routes.Valid (InsertUser.username u, InsertUser.password u)) s'
       = Routes.mkResponse 401
           (Routes.Message (Routes.Text "Invalid credentials")).
Proof.
  intros s u older Hr Hold Hpw s'. split.
  - apply Mem_createUser_persists.
  - destruct (reachable_invariant s Hr) as [Hk _].
    pose proof (Mem_find_user_after_createUser u s (InsertUser.username u) Hk)
      as Hfind.
    rewrite Hold in Hfind.
    unfold Routes.login. simpl. subst s'. rewrite Hfind.
    destruct (String.eqb (User.password older) (InsertUser.password u)) eqn:E;
      [|reflexivity].
    apply String.eqb_eq in E. contradiction.
Qed.

Lemma shadowed_user_cannot_log_in_witness :
  Routes.login (Routes.Valid ("testuser"%string, "secret"%string))
    (snd (MemStorage.createUser
            (InsertUser.mk "testuser" "secret" "me@example.com"
                           Js.Undefined Js.Undefined)
            MemStorage.constructor))
  = Routes.mkResponse 401
      (Routes.Message (Routes.Text "Invalid credentials")).
Proof.
  refine (proj2 (shadowed_user_cannot_log_in MemStorage.constructor
                   (InsertUser.mk "testuser" "secret" "me@example.com"
                                  Js.Undefined Js.Undefined)
                   (User.mk 1 "testuser" "password" "test@example.com"
                            None (Some 2000))
                   MemStorage.reachable_new eq_refl _)).
  discriminate.
Defined.
